(** * ThreeDiStatistics: the statistics aggregation engine of
      [tools/statistics.py], embedded and checked against its specification.

    The embedding follows the source function by function.  Conventions:

    - Python floats and numpy float64 cells are exact rationals ([Q]);
      equalities between computed numbers are stated with [==].  The one
      floating-point effect kept is that a numpy division by zero gives a
      non-finite number where a Python division raises.
    - A numpy masked array is a list of [sample]s (data cell and mask bit).
      The mask is consulted where the source reads [.mask]; [np.asarray] and
      arithmetic that accumulates into a plain ndarray read the data cell.
      Where the source rounds, scales or compares a cell of a masked array
      itself, the model reads the data cell as well; numpy does something
      else on a masked cell, so a theorem about such a value states that
      the cells it is computed from are unmasked.
    - The time-on-surface accumulator of the manholes is a float32 array in
      the source and an exact sum here: of the durations only the sign is
      stated.
    - A numpy array is a list.  The arrays of one element family have one
      length, and [zip_with] stands for numpy's elementwise operations on
      them; numpy's broadcasting and shape errors are outside the model.
      Indexing is written out: [getitem] and [np_take] raise [IndexError].
    - Python exceptions are the constructors of [exn]; code that can raise
      lives in the [result] monad.  A top-level function returns an
      [outcome]: the tables as committed, the warnings logged, and the
      exception that ended it, if any.
    - Rows returned by a database query are an input list, in query order;
      a Python dict built from a query is a [gmap].
    - The plugin runs in QGIS 2, on Python 2: [round] breaks ties away from
      zero, and [None] compares below every number. *)

From Stdlib Require Import ZArith QArith Qround Qminmax Qabs Lqa Lia Ascii String.
From stdpp Require Import base option list gmap strings.

Open Scope Q_scope.

(** ** Python values and exceptions *)

Inductive exn : Set :=
  | KeyError
  | IndexError
  | TypeError
  | ValueError
  | OverflowError
  | ZeroDivisionError.

Inductive result (A : Type) : Type :=
  | Ok (a : A)
  | Raise (e : exn).
Arguments Ok {A} a.
Arguments Raise {A} e.

#[global] Instance result_ret : MRet result := fun A a => Ok a.
#[global] Instance result_bind : MBind result := fun A B f m =>
  match m with
  | Ok a => f a
  | Raise e => Raise e
  end.

(** [x[i]] on a sequence. *)
Definition getitem {A} (l : list A) (i : nat) : result A :=
  match l !! i with
  | Some x => Ok x
  | None => Raise IndexError
  end.

(** An operand that must not be [None]. *)
Definition need {A} (o : option A) : result A :=
  match o with
  | Some x => Ok x
  | None => Raise TypeError
  end.

(** [a / b] on Python floats. *)
Definition py_div (a b : Q) : result Q :=
  if Qeq_bool b 0 then Raise ZeroDivisionError else Ok (a / b).

(** [int(x)]: truncation toward zero. *)
Definition py_int (x : Q) : Z := Z.quot (Qnum x) (Zpos (Qden x)).

(** [round(x, ndigits)]: to the nearest multiple of [10 ^ -ndigits], a tie
    going away from zero. *)
Definition round_half_away (x : Q) : Z :=
  if Qle_bool 0 x then Qfloor (x + (1 # 2)) else (- Qfloor (- x + (1 # 2)))%Z.

Definition pow10 (n : nat) : Q := inject_Z (10 ^ Z.of_nat n).

Definition py_round (x : Q) (ndigits : nat) : Q :=
  inject_Z (round_half_away (x * pow10 ndigits)) / pow10 ndigits.

(** numpy float64 division does not raise: [x / 0] is [inf] or [nan]. *)
Inductive npfloat : Set :=
  | Finite (q : Q)
  | NotFinite.

Definition np_div (a b : Q) : npfloat :=
  if Qeq_bool b 0 then NotFinite else Finite (a / b).

Definition np_round (x : npfloat) (ndigits : nat) : npfloat :=
  match x with
  | Finite q => Finite (py_round q ndigits)
  | NotFinite => NotFinite
  end.

(** ** numpy arrays *)

Record sample : Set := Sample { data : Q; mask : bool }.

Definition unmasked (x : Q) : sample := Sample x false.
Definition masked (fill : Q) : sample := Sample fill true.

(** [np.asarray(h)] *)
Definition np_asarray (h : list sample) : list Q := data <$> h.

(** The data cells of a masked array that the source keeps using as it is
    ([round(a[i], n)], [np.maximum(m, a)]): the values the source works
    with in the cells that are unmasked. *)
Definition data_cells (h : list sample) : list Q := data <$> h.

(** [np.take(a, idx)], also the [index=] argument of the result reader. *)
Definition np_take {A} (a : list A) (idx : list nat) : result (list A) :=
  mapM (getitem a) idx.

(** [np.maximum(a, b)] *)
Definition np_maximum (a b : list Q) : list Q := zip_with Qmax a b.

(** [np.copyto(dst, src, where=w)] *)
Definition np_copyto (dst src : list Q) (w : list bool) : list Q :=
  zip_with (fun d (sw : Q * bool) => if sw.2 then sw.1 else d) dst (zip src w).

Definition np_zeros (n : nat) : list Q := replicate n 0.
Definition np_full (n : nat) (x : Q) : list Q := replicate n x.

(** ** The time-series result source *)

Record datasource : Type := {
  available_variables : list string;
  timestamps : list Q;
  agg_var_timestamps : string -> list Q;
  (* get_values_by_timestep_nr(variable, nr), all elements *)
  values_by_timestep_nr : string -> Z -> list sample;
  nFlowLine : nat;
  (* id_mapping['v2_pumpstation'], keyed by the pump id *)
  id_mapping_pumpstation : gmap Z Z
}.

Definition get_available (ds : datasource) (name : string) : bool :=
  bool_decide (name ∈ available_variables ds).

Definition get_values_by_timestep_nr (ds : datasource) (variable : string)
    (nr : Z) (index : option (list nat)) : result (list sample) :=
  match index with
  | None => Ok (values_by_timestep_nr ds variable nr)
  | Some idx => np_take (values_by_timestep_nr ds variable nr) idx
  end.

(** [len(ds.timestamps) - 1] *)
Definition last_timestep_nr (ds : datasource) : Z :=
  Z.of_nat (length (timestamps ds)) - 1.

(** The loop header shared by the three aggregations:
<<
    prev_timestamp = 0.0
    for i, timestamp in enumerate(ds.timestamps):
        timestep = timestamp - prev_timestamp
        prev_timestamp = timestamp
        ...
>> *)
Fixpoint time_loop {S : Type} (body : Z -> Q -> S -> result S)
    (i : Z) (prev_timestamp : Q) (ts : list Q) (st : S) : result S :=
  match ts with
  | [] => Ok st
  | timestamp :: ts' =>
      let timestep := timestamp - prev_timestamp in
      st' ← body i timestep st;
      time_loop body (i + 1)%Z timestamp ts' st'
  end.

(** [int(ds.timestamps[-1] / (len(ds.timestamps) - 1))].  The timestamps are
    a numpy array: over one timestamp the quotient is [inf] or [nan] and
    [int] raises. *)
Definition avg_timestep (ds : datasource) : result Z :=
  match last (timestamps ds) with
  | None => Raise IndexError
  | Some final =>
      match np_div final (inject_Z (last_timestep_nr ds)) with
      | Finite q => Ok (py_int q)
      | NotFinite => if Qeq_bool final 0 then Raise ValueError else Raise OverflowError
      end
  end.

(** ** Tables *)

(** Static model metadata (the model spatialite).  The two levels of a
    manhole are taken as filled in: the function rounds and subtracts them
    without a test for null. *)
Record v2_manhole : Type := {
  mh_id : Z;
  mh_connection_node_id : Z;
  mh_code : string;
  mh_display_name : string;
  mh_surface_level : Q;
  mh_bottom_level : Q
}.

Record v2_pipe : Type := {
  pipe_id : Z;
  pipe_code : string;
  pipe_display_name : string;
  pipe_sewerage_type : option Z;
  invert_level_start_point : option Q;
  invert_level_end_point : option Q;
  (* joined columns of v2_cross_section_definition *)
  pipe_shape : option Z;
  pipe_height : option string;
  pipe_width : option string
}.

Record v2_weir : Type := {
  weir_id : Z;
  weir_code : string;
  weir_display_name : string;
  weir_crest_level : option Q
}.

Record v2_pumpstation : Type := {
  pump_id : Z;
  pump_code : string;
  pump_display_name : string;
  pump_capacity : option Q
}.

Record modeldb : Type := {
  (* query(v2_manhole) ordered by connection_node_id *)
  manholes : list v2_manhole;
  (* the same joined with the pipes on either end, grouped per manhole,
     with min(sewerage_type) *)
  manholes_with_pipes : list (v2_manhole * option Z);
  (* query(v2_pipe, shape, height, width) joined on the cross section *)
  pipes : list v2_pipe;
  weirs : list v2_weir;
  (* query(v2_pumpstation) ordered by id *)
  pumpstations : list v2_pumpstation
}.

(** The result cache: network tables and statistics tables. *)
Record Node : Type := { node_spatialite_id : option Z; node_id : nat }.

Record Flowline : Type := {
  fl_id : nat;
  fl_spatialite_id : option Z;
  fl_type : string;
  start_node_idx : nat;
  end_node_idx : nat;
  fl_abs_length : Q
}.

Record ManholeStats : Type := {
  ms_id : nat;
  ms_code : string;
  ms_display_name : string;
  ms_sewerage_type : option Z;
  ms_bottom_level : Q;
  ms_surface_level : Q;
  duration_water_on_surface : Q;
  ms_max_waterlevel : Q;
  ms_end_waterlevel : Q;
  max_waterdepth_surface : Q;
  ms_max_filling : option npfloat;
  ms_end_filling : option npfloat
}.

Record FlowlineStats : Type := {
  fs_id : nat;
  cum_discharge : option Q;
  cum_discharge_positive : option Q;
  cum_discharge_negative : option Q;
  max_discharge : option Q;
  end_discharge : option Q;
  max_velocity : option Q;
  end_velocity : option Q;
  max_waterlevel_head : option Q;
  max_waterlevel_start : option Q;
  max_waterlevel_end : option Q;
  end_waterlevel_start : option Q;
  end_waterlevel_end : option Q;
  abs_length : option Q
}.

Record PipeStats : Type := {
  ps_id : nat;
  ps_code : string;
  ps_display_name : string;
  ps_sewerage_type : option Z;
  invert_level_start : option Q;
  invert_level_end : option Q;
  profile_height : option string;
  max_hydro_gradient : option Q;
  ps_max_filling : option Q;
  ps_end_filling : option Q
}.

Record WeirStats : Type := {
  ws_id : nat;
  ws_code : string;
  ws_display_name : string;
  crest_level : option Q;
  perc_volume : option Q;
  perc_volume_positive : option Q;
  perc_volume_negative : option Q;
  max_overfall_height : option Q
}.

Record PumplineStats : Type := {
  pl_id : Z;
  pl_spatialite_id : Z;
  pl_code : string;
  pl_display_name : string;
  pl_capacity : Q;
  pl_cum_discharge : Q;
  pl_end_discharge : Q;
  pl_max_discharge : Q;
  duration_pump_on_max : npfloat;
  perc_max_discharge : npfloat;
  perc_end_discharge : npfloat
}.

Record StatSource : Type := {
  src_table : string;
  src_field : string;
  from_agg : bool;
  input_param : string;
  src_timestep : option Z
}.

Record resdb : Type := {
  nodes : list Node;
  flowlines : list Flowline;          (* ordered by id *)
  manhole_stats : list ManholeStats;
  flowline_stats : list FlowlineStats;
  pipe_stats : list PipeStats;
  weir_stats : list WeirStats;
  pumpline_stats : list PumplineStats;
  stat_source : list StatSource
}.

Inductive warning : Type :=
  | ManholeNotInResults (manhole_id : Z)
  | NoResultForPipe (spatialite_id : Z).

(** What a top-level function leaves behind: the committed tables, the
    warnings logged, and the exception that ended it, if any. *)
Record outcome : Type := {
  out_db : resdb;
  out_log : list warning;
  out_exn : option exn
}.

(** [{key(r): val(r) for r in rows}]: a later row replaces an earlier one. *)
Definition dict_of {V} (rows : list (Z * V)) : gmap Z V :=
  foldl (fun m kv => <[kv.1 := kv.2]> m) ∅ rows.

(** [d[k]] *)
Definition dict_get {V} (d : gmap Z V) (k : Z) : result V :=
  match d !! k with
  | Some v => Ok v
  | None => Raise KeyError
  end.

(** ** Provenance: [set_stat_source] *)

Definition same_source (table field : string) (r : StatSource) : bool :=
  bool_decide (src_table r = table) && bool_decide (src_field r = field).

Fixpoint set_stat_source (store : list StatSource) (table field : string)
    (from_aggregated : bool) (param : string) (timestep : option Z)
    : list StatSource :=
  let instance := {| src_table := table; src_field := field;
                     from_agg := from_aggregated; input_param := param;
                     src_timestep := timestep |} in
  match store with
  | [] => [instance]
  | r :: rest =>
      if same_source table field r then instance :: rest
      else r :: set_stat_source rest table field from_aggregated param timestep
  end.

(** [query(StatSource).filter(table, field).first()] *)
Definition find_source (store : list StatSource) (table field : string)
    : option StatSource :=
  snd <$> list_find (fun r => same_source table field r = true) store.

(** One call [self.set_stat_source(table, field, from_agg, param[, timestep])]. *)
Definition source_call : Type := string * string * bool * string * option Z.

Definition apply_source (store : list StatSource) (c : source_call)
    : list StatSource :=
  let '(table, field, agg, param, timestep) := c in
  set_stat_source store table field agg param timestep.

(** The row a call leaves in the table. *)
Definition source_row (c : source_call) : StatSource :=
  let '(table, field, agg, param, timestep) := c in
  {| src_table := table; src_field := field; from_agg := agg;
     input_param := param; src_timestep := timestep |}.

Definition record_sources (calls : list source_call) (store : list StatSource)
    : list StatSource :=
  foldl apply_source store calls.

(** ** [get_manhole_attributes_and_statistics] *)

(** [{node.spatialite_id: node.id for node in nodes}] over the nodes whose
    [spatialite_id] is not null. *)
Definition node_mapping_of (ns : list Node) : gmap Z nat :=
  dict_of (omap (fun n => (fun k => (k, node_id n)) <$> node_spatialite_id n) ns).

(** The first loop over the manholes: positional index and surface level of
    every manhole found in the results, a warning for every other one. *)
Definition manhole_index_step (node_mapping : gmap Z nat)
    (acc : list nat * list Q * list warning) (manhole : v2_manhole)
    : list nat * list Q * list warning :=
  let '(manhole_idx, manhole_surface_level, log) := acc in
  match node_mapping !! mh_connection_node_id manhole with
  | Some idx =>
      (manhole_idx ++ [idx],
       manhole_surface_level ++ [mh_surface_level manhole], log)
  | None => (manhole_idx, manhole_surface_level,
             log ++ [ManholeNotInResults (mh_id manhole)])
  end.

Definition manhole_indices (node_mapping : gmap Z nat) (ms : list v2_manhole)
    : list nat * list Q * list warning :=
  foldl (manhole_index_step node_mapping) ([], [], []) ms.

(** [h_max] starts as the float [-9999.0] on the aggregate path and as an
    array otherwise. *)
Inductive h_max_t : Type :=
  | HScalar (x : Q)
  | HArray (a : list Q).

Definition h_maximum (h_max : h_max_t) (h_array : list Q) : h_max_t :=
  match h_max with
  | HScalar x => HArray (Qmax x <$> h_array)
  | HArray a => HArray (np_maximum a h_array)
  end.

Definition h_getitem (h_max : h_max_t) (i : nat) : result Q :=
  match h_max with
  | HScalar _ => Raise TypeError
  | HArray a => getitem a i
  end.

Fixpoint agg_h_max_loop (ds : datasource) (manhole_idx : list nat)
    (i : Z) (ts : list Q) (h_max : h_max_t) : result h_max_t :=
  match ts with
  | [] => Ok h_max
  | _ :: ts' =>
      h ← get_values_by_timestep_nr ds "s1_max" i (Some manhole_idx);
      agg_h_max_loop ds manhole_idx (i + 1)%Z ts' (h_maximum h_max (np_asarray h))
  end.

(** [t[cond] += timestep] *)
Definition add_where (t : list Q) (cond : list bool) (timestep : Q) : list Q :=
  zip_with (fun x (c : bool) => if c then x + timestep else x) t cond.

(** [h >= manhole_surface_level], on the data cells. *)
Definition ge_surface (h : list sample) (surface : list Q) : list bool :=
  zip_with (fun x s => Qle_bool s (data x)) h surface.

Definition manhole_body (ds : datasource) (manhole_idx : list nat)
    (manhole_surface_level : list Q) (agg_h_max : bool)
    (i : Z) (timestep : Q) (st : h_max_t * list Q) : result (h_max_t * list Q) :=
  let '(h_max, t_water_surface) := st in
  h ← get_values_by_timestep_nr ds "s1" (i - 1)%Z (Some manhole_idx);
  let h_array := np_asarray h in
  let h_max := if agg_h_max then h_max else h_maximum h_max h_array in
  mret (h_max, add_where t_water_surface (ge_surface h manhole_surface_level) timestep).

(** [int(np.where(manhole_idx == idx)[0][0])] *)
Definition np_where_first (manhole_idx : list nat) (idx : nat) : result nat :=
  match list_find (fun x => x = idx) manhole_idx with
  | Some (ri, _) => Ok ri
  | None => Raise IndexError
  end.

(** [100 * (h - bottom) / (surface - bottom)], rounded to one decimal. *)
Definition manhole_filling (h : Q) (manhole : v2_manhole) : npfloat :=
  np_round (np_div (100 * (h - mh_bottom_level manhole))
                   (mh_surface_level manhole - mh_bottom_level manhole)) 1.

Definition manhole_row (manhole_idx : list nat) (h_max : h_max_t)
    (t_water_surface : list Q) (h_end : list sample)
    (idx : nat) (manhole : v2_manhole) (sewerage_type : option Z)
    : result ManholeStats :=
  ri ← np_where_first manhole_idx idx;
  t_ri ← getitem t_water_surface ri;
  h_max_ri ← h_getitem h_max ri;
  h_end_ri ← getitem (data_cells h_end) ri;
  mret {|
    ms_id := idx;
    ms_code := mh_code manhole;
    ms_display_name := mh_display_name manhole;
    ms_sewerage_type := sewerage_type;
    ms_bottom_level := py_round (mh_bottom_level manhole) 3;
    ms_surface_level := py_round (mh_surface_level manhole) 3;
    duration_water_on_surface := py_round (t_ri / 3600) 3;
    ms_max_waterlevel := py_round h_max_ri 3;
    ms_end_waterlevel := py_round h_end_ri 3;
    max_waterdepth_surface := py_round (h_max_ri - mh_surface_level manhole) 3;
    ms_max_filling := Some (manhole_filling h_max_ri manhole);
    ms_end_filling := Some (manhole_filling h_end_ri manhole)
  |}.

Fixpoint manhole_rows (node_mapping : gmap Z nat) (manhole_idx : list nat)
    (h_max : h_max_t) (t_water_surface : list Q) (h_end : list sample)
    (ms : list (v2_manhole * option Z)) : result (list ManholeStats) :=
  match ms with
  | [] => Ok []
  | (manhole, sewerage_type) :: ms' =>
      match node_mapping !! mh_connection_node_id manhole with
      | Some idx =>
          mhs ← manhole_row manhole_idx h_max t_water_surface h_end
                  idx manhole sewerage_type;
          rest ← manhole_rows node_mapping manhole_idx h_max t_water_surface
                   h_end ms';
          mret (mhs :: rest)
      | None =>
          manhole_rows node_mapping manhole_idx h_max t_water_surface h_end ms'
      end
  end.

(** Everything up to the list [manhole_stats]; also returns [agg_h_max]. *)
Definition manhole_statistics (ds : datasource) (mdb : modeldb)
    (node_mapping : gmap Z nat) : list warning * result (list ManholeStats * bool) :=
  let '(manhole_idx, manhole_surface_level, log) :=
    manhole_indices node_mapping (manholes mdb) in
  let nr_manholes := length manhole_idx in
  let agg_h_max := get_available ds "s1_max" in
  (log,
   h_max ← (if agg_h_max
            then agg_h_max_loop ds manhole_idx 0 (agg_var_timestamps ds "s1_max")
                   (HScalar (-9999))
            else Ok (HArray (np_full nr_manholes (-9999))));
   st ← time_loop (manhole_body ds manhole_idx manhole_surface_level agg_h_max)
          0 0 (timestamps ds) (h_max, np_zeros nr_manholes);
   h_end ← get_values_by_timestep_nr ds "s1" (last_timestep_nr ds) (Some manhole_idx);
   rows ← manhole_rows node_mapping manhole_idx st.1 st.2 h_end
            (manholes_with_pipes mdb);
   mret (rows, agg_h_max)).

Definition manhole_sources (agg_h_max : bool) (avg_timestep : Z)
    : list source_call :=
  [ ("manhole_stats", "duration_water_on_surface", false, "s1", Some avg_timestep);
    ("manhole_stats", "end_waterlevel", false, "s1", Some avg_timestep);
    ("manhole_stats", "end_filling", false, "s1", Some avg_timestep) ] ++
  (if agg_h_max then
     [ ("manhole_stats", "max_waterlevel", true, "s1_max", None);
       ("manhole_stats", "max_waterdepth_surface", true, "s1_max", None);
       ("manhole_stats", "max_filling", true, "s1_max", None) ]
   else
     [ ("manhole_stats", "max_waterlevel", false, "s1", Some avg_timestep);
       ("manhole_stats", "max_waterdepth_surface", false, "s1", Some avg_timestep);
       ("manhole_stats", "max_filling", false, "s1", Some avg_timestep) ]).

Definition set_manhole_stats (db : resdb) (rows : list ManholeStats) : resdb :=
  {| nodes := nodes db; flowlines := flowlines db;
     manhole_stats := rows; flowline_stats := flowline_stats db;
     pipe_stats := pipe_stats db; weir_stats := weir_stats db;
     pumpline_stats := pumpline_stats db; stat_source := stat_source db |}.

Definition set_sources (db : resdb) (store : list StatSource) : resdb :=
  {| nodes := nodes db; flowlines := flowlines db;
     manhole_stats := manhole_stats db; flowline_stats := flowline_stats db;
     pipe_stats := pipe_stats db; weir_stats := weir_stats db;
     pumpline_stats := pumpline_stats db; stat_source := store |}.

(** The rows replace the table in one transaction; the provenance rows are
    written after it. *)
Definition get_manhole_attributes_and_statistics (ds : datasource)
    (mdb : modeldb) (db : resdb) : outcome :=
  let '(log, r) := manhole_statistics ds mdb (node_mapping_of (nodes db)) in
  match r with
  | Raise e => {| out_db := db; out_log := log; out_exn := Some e |}
  | Ok (rows, agg_h_max) =>
      let db := set_manhole_stats db rows in
      match avg_timestep ds with
      | Raise e => {| out_db := db; out_log := log; out_exn := Some e |}
      | Ok avg =>
          {| out_db := set_sources db
                         (record_sources (manhole_sources agg_h_max avg)
                                         (stat_source db));
             out_log := log; out_exn := None |}
      end
  end.

(** ** [get_agg_cum_if_available] *)

Definition get_agg_cum_if_available (ds : datasource) (parameter_name : string)
    : list Q * bool :=
  if get_available ds parameter_name then
    (data_cells
       (values_by_timestep_nr ds parameter_name
          (Z.of_nat (length (agg_var_timestamps ds parameter_name)) - 1)%Z),
     true)
  else (np_zeros (nFlowLine ds), false).

(** ** [calc_flowline_statistics] *)

Record flow_acc : Type := {
  qcum : list Q;
  qcum_pos : list Q;
  qcum_neg : list Q;
  qmax : list Q;
  vmax : list Q;
  dh_max : list Q;
  hmax_start : list Q;
  hmax_end : list Q
}.

(** [a += q * timestep], [a += q.clip(min=0) * timestep] and
    [a -= q.clip(max=0) * timestep], on the data cells. *)
Definition iadd_scaled (a : list Q) (q : list sample) (timestep : Q) : list Q :=
  zip_with (fun x s => x + data s * timestep) a q.

Definition iadd_positive (a : list Q) (q : list sample) (timestep : Q) : list Q :=
  zip_with (fun x s => x + Qmax (data s) 0 * timestep) a q.

Definition isub_negative (a : list Q) (q : list sample) (timestep : Q) : list Q :=
  zip_with (fun x s => x - Qmin (data s) 0 * timestep) a q.

(** [np.maximum(a, np.abs(q))], on the data cells. *)
Definition max_abs (a : list Q) (q : list sample) : list Q :=
  np_maximum a ((fun s => Qabs (data s)) <$> q).

(** [np.asarray(np.absolute(h_start - h_end))] *)
Definition abs_difference (h_start h_end : list sample) : list Q :=
  zip_with (fun a b => Qabs (data a - data b)) h_start h_end.

(** [np.logical_not(np.logical_or(h_start.mask, h_end.mask))] *)
Definition both_unmasked (h_start h_end : list sample) : list bool :=
  zip_with (fun a b => negb (mask a || mask b)) h_start h_end.

Definition flow_body (ds : datasource) (start_idx end_idx : list nat)
    (agg_q_cum agg_q_cum_pos agg_q_cum_neg : bool)
    (i : Z) (timestep : Q) (st : flow_acc) : result flow_acc :=
  let q := values_by_timestep_nr ds "q" (i - 1)%Z in
  let qcum := if agg_q_cum then qcum st else iadd_scaled (qcum st) q timestep in
  let qcum_pos :=
    if agg_q_cum_pos then qcum_pos st else iadd_positive (qcum_pos st) q timestep in
  let qcum_neg :=
    if agg_q_cum_neg then qcum_neg st else isub_negative (qcum_neg st) q timestep in
  let qmax := max_abs (qmax st) q in
  let v := values_by_timestep_nr ds "u1" (i - 1)%Z in
  let vmax := max_abs (vmax st) v in
  let h := values_by_timestep_nr ds "s1" (i - 1)%Z in
  h_start ← np_take h start_idx;
  h_end ← np_take h end_idx;
  let dh_max :=
    np_copyto (dh_max st)
      (np_maximum (dh_max st) (abs_difference h_start h_end))
      (both_unmasked h_start h_end) in
  let hmax_start := np_maximum (hmax_start st) (np_asarray h_start) in
  let hmax_end := np_maximum (hmax_end st) (np_asarray h_end) in
  mret {| qcum := qcum; qcum_pos := qcum_pos; qcum_neg := qcum_neg;
          qmax := qmax; vmax := vmax; dh_max := dh_max;
          hmax_start := hmax_start; hmax_end := hmax_end |}.

Definition flow_init (ds : datasource) (qcum qcum_pos qcum_neg : list Q)
    : flow_acc :=
  {| qcum := qcum; qcum_pos := qcum_pos; qcum_neg := qcum_neg;
     qmax := np_zeros (nFlowLine ds);
     vmax := np_zeros (nFlowLine ds);
     dh_max := np_zeros (nFlowLine ds);
     hmax_start := np_full (nFlowLine ds) (-9999);
     hmax_end := np_full (nFlowLine ds) (-9999) |}.

Definition flowline_row (st : flow_acc) (qend vend : list Q)
    (hend_start hend_end : list Q) (i : nat) (flowline : Flowline)
    : result FlowlineStats :=
  qcum_i ← getitem (qcum st) i;
  qcum_pos_i ← getitem (qcum_pos st) i;
  qcum_neg_i ← getitem (qcum_neg st) i;
  qmax_i ← getitem (qmax st) i;
  qend_i ← getitem qend i;
  vmax_i ← getitem (vmax st) i;
  vend_i ← getitem vend i;
  dh_max_i ← getitem (dh_max st) i;
  hmax_start_i ← getitem (hmax_start st) i;
  hmax_end_i ← getitem (hmax_end st) i;
  hend_start_i ← getitem hend_start i;
  hend_end_i ← getitem hend_end i;
  mret {|
    fs_id := fl_id flowline;
    cum_discharge := Some (py_round qcum_i 3);
    cum_discharge_positive := Some (py_round qcum_pos_i 3);
    cum_discharge_negative := Some (py_round qcum_neg_i 3);
    max_discharge := Some (py_round qmax_i 8);
    end_discharge := Some (py_round qend_i 8);
    max_velocity := Some (py_round vmax_i 8);
    end_velocity := Some (py_round vend_i 8);
    max_waterlevel_head := Some (py_round dh_max_i 4);
    max_waterlevel_start := Some (py_round hmax_start_i 3);
    max_waterlevel_end := Some (py_round hmax_end_i 3);
    end_waterlevel_start := Some (py_round hend_start_i 3);
    end_waterlevel_end := Some (py_round hend_end_i 3);
    abs_length := Some (py_round (fl_abs_length flowline) 3)
  |}.

(** [for i, flowline in enumerate(...)] *)
Fixpoint flowline_rows (st : flow_acc) (qend vend : list Q)
    (hend_start hend_end : list Q) (i : nat) (fls : list Flowline)
    : result (list FlowlineStats) :=
  match fls with
  | [] => Ok []
  | flowline :: fls' =>
      fls_i ← flowline_row st qend vend hend_start hend_end i flowline;
      rest ← flowline_rows st qend vend hend_start hend_end (S i) fls';
      mret (fls_i :: rest)
  end.

(** The three availability flags, as returned by [get_agg_cum_if_available]. *)
Definition flow_aggregates (ds : datasource) : bool * bool * bool :=
  ((get_agg_cum_if_available ds "q_cum").2,
   (get_agg_cum_if_available ds "q_cum_positive").2,
   (get_agg_cum_if_available ds "q_cum_negative").2).

(** The accumulators after the first [k] passes of the time loop. *)
Definition flow_after (ds : datasource) (fls : list Flowline) (k : nat)
    : result flow_acc :=
  let start_idx := start_node_idx <$> fls in
  let end_idx := end_node_idx <$> fls in
  let '(qcum, agg_q_cum) := get_agg_cum_if_available ds "q_cum" in
  let '(qcum_pos, agg_q_cum_pos) := get_agg_cum_if_available ds "q_cum_positive" in
  let '(qcum_neg, agg_q_cum_neg) := get_agg_cum_if_available ds "q_cum_negative" in
  time_loop (flow_body ds start_idx end_idx agg_q_cum agg_q_cum_pos agg_q_cum_neg)
    0 0 (take k (timestamps ds)) (flow_init ds qcum qcum_pos qcum_neg).

(** The accumulators when the time loop is done. *)
Definition flow_final (ds : datasource) (fls : list Flowline) : result flow_acc :=
  flow_after ds fls (length (timestamps ds)).

(** One flowline's reading of the vectorised head-difference update: the
    samples at its two ends in pass [i], and what the pass does to its cell
    of [dh_max]. *)
#[global] Instance sample_inhabited : Inhabited sample := populate (masked 0).

Definition ends_at (ds : datasource) (flowline : Flowline) (i : Z)
    : sample * sample :=
  let h := values_by_timestep_nr ds "s1" (i - 1)%Z in
  (h !!! start_node_idx flowline, h !!! end_node_idx flowline).

Definition ends_unmasked (ends : sample * sample) : bool :=
  negb (mask ends.1 || mask ends.2).

Definition head_difference (ends : sample * sample) : Q :=
  Qabs (data ends.1 - data ends.2).

(** The running maximum of the head difference over a list of passes. *)
Definition max_head (passes : list (sample * sample)) : Q :=
  foldl (fun d ends => Qmax d (head_difference ends)) 0 passes.

(** The passes [0 .. k-1] as one flowline sees them. *)
Definition passes_of (ds : datasource) (flowline : Flowline) (k : nat)
    : list (sample * sample) :=
  (fun i => ends_at ds flowline (Z.of_nat i)) <$> seq 0 k.

(** What one pass does to a flowline's cell of [dh_max]. *)
Definition head_update (d : Q) (ends : sample * sample) : Q :=
  if ends_unmasked ends then Qmax d (head_difference ends) else d.

(** The time steps the loop header computes. *)
Fixpoint timesteps_from (prev_timestamp : Q) (ts : list Q) : list Q :=
  match ts with
  | [] => []
  | timestamp :: ts' => (timestamp - prev_timestamp) :: timesteps_from timestamp ts'
  end.

(** Everything up to the list [flowline_list]. *)
Definition flowline_statistics (ds : datasource) (fls : list Flowline)
    : result (list FlowlineStats) :=
  let start_idx := start_node_idx <$> fls in
  let end_idx := end_node_idx <$> fls in
  st ← flow_final ds fls;
  let qend := data_cells (values_by_timestep_nr ds "q" (last_timestep_nr ds)) in
  let vend := data_cells (values_by_timestep_nr ds "u1" (last_timestep_nr ds)) in
  let h_last_ts := values_by_timestep_nr ds "s1" (last_timestep_nr ds) in
  hend_start ← np_take h_last_ts start_idx;
  hend_end ← np_take h_last_ts end_idx;
  flowline_rows st qend vend (data_cells hend_start) (data_cells hend_end) 0 fls.

Definition flowline_sources (agg_q_cum agg_q_cum_pos agg_q_cum_neg : bool)
    (avg_timestep : Z) : list source_call :=
  [ ("flowline_stats", "max_discharge", false, "q", Some avg_timestep);
    ("flowline_stats", "end_discharge", false, "q", Some avg_timestep);
    ("flowline_stats", "max_velocity", false, "u1", Some avg_timestep);
    ("flowline_stats", "end_velocity", false, "u1", Some avg_timestep);
    ("flowline_stats", "max_waterlevel_head", false, "s1", Some avg_timestep);
    ("flowline_stats", "max_waterlevel_start", false, "s1", Some avg_timestep);
    ("flowline_stats", "max_waterlevel_end", false, "s1", Some avg_timestep);
    ("flowline_stats", "end_waterlevel_start", false, "s1", Some avg_timestep);
    ("flowline_stats", "end_waterlevel_end", false, "s1", Some avg_timestep);
    ("pipe_stats", "max_filling", false, "s1", Some avg_timestep);
    ("pipe_stats", "end_filling", false, "s1", Some avg_timestep);
    ("pipe_stats", "max_hydro_gradient", false, "s1", Some avg_timestep);
    ("weir_stats", "max_overfall_height", false, "s1", Some avg_timestep) ] ++
  (if agg_q_cum then
     [ ("flowline_stats", "cum_discharge", true, "q_cum", None);
       ("weir_stats", "perc_volume", true, "q_cum", None) ]
   else
     [ ("flowline_stats", "cum_discharge", false, "q", Some avg_timestep);
       ("weir_stats", "perc_volume", false, "q", Some avg_timestep) ]) ++
  (if agg_q_cum_pos then
     [ ("flowline_stats", "cum_discharge_positive", true, "q_cum_pos", None);
       ("weir_stats", "perc_volume_positive", true, "q_cum_pos", None) ]
   else
     [ ("flowline_stats", "cum_discharge_positive", false, "q", Some avg_timestep);
       ("weir_stats", "perc_volume_positive", false, "q", Some avg_timestep) ]) ++
  (if agg_q_cum_neg then
     [ ("flowline_stats", "cum_discharge_negative", true, "q_cum_neg", None);
       ("weir_stats", "perc_volume_negative", true, "q_cum_neg", None) ]
   else
     [ ("flowline_stats", "cum_discharge_negative", false, "q", Some avg_timestep);
       ("weir_stats", "perc_volume_negative", false, "q", Some avg_timestep) ]).

Definition set_flowline_stats (db : resdb) (rows : list FlowlineStats) : resdb :=
  {| nodes := nodes db; flowlines := flowlines db;
     manhole_stats := manhole_stats db; flowline_stats := rows;
     pipe_stats := pipe_stats db; weir_stats := weir_stats db;
     pumpline_stats := pumpline_stats db; stat_source := stat_source db |}.

Definition calc_flowline_statistics (ds : datasource) (db : resdb) : outcome :=
  match flowline_statistics ds (flowlines db) with
  | Raise e => {| out_db := db; out_log := []; out_exn := Some e |}
  | Ok rows =>
      let db := set_flowline_stats db rows in
      match avg_timestep ds with
      | Raise e => {| out_db := db; out_log := []; out_exn := Some e |}
      | Ok avg =>
          let '(agg_q_cum, agg_q_cum_pos, agg_q_cum_neg) := flow_aggregates ds in
          {| out_db := set_sources db
                         (record_sources
                            (flowline_sources agg_q_cum agg_q_cum_pos agg_q_cum_neg avg)
                            (stat_source db));
             out_log := []; out_exn := None |}
      end
  end.

(** A time axis on which every timestamp is above the one before it. *)
Definition strictly_increasing (ts : list Q) : Prop :=
  forall i a b, ts !! i = Some a -> ts !! S i = Some b -> a < b.

(** ** [calc_pipe_and_weir_statistics] *)

(** [s.split(' ')] *)
Fixpoint py_split (s : string) : list string :=
  match s with
  | EmptyString => [EmptyString]
  | String c rest =>
      if bool_decide (c = " "%char) then EmptyString :: py_split rest
      else match py_split rest with
           | [] => [String c EmptyString]
           | token :: tokens => String c token :: tokens
           end
  end.

(** [max(tokens)] on strings: the first token no later one is greater than. *)
Definition py_max (tokens : list string) : result string :=
  match tokens with
  | [] => Raise ValueError
  | t :: ts => Ok (foldl (fun m x => if String.ltb m x then x else m) t ts)
  end.

(** [shape in (a, b)] *)
Definition shape_in (shape : option Z) (codes : list Z) : bool :=
  match shape with
  | Some s => bool_decide (s ∈ codes)
  | None => false
  end.

Definition profile_height_of (pipe : v2_pipe) : result (option string) :=
  match (if shape_in (pipe_shape pipe) [1; 2]%Z then pipe_width pipe else None) with
  | Some width => height ← py_max (py_split width); mret (Some height)
  | None =>
      match (if shape_in (pipe_shape pipe) [5; 6]%Z then pipe_height pipe else None) with
      | Some height_descr => height ← py_max (py_split height_descr); mret (Some height)
      | None => Ok None
      end
  end.

(** [{f.spatialite_id: f.id for f in flowlines if f.type == type}]; a null
    [spatialite_id] is a key no pipe or weir id equals. *)
Definition flowline_mapping (type : string) (fls : list Flowline) : gmap Z nat :=
  dict_of (omap (fun f => if bool_decide (fl_type f = type)
                          then (fun k => (k, fl_id f)) <$> fl_spatialite_id f
                          else None) fls).

Definition pipe_stat (pipes_mapping : gmap Z nat) (pipe : v2_pipe)
    : result PipeStats :=
  idx ← dict_get pipes_mapping (pipe_id pipe);
  height ← profile_height_of pipe;
  mret {|
    ps_id := idx;
    ps_code := pipe_code pipe;
    ps_display_name := pipe_display_name pipe;
    ps_sewerage_type := pipe_sewerage_type pipe;
    invert_level_start := invert_level_start_point pipe;
    invert_level_end := invert_level_end_point pipe;
    profile_height := height;
    max_hydro_gradient := None;
    ps_max_filling := None;
    ps_end_filling := None
  |}.

(** The loop over the pipes: the warning is logged, and the loop body goes on
    to [idx = pipes_mapping[pipe.id]]. *)
Fixpoint pipe_rows (pipes_mapping : gmap Z nat) (ps : list v2_pipe)
    (log : list warning) (pipe_stats : list PipeStats)
    : list warning * result (list PipeStats) :=
  match ps with
  | [] => (log, Ok pipe_stats)
  | pipe :: ps' =>
      let log :=
        match pipes_mapping !! pipe_id pipe with
        | None => log ++ [NoResultForPipe (pipe_id pipe)]
        | Some _ => log
        end in
      match pipe_stat pipes_mapping pipe with
      | Raise e => (log, Raise e)
      | Ok row => pipe_rows pipes_mapping ps' log (pipe_stats ++ [row])
      end
  end.

Definition weir_stat (weirs_mapping : gmap Z nat) (weir : v2_weir)
    : result WeirStats :=
  idx ← dict_get weirs_mapping (weir_id weir);
  mret {|
    ws_id := idx;
    ws_code := weir_code weir;
    ws_display_name := weir_display_name weir;
    crest_level := weir_crest_level weir;
    perc_volume := None;
    perc_volume_positive := None;
    perc_volume_negative := None;
    max_overfall_height := None
  |}.

Definition weir_rows (weirs_mapping : gmap Z nat) (ws : list v2_weir)
    : result (list WeirStats) :=
  mapM (weir_stat weirs_mapping) ws.

Definition get_filling
    (start_level end_level start_invert_level end_invert_level profile_height
       : option Q) : result (option Q) :=
  match start_level, end_level, start_invert_level, end_invert_level,
        profile_height with
  | Some start_level, Some end_level, Some start_invert_level,
    Some end_invert_level, Some profile_height =>
      fill_start ← py_div (start_level - start_invert_level) profile_height;
      let fill_start := Qmax 0 (Qmin 1 fill_start) in
      fill_end ← py_div (end_level - end_invert_level) profile_height;
      let fill_end := Qmax 0 (Qmin 1 fill_end) in
      mret (Some (py_round (100 * (fill_start + fill_end) / 2) 3))
  | _, _, _, _, _ => Ok None
  end.

(** The guarded assignment of [pipe.max_hydro_gradient]; the field keeps its
    value when the guard fails. *)
Definition hydro_gradient (old : option Q) (stats : FlowlineStats) : option Q :=
  match abs_length stats, max_waterlevel_head stats with
  | Some length, Some head =>
      if negb (Qle_bool length 0)
      then Some (py_round (100 * (head / length)) 3)
      else old
  | _, _ => old
  end.

Section Derived.

(** The number a [pipe_stats.profile_height] cell reads back as.  The table
    declarations ([sql_models]) are not part of the sources, so the
    conversion of the stored token is a parameter. *)
Variable float_of_text : string -> option Q.

Definition pipe_derived (pipe : PipeStats) (stats : FlowlineStats)
    : result PipeStats :=
  let gradient := hydro_gradient (max_hydro_gradient pipe) stats in
  let height := profile_height pipe ≫= float_of_text in
  max_filling ← get_filling (max_waterlevel_start stats) (max_waterlevel_end stats)
                   (invert_level_start pipe) (invert_level_end pipe) height;
  end_filling ← get_filling (end_waterlevel_start stats) (end_waterlevel_end stats)
                   (invert_level_start pipe) (invert_level_end pipe) height;
  mret {|
    ps_id := ps_id pipe;
    ps_code := ps_code pipe;
    ps_display_name := ps_display_name pipe;
    ps_sewerage_type := ps_sewerage_type pipe;
    invert_level_start := invert_level_start pipe;
    invert_level_end := invert_level_end pipe;
    profile_height := profile_height pipe;
    max_hydro_gradient := gradient;
    ps_max_filling := max_filling;
    ps_end_filling := end_filling
  |}.

(** [row.flowline.stats]: the statistics row with the id of the row's
    flowline; a row without one is not part of the joined query. *)
Definition joined_stats (db : resdb) (id : nat) : option FlowlineStats :=
  if existsb (fun f => Nat.eqb (fl_id f) id) (flowlines db)
  then find (fun fs => Nat.eqb (fs_id fs) id) (flowline_stats db)
  else None.

Definition pipes_derived (db : resdb) : result (list PipeStats) :=
  mapM (fun pipe =>
          match joined_stats db (ps_id pipe) with
          | Some stats => pipe_derived pipe stats
          | None => Ok pipe
          end) (pipe_stats db).

(** SQL [max] over a column: nulls are skipped, no row gives null. *)
Definition sql_max (column : list (option Q)) : option Q :=
  foldl (fun m x =>
           match m, x with
           | Some a, Some b => Some (Qmax a b)
           | None, _ => x
           | _, None => m
           end) None column.

(** The flowline statistics whose id is the id of a weir statistics row. *)
Definition weir_flowline_stats (db : resdb) : list FlowlineStats :=
  filter (fun fs => existsb (fun ws => Nat.eqb (ws_id ws) (fs_id fs)) (weir_stats db) = true)
         (flowline_stats db).

(** [round(100 * x / maximum, 2)] *)
Definition perc_of (x maximum : option Q) : result (option Q) :=
  x ← need x;
  maximum ← need maximum;
  p ← py_div (100 * x) maximum;
  mret (Some (py_round p 2)).

(** [max(a, b)] of Python 2, where [None] is below every number. *)
Definition py2_max (a b : option Q) : option Q :=
  match a, b with
  | Some x, Some y => Some (Qmax x y)
  | Some x, None => Some x
  | None, _ => b
  end.

Definition overfall_height (stats : FlowlineStats) (crest : option Q)
    : result (option Q) :=
  level ← need (py2_max (max_waterlevel_start stats) (max_waterlevel_end stats));
  crest ← need crest;
  mret (Some (py_round (level - crest) 3)).

Definition weir_derived (max_cum_discharge max_cum_discharge_pos
    max_cum_discharge_neg : option Q) (weir : WeirStats) (stats : FlowlineStats)
    : result WeirStats :=
  pv ← perc_of (cum_discharge stats) max_cum_discharge;
  pv_pos ← perc_of (cum_discharge_positive stats) max_cum_discharge_pos;
  pv_neg ← perc_of (cum_discharge_negative stats) max_cum_discharge_neg;
  height ← overfall_height stats (crest_level weir);
  mret {|
    ws_id := ws_id weir;
    ws_code := ws_code weir;
    ws_display_name := ws_display_name weir;
    crest_level := crest_level weir;
    perc_volume := pv;
    perc_volume_positive := pv_pos;
    perc_volume_negative := pv_neg;
    max_overfall_height := height
  |}.

Definition weirs_derived (db : resdb) : result (list WeirStats) :=
  let stats := weir_flowline_stats db in
  let max_cum_discharge := sql_max ((fun fs => Qabs <$> cum_discharge fs) <$> stats) in
  let max_cum_discharge_pos := sql_max (cum_discharge_positive <$> stats) in
  let max_cum_discharge_neg := sql_max (cum_discharge_negative <$> stats) in
  mapM (fun weir =>
          match joined_stats db (ws_id weir) with
          | Some stats =>
              weir_derived max_cum_discharge max_cum_discharge_pos
                max_cum_discharge_neg weir stats
          | None => Ok weir
          end) (weir_stats db).

Definition set_pipe_stats (db : resdb) (rows : list PipeStats) : resdb :=
  {| nodes := nodes db; flowlines := flowlines db;
     manhole_stats := manhole_stats db; flowline_stats := flowline_stats db;
     pipe_stats := rows; weir_stats := weir_stats db;
     pumpline_stats := pumpline_stats db; stat_source := stat_source db |}.

Definition set_weir_stats (db : resdb) (rows : list WeirStats) : resdb :=
  {| nodes := nodes db; flowlines := flowlines db;
     manhole_stats := manhole_stats db; flowline_stats := flowline_stats db;
     pipe_stats := pipe_stats db; weir_stats := rows;
     pumpline_stats := pumpline_stats db; stat_source := stat_source db |}.

(** Four commits: the pipe rows, the weir rows, the derived pipe fields, the
    derived weir fields.  An exception leaves what was committed before it. *)
Definition calc_pipe_and_weir_statistics (mdb : modeldb) (db : resdb) : outcome :=
  let pipes_mapping := flowline_mapping "v2_pipe" (flowlines db) in
  let '(log, r) := pipe_rows pipes_mapping (pipes mdb) [] [] in
  match r with
  | Raise e => {| out_db := db; out_log := log; out_exn := Some e |}
  | Ok rows =>
  let db := set_pipe_stats db rows in
  let weirs_mapping := flowline_mapping "v2_weir" (flowlines db) in
  match weir_rows weirs_mapping (weirs mdb) with
  | Raise e => {| out_db := db; out_log := log; out_exn := Some e |}
  | Ok rows =>
  let db := set_weir_stats db rows in
  match pipes_derived db with
  | Raise e => {| out_db := db; out_log := log; out_exn := Some e |}
  | Ok rows =>
  let db := set_pipe_stats db rows in
  match weirs_derived db with
  | Raise e => {| out_db := db; out_log := log; out_exn := Some e |}
  | Ok rows =>
      {| out_db := set_weir_stats db rows; out_log := log; out_exn := None |}
  end end end end.

End Derived.

(** ** [get_pump_attributes_and_statistics] *)

(** The loop body.  The accumulation line reads
    [q_cum += q_cum * timestep]. *)
Definition pump_body (ds : datasource) (agg_q_cum : bool)
    (i : Z) (timestep : Q) (st : list Q * list Q) : result (list Q * list Q) :=
  let '(q_cum, q_max) := st in
  let q := values_by_timestep_nr ds "q_pump" (i - 1)%Z in
  let q_cum :=
    if agg_q_cum then q_cum
    else zip_with (fun x y => x + y * timestep) q_cum q_cum in
  mret (q_cum, np_maximum q_max (data_cells q)).

Definition np_scale (x : npfloat) (f : Q -> Q) : npfloat :=
  match x with
  | Finite q => Finite (f q)
  | NotFinite => NotFinite
  end.

Definition pump_row (ds : datasource) (q_cum q_max q_end : list Q)
    (i : nat) (pump : v2_pumpstation) : result PumplineStats :=
  mapped ← dict_get (id_mapping_pumpstation ds) (pump_id pump);
  capacity ← need (pump_capacity pump);
  q_cum_i ← getitem q_cum i;
  q_end_i ← getitem q_end i;
  q_max_i ← getitem q_max i;
  mret {|
    pl_id := (mapped - 1)%Z;
    pl_spatialite_id := pump_id pump;
    pl_code := pump_code pump;
    pl_display_name := pump_display_name pump;
    pl_capacity := capacity / 1000;
    pl_cum_discharge := py_round q_cum_i 3;
    pl_end_discharge := py_round q_end_i 8;
    pl_max_discharge := py_round q_max_i 8;
    duration_pump_on_max :=
      np_round (np_scale (np_div q_cum_i (capacity / 1000)) (fun x => x / 3600)) 3;
    perc_max_discharge := np_round (np_div (100 * q_max_i) (capacity / 1000)) 2;
    perc_end_discharge := np_round (np_div (100 * q_end_i) (capacity / 1000)) 2
  |}.

Fixpoint pump_rows (ds : datasource) (q_cum q_max q_end : list Q)
    (i : nat) (ps : list v2_pumpstation) : result (list PumplineStats) :=
  match ps with
  | [] => Ok []
  | pump :: ps' =>
      row ← pump_row ds q_cum q_max q_end i pump;
      rest ← pump_rows ds q_cum q_max q_end (S i) ps';
      mret (row :: rest)
  end.

(** Everything up to the list [pump_stats]; also returns [agg_q_cum]. *)
Definition pump_statistics (ds : datasource) (mdb : modeldb)
    : result (list PumplineStats * bool) :=
  let nr_pumps := length (pumpstations mdb) in
  let '(q_cum, agg_q_cum) := get_agg_cum_if_available ds "q_pump_cum" in
  st ← time_loop (pump_body ds agg_q_cum) 0 0 (timestamps ds)
         (q_cum, np_zeros nr_pumps);
  let q_end := data_cells (values_by_timestep_nr ds "q_pump" (last_timestep_nr ds)) in
  rows ← pump_rows ds st.1 st.2 q_end 0 (pumpstations mdb);
  mret (rows, agg_q_cum).

Definition pump_sources (agg_q_cum : bool) (avg_timestep : Z) : list source_call :=
  [ ("pumpline_stats", "end_discharge", false, "q_pump", Some avg_timestep);
    ("pumpline_stats", "max_discharge", false, "q_pump", Some avg_timestep);
    ("pumpline_stats", "perc_end_discharge", false, "q_pump", Some avg_timestep) ] ++
  (if agg_q_cum then
     [ ("pumpline_stats", "cum_discharge", true, "q_pump_cum", None);
       ("pumpline_stats", "duration_pump_on_max", true, "q_pump_cum", None);
       ("pumpline_stats", "perc_max_discharge", true, "q_pump_cum", None) ]
   else
     [ ("pumpline_stats", "cum_discharge", false, "q_pump", Some avg_timestep);
       ("pumpline_stats", "duration_pump_on_max", false, "q_pump", Some avg_timestep);
       ("pumpline_stats", "perc_max_discharge", false, "q_pump", Some avg_timestep) ]).

Definition set_pumpline_stats (db : resdb) (rows : list PumplineStats) : resdb :=
  {| nodes := nodes db; flowlines := flowlines db;
     manhole_stats := manhole_stats db; flowline_stats := flowline_stats db;
     pipe_stats := pipe_stats db; weir_stats := weir_stats db;
     pumpline_stats := rows; stat_source := stat_source db |}.

Definition get_pump_attributes_and_statistics (ds : datasource)
    (mdb : modeldb) (db : resdb) : outcome :=
  match pump_statistics ds mdb with
  | Raise e => {| out_db := db; out_log := []; out_exn := Some e |}
  | Ok (rows, agg_q_cum) =>
      let db := set_pumpline_stats db rows in
      match avg_timestep ds with
      | Raise e => {| out_db := db; out_log := []; out_exn := Some e |}
      | Ok avg =>
          {| out_db := set_sources db
                         (record_sources (pump_sources agg_q_cum avg)
                                         (stat_source db));
             out_log := []; out_exn := None |}
      end
  end.

(** ** [run], with the statistics recalculated *)

(** One step of the run: the next function starts from what the previous one
    committed, and an exception ends the run. *)
Definition and_then (o : outcome) (f : resdb -> outcome) : outcome :=
  match out_exn o with
  | Some _ => o
  | None =>
      let o' := f (out_db o) in
      {| out_db := out_db o'; out_log := out_log o ++ out_log o';
         out_exn := out_exn o' |}
  end.

Definition run (float_of_text : string -> option Q) (ds : datasource)
    (mdb : modeldb) (db : resdb) : outcome :=
  and_then
    (and_then
       (and_then (get_manhole_attributes_and_statistics ds mdb db)
                 (calc_flowline_statistics ds))
       (calc_pipe_and_weir_statistics float_of_text mdb))
    (get_pump_attributes_and_statistics ds mdb).

(** The source calls of a whole run, in the order they are made. *)
Definition run_sources (ds : datasource) (avg : Z) : list source_call :=
  let '(agg_q_cum, agg_q_cum_pos, agg_q_cum_neg) := flow_aggregates ds in
  manhole_sources (get_available ds "s1_max") avg ++
  flowline_sources agg_q_cum agg_q_cum_pos agg_q_cum_neg avg ++
  pump_sources (get_available ds "q_pump_cum") avg.

(** ** Concrete result files and networks *)

(** [l[nr]] with a negative [nr] counting from the end, as numpy and netCDF
    index the time axis. *)
Definition py_index {A} (l : list A) (nr : Z) : option A :=
  if (nr <? 0)%Z
  then (if (Z.of_nat (length l) + nr <? 0)%Z then None
        else l !! Z.to_nat (Z.of_nat (length l) + nr))
  else l !! Z.to_nat nr.

(** A result file given by one array per time step for each variable. *)
Definition series_source (vars : list (string * list (list sample)))
    (ts : list Q) (n_flowlines : nat) (pump_ids : list (Z * Z)) : datasource :=
  {| available_variables := fst <$> vars;
     timestamps := ts;
     agg_var_timestamps := fun _ => ts;
     values_by_timestep_nr := fun v nr =>
       match list_find (fun p => p.1 = v) vars with
       | Some (_, (_, series)) => default [] (py_index series nr)
       | None => []
       end;
     nFlowLine := n_flowlines;
     id_mapping_pumpstation := dict_of pump_ids |}.

Definition empty_resdb (ns : list Node) (fls : list Flowline) : resdb :=
  {| nodes := ns; flowlines := fls; manhole_stats := []; flowline_stats := [];
     pipe_stats := []; weir_stats := []; pumpline_stats := [];
     stat_source := [] |}.

Definition no_model : modeldb :=
  {| manholes := []; manholes_with_pipes := []; pipes := []; weirs := [];
     pumpstations := [] |}.

(** Scenario 1 of the specification: timestamps 0, 10, 20 s, one manhole with
    surface level 1.0 (and bottom level 0) at node 0, water levels
    0.5, 1.5, 0.8. *)
Definition scenario1_ds : datasource :=
  series_source
    [ ("s1"%string, [ [unmasked 0.5]; [unmasked 1.5]; [unmasked 0.8] ]) ]
    [0; 10; 20] 0 [].

Definition scenario1_manhole : v2_manhole :=
  {| mh_id := 1; mh_connection_node_id := 7; mh_code := "M1";
     mh_display_name := "manhole 1"; mh_surface_level := 1; mh_bottom_level := 0 |}.

Definition scenario1_model : modeldb :=
  {| manholes := [scenario1_manhole];
     manholes_with_pipes := [(scenario1_manhole, None)];
     pipes := []; weirs := []; pumpstations := [] |}.

Definition scenario1_db : resdb :=
  empty_resdb [ {| node_spatialite_id := Some 7%Z; node_id := 0 |} ] [].

(** A network of two nodes joined by a pipe (flowline 0) and a weir
    (flowline 1), both from node 0 to node 1. *)
Definition two_nodes : list Node :=
  [ {| node_spatialite_id := Some 1%Z; node_id := 0 |};
    {| node_spatialite_id := Some 2%Z; node_id := 1 |} ].

Definition pipe_flowline : Flowline :=
  {| fl_id := 0; fl_spatialite_id := Some 11%Z; fl_type := "v2_pipe";
     start_node_idx := 0; end_node_idx := 1; fl_abs_length := 50 |}.

Definition weir_flowline : Flowline :=
  {| fl_id := 1; fl_spatialite_id := Some 12%Z; fl_type := "v2_weir";
     start_node_idx := 0; end_node_idx := 1; fl_abs_length := 1 |}.

Definition network_db : resdb := empty_resdb two_nodes [pipe_flowline; weir_flowline].

Definition network_pipe (profile : string) : v2_pipe :=
  {| pipe_id := 11; pipe_code := "P1"; pipe_display_name := "pipe 1";
     pipe_sewerage_type := Some 0%Z;
     invert_level_start_point := Some 1; invert_level_end_point := Some 1;
     pipe_shape := Some 2%Z; pipe_height := None; pipe_width := Some profile |}.

Definition network_weir : v2_weir :=
  {| weir_id := 12; weir_code := "W1"; weir_display_name := "weir 1";
     weir_crest_level := Some 2 |}.

Definition network_model (profile : string) : modeldb :=
  {| manholes := []; manholes_with_pipes := [];
     pipes := [network_pipe profile]; weirs := [network_weir];
     pumpstations := [] |}.

(** A result file for the network: discharge and velocity per flowline,
    water level per node, one array per time step. *)
Definition network_ds (ts : list Q) (q s1 : list (list sample)) : datasource :=
  series_source [ ("q"%string, q); ("u1"%string, q); ("s1"%string, s1) ] ts 2 [].

(** The value of a cell holding a string of decimal digits. *)
Fixpoint digits_value (acc : Z) (s : string) : option Q :=
  match s with
  | EmptyString => Some (inject_Z acc)
  | String c rest =>
      let d := (Z.of_N (N_of_ascii c) - 48)%Z in
      if ((0 <=? d) && (d <=? 9))%Z then digits_value (10 * acc + d) rest
      else None
  end.

Definition float_of_digits (s : string) : option Q :=
  match s with
  | EmptyString => None
  | _ => digits_value 0 s
  end.

(** Water standing at 2.0 at both nodes; the weir flows both ways. *)
Definition steady_ds : datasource :=
  network_ds [0; 10; 20]
    [ [unmasked 1; unmasked 2]; [unmasked 1; unmasked (-1)]; [unmasked 1; unmasked 1] ]
    [ [unmasked 2; unmasked 2]; [unmasked 2; unmasked 2]; [unmasked 2; unmasked 2] ].

(** The same, with the weir flowing in the positive direction only. *)
Definition one_way_ds : datasource :=
  network_ds [0; 10; 20]
    [ [unmasked 1; unmasked 1]; [unmasked 1; unmasked 1]; [unmasked 1; unmasked 1] ]
    [ [unmasked 2; unmasked 2]; [unmasked 2; unmasked 2]; [unmasked 2; unmasked 2] ].

(** Node 1 falls dry (masked, fill value -9999) in the second array. *)
Definition dry_ds : datasource :=
  network_ds [0; 10; 20; 30]
    [ [unmasked 1; unmasked 1]; [unmasked 1; unmasked 1];
      [unmasked 1; unmasked 1]; [unmasked 1; unmasked 1] ]
    [ [unmasked 2; unmasked 1.5]; [unmasked 2; masked (-9999)];
      [unmasked 2; unmasked 1.75]; [unmasked 2; unmasked 2] ].

(** Timestamps whose average step is not a whole number. *)
Definition uneven_ds : datasource :=
  network_ds [0; 5; 11]
    [ [unmasked 1; unmasked 1]; [unmasked 1; unmasked (-1)]; [unmasked 1; unmasked 1] ]
    [ [unmasked 2; unmasked 2]; [unmasked 2; unmasked 2]; [unmasked 2; unmasked 2] ].

(** A time axis that starts below zero, with a negative discharge. *)
Definition early_ds : datasource :=
  network_ds [-10; -5]
    [ [unmasked (-1); unmasked (-1)]; [unmasked (-1); unmasked (-1)] ]
    [ [unmasked 2; unmasked 2]; [unmasked 2; unmasked 2] ].

(** One pump delivering 1 m3/s throughout. *)
Definition pump_ds : datasource :=
  series_source
    [ ("q_pump"%string, [ [unmasked 1]; [unmasked 1]; [unmasked 1] ]) ]
    [0; 10; 20] 1 [(4%Z, 1%Z)].

Definition pump_model : modeldb :=
  {| manholes := []; manholes_with_pipes := []; pipes := []; weirs := [];
     pumpstations := [ {| pump_id := 4; pump_code := "PS"; pump_display_name := "pump";
                          pump_capacity := Some 2000 |} ] |}.

(** A result file that has the aggregate [q_pump_cum]: the pump of
    [pump_model] delivers [peak] m3/s at step 1 and 1 m3/s at the other
    steps, and the aggregate is the same whatever [peak] is. *)
Definition pump_aggregate_ds (peak : Q) : datasource :=
  series_source
    [ ("q_pump"%string, [ [unmasked 1]; [unmasked peak]; [unmasked 1] ]);
      ("q_pump_cum"%string, [ [unmasked 0]; [unmasked 10]; [unmasked 30] ]) ]
    [0; 10; 20] 1 [(4%Z, 1%Z)].

(** A pipe and a weir of the model that the result file has no flowline for. *)
Definition unmapped_pipe_model : modeldb :=
  {| manholes := []; manholes_with_pipes := [];
     pipes := [network_pipe "2"]; weirs := []; pumpstations := [] |}.

Definition unmapped_weir_model : modeldb :=
  {| manholes := []; manholes_with_pipes := [];
     pipes := []; weirs := [network_weir]; pumpstations := [] |}.

Definition nodes_only_db : resdb := empty_resdb two_nodes [].

(** The result cache of the network after [calc_flowline_statistics] on
    [steady_ds]. *)
Definition steady_flow_db : resdb :=
  out_db (calc_flowline_statistics steady_ds network_db).

(** ** Properties of accumulators and rows *)


(** No cell of the negative accumulator is below zero. *)
Definition negative_is_magnitude (st : flow_acc) : Prop :=
  forall j n, qcum_neg st !! j = Some n -> 0 <= n.

Definition all_zero (l : list Q) : Prop :=
  forall j x, l !! j = Some x -> x == 0.

(** A nullable percentage column: null, or a number of [[0, 100]]. *)
Definition percentage_or_null (v : option Q) : Prop :=
  match v with
  | None => True
  | Some x => 0 <= x <= 100
  end.

(** The time step a provenance row carries: none for a row taken from an
    aggregate, the average step otherwise. *)
Definition timestep_rule (avg : Z) (r : StatSource) : Prop :=
  (from_agg r = true -> src_timestep r = None) /\
  (from_agg r = false -> src_timestep r = Some avg).

(** The rows of the provenance table after a step: old rows, or rows that
    follow the rule for the average time step of the result file. *)
Definition sources_follow_rule (ds : datasource) (old : list StatSource)
    (db : resdb) : Prop :=
  forall r, r ∈ stat_source db ->
    r ∈ old \/ exists avg, avg_timestep ds = Ok avg /\ timestep_rule avg r.

Fixpoint has_space (s : string) : bool :=
  match s with
  | EmptyString => false
  | String c rest => bool_decide (c = " "%char) || has_space rest
  end.

(** ** More result files and networks *)

(** The network with the aggregate [q_cum] in the result file. *)
Definition aggregate_ds : datasource :=
  series_source
    [ ("q"%string,
       [ [unmasked 1; unmasked 2]; [unmasked 1; unmasked (-1)]; [unmasked 1; unmasked 1] ]);
      ("u1"%string,
       [ [unmasked 1; unmasked 2]; [unmasked 1; unmasked (-1)]; [unmasked 1; unmasked 1] ]);
      ("s1"%string,
       [ [unmasked 2; unmasked 2]; [unmasked 2; unmasked 2]; [unmasked 2; unmasked 2] ]);
      ("q_cum"%string,
       [ [unmasked 0; unmasked 0]; [unmasked 10; unmasked 20]; [unmasked 20; unmasked 10] ]) ]
    [0; 10; 20] 2 [].

(** The network with node 1 standing lower than node 0. *)
Definition sloped_ds : datasource :=
  network_ds [0; 10; 20]
    [ [unmasked 1; unmasked 2]; [unmasked 1; unmasked (-1)]; [unmasked 1; unmasked 1] ]
    [ [unmasked 2; unmasked 1.5]; [unmasked 2; unmasked 1.5]; [unmasked 2; unmasked 1.75] ].

(** A result file with one timestamp. *)
Definition single_step_ds : datasource :=
  network_ds [10] [ [unmasked 1; unmasked 1] ] [ [unmasked 2; unmasked 2] ].


(** A model with a manhole on connection node 7 and one on node 9. *)
Definition stray_manhole : v2_manhole :=
  {| mh_id := 2; mh_connection_node_id := 9; mh_code := "M2";
     mh_display_name := "manhole 2"; mh_surface_level := 1; mh_bottom_level := 0 |}.

Definition stray_model : modeldb :=
  {| manholes := [scenario1_manhole; stray_manhole];
     manholes_with_pipes := [(scenario1_manhole, None); (stray_manhole, None)];
     pipes := []; weirs := []; pumpstations := [] |}.

(** ** Keys, sums and predicates of the further properties *)

(** The key of a provenance row: the [(table, field)] pair that
    [set_stat_source] filters on. *)
Definition call_key (c : source_call) : string * string :=
  let '(table, field, _, _, _) := c in (table, field).

(** The tables the derived pipe and weir fields are computed from. *)
Definition network_tables (fls : list Flowline) (F : list FlowlineStats)
    (P : list PipeStats) (W : list WeirStats) : resdb :=
  {| nodes := []; flowlines := fls; manhole_stats := []; flowline_stats := F;
     pipe_stats := P; weir_stats := W; pumpline_stats := []; stat_source := [] |}.

(** One step of [sql_max]. *)
Definition sql_max_step (m x : option Q) : option Q :=
  match m, x with
  | Some a, Some b => Some (Qmax a b)
  | None, _ => x
  | _, None => m
  end.

(** The warning of the first manhole loop. *)
Definition manhole_warning (m : v2_manhole) : warning :=
  ManholeNotInResults (mh_id m).



(** Cell [j] is unmasked in every array of [name] that the passes of a
    time loop read: pass [i] reads step number [i - 1]. *)
Definition unmasked_reads (ds : datasource) (name : string) (j : nat) : Prop :=
  forall i s,
    (0 <= i < Z.of_nat (length (timestamps ds)))%Z ->
    values_by_timestep_nr ds name (i - 1) !! j = Some s ->
    mask s = false.

(** Every cell of the exact time-on-surface accumulator lies between 0 and
    the timestamp reached. *)
Definition duration_bounded (prev : Q) (st : h_max_t * list Q) : Prop :=
  forall j x, st.2 !! j = Some x -> 0 <= x <= prev.

(** No cell of the running maxima of discharge, velocity and head
    difference is below zero. *)
Definition maxima_nonnegative (st : flow_acc) : Prop :=
  Forall (fun x => 0 <= x) (qmax st) /\
  Forall (fun x => 0 <= x) (vmax st) /\
  Forall (fun x => 0 <= x) (dh_max st).



(** A nullable share column: null, or a number of [[-100, 100]]. *)
Definition share_or_null (v : option Q) : Prop :=
  match v with
  | Some p => -100 <= p <= 100
  | None => True
  end.

(** A nullable column that holds no negative number. *)
Definition nonnegative_or_null (v : option Q) : Prop :=
  match v with
  | Some x => 0 <= x
  | None => True
  end.

(** ** The views of the result cache *)

(** A row of [views_geometry_columns]. *)
Record registration : Type := {
  reg_view_name : string;
  reg_view_geometry : string;
  reg_view_rowid : string;
  reg_f_table_name : string;
  reg_f_geometry_column : string;
  reg_read_only : Z
}.

(** The views of the result cache and the table that registers their
    geometry. *)
Record catalogue : Type := {
  cat_views : list string;
  views_geometry_columns : list registration
}.

(** [CREATE VIEW IF NOT EXISTS name ...] *)
Definition create_view_if_not_exists (name : string) (cat : catalogue) : catalogue :=
  if bool_decide (name ∈ cat_views cat) then cat
  else {| cat_views := cat_views cat ++ [name];
          views_geometry_columns := views_geometry_columns cat |}.

(** [DELETE FROM views_geometry_columns WHERE view_name = name] *)
Definition delete_registration (name : string) (cat : catalogue) : catalogue :=
  {| cat_views := cat_views cat;
     views_geometry_columns :=
       filter (fun r => reg_view_name r <> name) (views_geometry_columns cat) |}.

(** The row of
    [VALUES(name, 'the_geom', 'id', table, 'the_geom', 1)]. *)
Definition registration_of (table name : string) : registration :=
  {| reg_view_name := name; reg_view_geometry := "the_geom"; reg_view_rowid := "id";
     reg_f_table_name := table; reg_f_geometry_column := "the_geom";
     reg_read_only := 1 |}.

(** [INSERT INTO views_geometry_columns (...) VALUES (...)] *)
Definition insert_registration (table name : string) (cat : catalogue) : catalogue :=
  {| cat_views := cat_views cat;
     views_geometry_columns := views_geometry_columns cat ++ [registration_of table name] |}.

(** The three statements each view gets, and the commit. *)
Definition register_view (table name : string) (cat : catalogue) : catalogue :=
  insert_registration table name
    (delete_registration name (create_view_if_not_exists name cat)).

Definition create_line_views (cat : catalogue) : catalogue :=
  let cat := register_view "flowlines" "flowline_stats_view" cat in
  let cat := register_view "flowlines" "pipe_stats_view" cat in
  let cat := register_view "flowlines" "pipe_stats_dwa_mixed_view" cat in
  let cat := register_view "flowlines" "pipe_stats_rwa_view" cat in
  register_view "flowlines" "weir_stats_view" cat.

Definition create_node_views (cat : catalogue) : catalogue :=
  let cat := register_view "nodes" "manhole_stats_view" cat in
  let cat := register_view "nodes" "manhole_stats_dwa_mixed_view" cat in
  register_view "nodes" "manhole_stats_rwa_view" cat.

Definition create_pump_views (cat : catalogue) : catalogue :=
  register_view "pumplines" "pump_stats_view" cat.

(** [query(view_table).filter(view_name == 'pump_stats_view').count() != 0] *)
Definition has_res_views (cat : catalogue) : bool :=
  negb (length (filter (fun r => reg_view_name r = "pump_stats_view"%string)
                  (views_geometry_columns cat)) =? 0)%nat.

(** ** The views of the model database *)

(** The names taken in the model database, and the [f_table_name] column of
    its [geometry_columns]. *)
Record model_catalogue : Type := {
  mod_names : list string;
  geometry_columns : list string
}.

Definition has_mod_views (m : model_catalogue) : bool :=
  negb (length (filter (fun n => n = "v2_1d_boundary_conditions_view"%string)
                  (geometry_columns m)) =? 0)%nat.

(** [CREATE VIEW name ...], which fails on a name that is taken, and the
    [INSERT INTO geometry_columns] that follows it, taken to succeed. *)
Definition add_model_view (name : string) (m : model_catalogue)
    : option model_catalogue :=
  if bool_decide (name ∈ mod_names m) then None
  else Some {| mod_names := mod_names m ++ [name];
               geometry_columns := geometry_columns m ++ [name] |}.

Definition add_modeldb_views (m : model_catalogue) : option model_catalogue :=
  m ← add_model_view "v2_pumpstation_point_view" m;
  m ← add_model_view "v2_1d_lateral_view" m;
  add_model_view "v2_1d_boundary_conditions_view" m.

(** ** The calculation block of [run] *)

(** The statistics functions and the view functions between them. *)
Record calc_state : Type := {
  c_db : resdb;
  c_cat : catalogue;
  c_log : list warning;
  c_exn : option exn
}.

Definition stage (f : resdb -> outcome) (views : catalogue -> catalogue)
    (c : calc_state) : calc_state :=
  match c_exn c with
  | Some _ => c
  | None =>
      let o := f (c_db c) in
      {| c_db := out_db o;
         c_cat := match out_exn o with
                  | Some _ => c_cat c
                  | None => views (c_cat c)
                  end;
         c_log := c_log c ++ out_log o;
         c_exn := out_exn o |}
  end.

(** The body of [if calculate_stats:].  [create_and_check_fields], of the
    result cache's own module, creates the tables that are missing; the
    tables are given here. *)
Definition calculate (float_of_text : string -> option Q) (ds : datasource)
    (mdb : modeldb) (db : resdb) (cat : catalogue) : calc_state :=
  let c := {| c_db := db; c_cat := cat; c_log := []; c_exn := None |} in
  let c := stage (get_manhole_attributes_and_statistics ds mdb) create_node_views c in
  let c := stage (calc_flowline_statistics ds) id c in
  let c := stage (calc_pipe_and_weir_statistics float_of_text mdb) create_line_views c in
  stage (get_pump_attributes_and_statistics ds mdb) create_pump_views c.

(** ** A concrete model database, and the view names *)

(** A model database without the views of the tool. *)
Definition fresh_model_catalogue : model_catalogue :=
  {| mod_names := ["v2_pipe"; "v2_weir"]; geometry_columns := ["v2_connection_nodes"] |}.

(** The views of [create_node_views] and of [create_line_views], in the
    order they are registered. *)
Definition node_view_names : list string :=
  ["manhole_stats_view"; "manhole_stats_dwa_mixed_view"; "manhole_stats_rwa_view"].

Definition line_view_names : list string :=
  ["flowline_stats_view"; "pipe_stats_view"; "pipe_stats_dwa_mixed_view";
   "pipe_stats_rwa_view"; "weir_stats_view"].

(** The registrations after the views [names] on [table] are registered. *)
Definition registered (table : string) (names : list string) (cat : catalogue)
    : list registration :=
  filter (fun r => reg_view_name r ∉ names) (views_geometry_columns cat)
  ++ (registration_of table <$> names).

(** * Proofs *)

(** ** Rounding *)

Lemma pow10_pos n : 0 < pow10 n.
Proof.
  unfold pow10. change 0 with (inject_Z 0). rewrite <- Zlt_Qlt.
  apply Z.pow_pos_nonneg; lia.
Qed.

Lemma round_half_away_near x :
  x - (1 # 2) <= inject_Z (round_half_away x) <= x + (1 # 2).
Proof.
  unfold round_half_away. destruct (Qle_bool 0 x).
  - pose proof (Qfloor_le (x + (1 # 2))) as Hlo.
    pose proof (Qlt_floor (x + (1 # 2))) as Hhi.
    rewrite inject_Z_plus in Hhi. change (inject_Z 1) with 1 in Hhi. lra.
  - pose proof (Qfloor_le (- x + (1 # 2))) as Hlo.
    pose proof (Qlt_floor (- x + (1 # 2))) as Hhi.
    rewrite inject_Z_plus in Hhi. change (inject_Z 1) with 1 in Hhi.
    rewrite inject_Z_opp. lra.
Qed.

Lemma round_half_away_le x z : x <= inject_Z z -> (round_half_away x <= z)%Z.
Proof.
  intros Hx. destruct (round_half_away_near x) as [_ Hhi].
  apply Z.lt_succ_r. rewrite Zlt_Qlt. unfold Z.succ. rewrite inject_Z_plus.
  change (inject_Z 1) with 1. lra.
Qed.

Lemma round_half_away_ge x z : inject_Z z <= x -> (z <= round_half_away x)%Z.
Proof.
  intros Hx. destruct (round_half_away_near x) as [Hlo _].
  apply Z.lt_pred_le. rewrite Zlt_Qlt. unfold Z.pred. rewrite inject_Z_plus.
  change (inject_Z (-1)) with (-1). lra.
Qed.

Lemma pow10_inject n : pow10 n = inject_Z (10 ^ Z.of_nat n).
Proof. reflexivity. Qed.

Lemma py_round_le x n z : x <= inject_Z z -> py_round x n <= inject_Z z.
Proof.
  intros Hx. unfold py_round. apply Qle_shift_div_r; [apply pow10_pos|].
  rewrite pow10_inject, <- inject_Z_mult, <- Zle_Qle.
  apply round_half_away_le. rewrite inject_Z_mult, <- pow10_inject.
  apply Qmult_le_compat_r; [exact Hx|]. apply Qlt_le_weak, pow10_pos.
Qed.

Lemma py_round_ge x n z : inject_Z z <= x -> inject_Z z <= py_round x n.
Proof.
  intros Hx. unfold py_round. apply Qle_shift_div_l; [apply pow10_pos|].
  rewrite pow10_inject, <- inject_Z_mult, <- Zle_Qle.
  apply round_half_away_ge. rewrite inject_Z_mult, <- pow10_inject.
  apply Qmult_le_compat_r; [exact Hx|]. apply Qlt_le_weak, pow10_pos.
Qed.




Example py_round_tie_up : py_round (5 # 2) 0 == 3.
Proof. reflexivity. Qed.

Example py_round_tie_down : py_round (- 5 # 2) 0 == - 3.
Proof. reflexivity. Qed.

Example py_round_third : py_round (1 # 3) 3 == 0.333.
Proof. reflexivity. Qed.

Example py_int_truncates : py_int (11 / 2) = 5%Z /\ py_int (- 11 / 2) = (- 5)%Z.
Proof. split; reflexivity. Qed.

(** ** The [result] monad and the time loop *)

Lemma bind_Ok {A B} (m : result A) (f : A -> result B) (b : B) :
  m ≫= f = Ok b -> exists a, m = Ok a /\ f a = Ok b.
Proof. destruct m as [a|e]; [eauto | discriminate]. Qed.

Lemma getitem_Ok {A} (l : list A) i x : getitem l i = Ok x -> l !! i = Some x.
Proof. unfold getitem. destruct (l !! i); congruence. Qed.

Ltac bind_ok H :=
  let a := fresh "a" in
  let E := fresh "E" in
  apply bind_Ok in H as (a & E & H).

Lemma mapM_Ok_lookup {A B} (f : A -> result B) (l : list A) (k : list B) i x :
  mapM f l = Ok k -> l !! i = Some x -> exists y, k !! i = Some y /\ f x = Ok y.
Proof.
  revert k i. induction l as [|a l IH]; intros k i Hm Hi; [discriminate|].
  cbn in Hm. bind_ok Hm. bind_ok Hm. injection Hm as <-.
  destruct i as [|i]; cbn in *.
  - injection Hi as <-. eauto.
  - eauto.
Qed.

Lemma np_take_lookup {A} (a : list A) (idx : list nat) (k : list A) j i :
  np_take a idx = Ok k -> idx !! j = Some i ->
  exists y, k !! j = Some y /\ a !! i = Some y.
Proof.
  intros Hm Hj. destruct (mapM_Ok_lookup _ _ _ _ _ Hm Hj) as (y & Hy & Hg).
  exists y. split; [done | by apply getitem_Ok].
Qed.

Lemma time_loop_invariant {S} (P : S -> Prop) (D : Q -> Prop)
    (body : Z -> Q -> S -> result S) :
  (forall i dt s s', D dt -> P s -> body i dt s = Ok s' -> P s') ->
  forall ts i prev st st',
    Forall D (timesteps_from prev ts) ->
    P st -> time_loop body i prev ts st = Ok st' -> P st'.
Proof.
  intros Hbody. induction ts as [|t ts IH]; intros i prev st st' HD HP Hloop.
  - injection Hloop as <-. exact HP.
  - cbn in Hloop. bind_ok Hloop. cbn in HD. inversion HD; subst. eauto.
Qed.

(** ** The flowline accumulators *)

Lemma flow_body_Ok ds s e aq ap an i dt st st' :
  flow_body ds s e aq ap an i dt st = Ok st' ->
  exists h_start h_end,
    np_take (values_by_timestep_nr ds "s1" (i - 1)%Z) s = Ok h_start /\
    np_take (values_by_timestep_nr ds "s1" (i - 1)%Z) e = Ok h_end /\
    qcum st' = (if aq then qcum st
                else iadd_scaled (qcum st) (values_by_timestep_nr ds "q" (i - 1)%Z) dt) /\
    qcum_pos st' = (if ap then qcum_pos st
                else iadd_positive (qcum_pos st) (values_by_timestep_nr ds "q" (i - 1)%Z) dt) /\
    qcum_neg st' = (if an then qcum_neg st
                else isub_negative (qcum_neg st) (values_by_timestep_nr ds "q" (i - 1)%Z) dt) /\
    dh_max st' = np_copyto (dh_max st)
                   (np_maximum (dh_max st) (abs_difference h_start h_end))
                   (both_unmasked h_start h_end).
Proof.
  unfold flow_body. intros H. bind_ok H. bind_ok H. injection H as <-.
  eexists _, _. cbn. split_and!; done.
Qed.

Lemma flow_body_dh_max ds fls aq ap an i dt st st' j flowline d :
  flow_body ds (start_node_idx <$> fls) (end_node_idx <$> fls) aq ap an i dt st = Ok st' ->
  fls !! j = Some flowline ->
  dh_max st !! j = Some d ->
  dh_max st' !! j = Some (head_update d (ends_at ds flowline i)).
Proof.
  intros Hb Hj Hd.
  apply flow_body_Ok in Hb as (h_start & h_end & Hs & He & _ & _ & _ & ->).
  eapply np_take_lookup in Hs as (hs & Hhs & Hs);
    [|by rewrite list_lookup_fmap, Hj].
  eapply np_take_lookup in He as (he & Hhe & He);
    [|by rewrite list_lookup_fmap, Hj].
  unfold np_copyto, np_maximum, abs_difference, both_unmasked.
  rewrite !lookup_zip_with, Hd, Hhs, Hhe. cbn.
  unfold head_update, ends_at, ends_unmasked, head_difference. cbn.
  rewrite (list_lookup_total_correct _ _ _ Hs), (list_lookup_total_correct _ _ _ He).
  reflexivity.
Qed.

Lemma time_loop_dh_max ds fls aq ap an j flowline :
  fls !! j = Some flowline ->
  forall ts i prev st st' d,
    time_loop (flow_body ds (start_node_idx <$> fls) (end_node_idx <$> fls) aq ap an)
      i prev ts st = Ok st' ->
    dh_max st !! j = Some d ->
    dh_max st' !! j =
      Some (foldl head_update d
              ((fun k => ends_at ds flowline (i + Z.of_nat k)) <$> seq 0 (length ts))).
Proof.
  intros Hj. induction ts as [|t ts IH]; intros i prev st st' d Hloop Hd.
  - injection Hloop as <-. exact Hd.
  - cbn in Hloop. bind_ok Hloop.
    pose proof (flow_body_dh_max _ _ _ _ _ _ _ _ _ _ _ _ E Hj Hd) as Hd'.
    rewrite (IH _ _ _ _ _ Hloop Hd'). cbn [length seq fmap list_fmap foldl].
    rewrite Z.add_0_r. do 2 f_equal.
    rewrite <- fmap_S_seq, <- list_fmap_compose. apply list_fmap_ext.
    intros _ k _. cbn. f_equal. lia.
Qed.

Lemma foldl_head_update d passes :
  foldl head_update d passes =
  foldl (fun d ends => Qmax d (head_difference ends)) d (List.filter ends_unmasked passes).
Proof.
  revert d. induction passes as [|p passes IH]; intros d; [done|].
  cbn. unfold head_update at 2. destruct (ends_unmasked p); cbn; apply IH.
Qed.

Lemma get_agg_cum_flag ds name :
  (get_agg_cum_if_available ds name).2 = get_available ds name.
Proof. unfold get_agg_cum_if_available. by destruct (get_available ds name). Qed.

Lemma get_agg_cum_unavailable ds name :
  get_available ds name = false ->
  get_agg_cum_if_available ds name = (np_zeros (nFlowLine ds), false).
Proof. unfold get_agg_cum_if_available. by intros ->. Qed.

Lemma flow_after_loop ds fls k :
  flow_after ds fls k =
  time_loop
    (flow_body ds (start_node_idx <$> fls) (end_node_idx <$> fls)
       (get_available ds "q_cum") (get_available ds "q_cum_positive")
       (get_available ds "q_cum_negative"))
    0 0 (take k (timestamps ds))
    (flow_init ds (get_agg_cum_if_available ds "q_cum").1
       (get_agg_cum_if_available ds "q_cum_positive").1
       (get_agg_cum_if_available ds "q_cum_negative").1).
Proof.
  unfold flow_after.
  rewrite <- !get_agg_cum_flag.
  destruct (get_agg_cum_if_available ds "q_cum"),
    (get_agg_cum_if_available ds "q_cum_positive"),
    (get_agg_cum_if_available ds "q_cum_negative"); reflexivity.
Qed.

Lemma flow_after_dh_max ds fls j flowline k st :
  fls !! j = Some flowline ->
  (j < nFlowLine ds)%nat ->
  (k <= length (timestamps ds))%nat ->
  flow_after ds fls k = Ok st ->
  dh_max st !! j =
    Some (max_head (List.filter ends_unmasked (passes_of ds flowline k))).
Proof.
  intros Hj Hn Hk Hrun. rewrite flow_after_loop in Hrun.
  eapply time_loop_dh_max in Hrun; [|exact Hj|].
  2:{ cbn. unfold np_zeros. by apply lookup_replicate_2. }
  rewrite Hrun, foldl_head_update, length_take_le by exact Hk.
  unfold max_head, passes_of. do 3 f_equal.
Qed.

Lemma filter_delete_false {A} (f : A -> bool) (l : list A) :
  forall k x,
    l !! k = Some x -> f x = false ->
    List.filter f (delete k l) = List.filter f l.
Proof.
  induction l as [|y l IH]; intros [|k] x Hk Hx; try done.
  - injection Hk as ->. cbn. by rewrite Hx.
  - change (delete (S k) (y :: l)) with (y :: delete k l).
    cbn [List.filter]. by rewrite (IH k x Hk Hx).
Qed.

Lemma passes_of_lookup ds flowline n k :
  (k < n)%nat -> passes_of ds flowline n !! k = Some (ends_at ds flowline (Z.of_nat k)).
Proof.
  intros Hk. unfold passes_of. rewrite list_lookup_fmap, lookup_seq_lt by exact Hk.
  reflexivity.
Qed.

(** C4.  In a pass where the water level at either end of a flowline is
    masked, the flowline's running maximum head difference keeps its value;
    and after any later pass it is the maximum, from 0, of the absolute
    differences of the passes in which both ends were unmasked, which is
    what it would be had the masked pass not taken place at all. *)
Theorem masked_head_difference ds fls j flowline k n st st' final :
  fls !! j = Some flowline ->
  (j < nFlowLine ds)%nat ->
  (k < n)%nat -> (n <= length (timestamps ds))%nat ->
  flow_after ds fls k = Ok st ->
  flow_after ds fls (S k) = Ok st' ->
  flow_after ds fls n = Ok final ->
  ends_unmasked (ends_at ds flowline (Z.of_nat k)) = false ->
  dh_max st' !! j = dh_max st !! j /\
  dh_max final !! j =
    Some (max_head (List.filter ends_unmasked (passes_of ds flowline n))) /\
  dh_max final !! j =
    Some (max_head (List.filter ends_unmasked (delete k (passes_of ds flowline n)))).
Proof.
  intros Hj Hn Hk Hlen Hst Hst' Hfinal Hmask.
  assert (dh_max final !! j =
          Some (max_head (List.filter ends_unmasked (passes_of ds flowline n))))
    as Hall by (by apply (flow_after_dh_max ds fls)).
  split_and!.
  - rewrite (flow_after_dh_max ds fls j flowline k st),
      (flow_after_dh_max ds fls j flowline (S k) st') by (done || lia).
    unfold passes_of. rewrite seq_S, fmap_app, List.filter_app. cbn.
    rewrite Hmask. by rewrite app_nil_r.
  - exact Hall.
  - rewrite Hall. do 2 f_equal. symmetry.
    apply (filter_delete_false _ _ k (ends_at ds flowline (Z.of_nat k)));
      [by apply passes_of_lookup|exact Hmask].
Qed.

(** C4 on [dry_ds]: node 1 is masked in the array read by pass 2, with the
    fill value -9999 in its data cell; the pipe's maximum stays 0.5. *)
Lemma masked_head_difference_witness :
  exists st st' final,
    flow_after dry_ds (flowlines network_db) 2 = Ok st /\
    flow_after dry_ds (flowlines network_db) 3 = Ok st' /\
    flow_after dry_ds (flowlines network_db) 4 = Ok final /\
    ends_unmasked (ends_at dry_ds pipe_flowline 2) = false /\
    dh_max st !! 0%nat = Some 0.5 /\
    dh_max st' !! 0%nat = dh_max st !! 0%nat /\
    dh_max final !! 0%nat =
      Some (max_head (List.filter ends_unmasked (passes_of dry_ds pipe_flowline 4))) /\
    dh_max final !! 0%nat =
      Some (max_head (List.filter ends_unmasked
                        (delete 2%nat (passes_of dry_ds pipe_flowline 4)))).
Proof.
  eexists _, _, _.
  split; [vm_compute; reflexivity|]. split; [vm_compute; reflexivity|].
  split; [vm_compute; reflexivity|]. split; [vm_compute; reflexivity|].
  split; [reflexivity|].
  apply (masked_head_difference dry_ds (flowlines network_db) 0 pipe_flowline 2 4).
  - reflexivity.
  - vm_compute; lia.
  - lia.
  - vm_compute; lia.
  - vm_compute; reflexivity.
  - vm_compute; reflexivity.
  - vm_compute; reflexivity.
  - vm_compute; reflexivity.
Defined.





Lemma flow_body_negative ds s e aq ap i dt st st' :
  0 <= dt ->
  negative_is_magnitude st ->
  flow_body ds s e aq ap false i dt st = Ok st' ->
  negative_is_magnitude st'.
Proof.
  intros Hdt Hinv Hb.
  apply flow_body_Ok in Hb as (_ & _ & _ & _ & _ & _ & Hn & _).
  intros j n. rewrite Hn. unfold isub_negative.
  intros (n0 & x & -> & Hn0 & Hx)%lookup_zip_with_Some.
  pose proof (Hinv _ _ Hn0) as H0.
  pose proof (Q.le_min_r (data x) 0) as Hmin.
  assert (0 <= (- Qmin (data x) 0) * dt) as Hprod
    by (apply Qmult_le_0_compat; lra).
  lra.
Qed.

Lemma flow_after_negative ds fls k st :
  get_available ds "q_cum_negative" = false ->
  Forall (fun dt => 0 <= dt) (timesteps_from 0 (take k (timestamps ds))) ->
  flow_after ds fls k = Ok st -> negative_is_magnitude st.
Proof.
  intros H3 Hts. rewrite flow_after_loop, H3.
  rewrite (get_agg_cum_unavailable _ "q_cum_negative") by done. cbn [fst].
  apply (time_loop_invariant negative_is_magnitude (fun dt => 0 <= dt)).
  - intros i dt s s'. apply flow_body_negative.
  - exact Hts.
  - intros j n. cbn. unfold np_zeros. intros [-> _]%lookup_replicate. lra.
Qed.

Lemma flowline_rows_cells st qend vend hs he :
  forall fls i rows,
    flowline_rows st qend vend hs he i fls = Ok rows ->
    forall row, row ∈ rows ->
    exists j c p n,
      qcum st !! j = Some c /\ qcum_pos st !! j = Some p /\
      qcum_neg st !! j = Some n /\
      cum_discharge row = Some (py_round c 3) /\
      cum_discharge_positive row = Some (py_round p 3) /\
      cum_discharge_negative row = Some (py_round n 3).
Proof.
  induction fls as [|fl fls IH]; intros i rows Hrows row Hin.
  - injection Hrows as <-. by apply elem_of_nil in Hin.
  - cbn in Hrows. bind_ok Hrows. bind_ok Hrows. injection Hrows as <-.
    apply elem_of_cons in Hin as [->|Hin]; [|eauto].
    unfold flowline_row in E.
    repeat (let x := fresh in bind_ok E). injection E as <-. cbn.
    exists i. eexists _, _, _. split_and!; try reflexivity; by apply getitem_Ok.
Qed.

Lemma flowline_statistics_Ok ds fls rows :
  flowline_statistics ds fls = Ok rows ->
  exists st qend vend hs he,
    flow_after ds fls (length (timestamps ds)) = Ok st /\
    flowline_rows st qend vend hs he 0 fls = Ok rows.
Proof.
  unfold flowline_statistics, flow_final. intros H.
  bind_ok H. bind_ok H. bind_ok H. eauto 10.
Qed.



Lemma increasing_timesteps ts :
  forall prev,
    (forall t0, ts !! 0%nat = Some t0 -> prev <= t0) ->
    strictly_increasing ts ->
    Forall (fun dt => 0 <= dt) (timesteps_from prev ts).
Proof.
  induction ts as [|t ts IH]; intros prev H0 Hinc; cbn; constructor.
  - specialize (H0 t eq_refl). lra.
  - apply IH.
    + intros t0 Ht0. apply Qlt_le_weak, (Hinc 0%nat); done.
    + intros i a b Ha Hb. apply (Hinc (S i)); done.
Qed.

(** C10, amended.  When [q_cum_negative] is not available, the timestamps are
    strictly increasing and the first timestamp is not negative, the
    [cum_discharge_negative] written for every flowline is not negative. *)
Theorem negative_discharge_is_magnitude ds fls rows :
  get_available ds "q_cum_negative" = false ->
  strictly_increasing (timestamps ds) ->
  (forall t0, timestamps ds !! 0%nat = Some t0 -> 0 <= t0) ->
  flowline_statistics ds fls = Ok rows ->
  forall row, row ∈ rows ->
  exists n, cum_discharge_negative row = Some n /\ 0 <= n.
Proof.
  intros H3 Hinc H0 Hrows row Hin.
  apply flowline_statistics_Ok in Hrows as (st & qend & vend & hs & he & Hst & Hrows).
  destruct (flowline_rows_cells _ _ _ _ _ _ _ _ Hrows row Hin)
    as (j & c & p & n & _ & _ & Hn & _ & _ & Hrn).
  exists (py_round n 3). split; [exact Hrn|].
  apply (py_round_ge n 3 0).
  eapply (flow_after_negative ds fls); [exact H3| |exact Hst|exact Hn].
  rewrite firstn_all. by apply increasing_timesteps.
Qed.

Lemma three_steps_increasing : strictly_increasing [0; 10; 20].
Proof.
  intros [|[|[|i]]] a b Ha Hb; cbn in Ha, Hb; simplify_eq; reflexivity.
Qed.

(** C10, amended, on [steady_ds]. *)
Lemma negative_discharge_is_magnitude_witness :
  exists rows row,
    flowline_statistics steady_ds (flowlines network_db) = Ok rows /\
    rows !! 1%nat = Some row /\
    exists n, cum_discharge_negative row = Some n /\ 0 <= n.
Proof.
  eexists _, _. split; [vm_compute; reflexivity|]. split; [reflexivity|].
  eapply (negative_discharge_is_magnitude steady_ds (flowlines network_db)).
  - reflexivity.
  - exact three_steps_increasing.
  - intros t0 Ht0. cbn in Ht0. simplify_eq. apply Qle_refl.
  - vm_compute; reflexivity.
  - apply list_elem_of_lookup_2 with 1%nat. reflexivity.
Defined.

(** C10 as stated fails on [early_ds]: its timestamps -10, -5 are strictly
    increasing, the first time step is [-10 - 0], and the value written is
    -5. *)
Lemma negative_discharge_counterexample :
  ~ (get_available early_ds "q_cum_negative" = false ->
     strictly_increasing (timestamps early_ds) ->
     forall rows,
       flowline_statistics early_ds (flowlines network_db) = Ok rows ->
       forall row, row ∈ rows ->
       exists n, cum_discharge_negative row = Some n /\ 0 <= n).
Proof.
  intros H.
  edestruct H as (n & Hn & Hpos).
  - reflexivity.
  - intros [|[|i]] a b Ha Hb; cbn in Ha, Hb; simplify_eq; reflexivity.
  - vm_compute; reflexivity.
  - apply list_elem_of_here.
  - cbn in Hn. injection Hn as <-. revert Hpos. vm_compute. intros Hpos. by apply Hpos.
Qed.


(** ** The pump accumulators *)

Lemma py_round_zero x n : x == 0 -> py_round x n == 0.
Proof.
  intros Hx. apply Qle_antisym.
  - apply (py_round_le x n 0). rewrite Hx. apply Qle_refl.
  - apply (py_round_ge x n 0). rewrite Hx. apply Qle_refl.
Qed.

Lemma pump_body_zero ds i dt st st' :
  all_zero st.1 -> pump_body ds false i dt st = Ok st' -> all_zero st'.1.
Proof.
  destruct st as [q_cum q_max]. cbn. intros Hz [= <-]. cbn.
  intros j x (a & b & -> & Ha & Hb)%lookup_zip_with_Some.
  rewrite (Hz _ _ Ha), (Hz _ _ Hb). ring.
Qed.

Lemma pump_rows_cells ds q_cum q_max q_end :
  forall ps i rows,
    pump_rows ds q_cum q_max q_end i ps = Ok rows ->
    forall row, row ∈ rows ->
    exists j c, q_cum !! j = Some c /\ pl_cum_discharge row = py_round c 3.
Proof.
  induction ps as [|pump ps IH]; intros i rows Hrows row Hin.
  - injection Hrows as <-. by apply elem_of_nil in Hin.
  - cbn in Hrows. bind_ok Hrows. bind_ok Hrows. injection Hrows as <-.
    apply elem_of_cons in Hin as [->|Hin]; [|eauto].
    unfold pump_row in E. repeat (let x := fresh in bind_ok E).
    injection E as <-. cbn. eexists i, _. split; [by apply getitem_Ok|done].
Qed.

(** X19.  Without the aggregate [q_pump_cum] the accumulator starts at zero and
    each pass adds [q_cum * timestep] to it: every pump gets 0. *)
Lemma pump_cumulative_discharge_zero ds mdb rows agg :
  get_available ds "q_pump_cum" = false ->
  pump_statistics ds mdb = Ok (rows, agg) ->
  forall row, row ∈ rows -> pl_cum_discharge row == 0.
Proof.
  intros Hav. unfold pump_statistics.
  rewrite (get_agg_cum_unavailable _ _ Hav). intros H. bind_ok H. bind_ok H.
  injection H as <- <-. intros row Hin.
  destruct (pump_rows_cells _ _ _ _ _ _ _ E0 row Hin) as (j & c & Hc & ->).
  apply py_round_zero.
  assert (all_zero a.1) as Hz; [|by eapply Hz].
  revert E. apply (time_loop_invariant (fun st => all_zero st.1) (fun _ => True)).
  - intros i dt s s' _. apply pump_body_zero.
  - by apply Forall_forall.
  - intros k x. cbn. unfold np_zeros. by intros [-> _]%lookup_replicate.
Qed.

(** C1 fails on the code.  On [pump_ds] (timestamps 0, 10, 20; one pump at
    1 m3/s; no [q_pump_cum]) the cumulative discharge written is 0, where the
    left-step accumulation of the pump discharge is
    [1 * (0 - 0) + 1 * (10 - 0) + 1 * (20 - 10) = 20]. *)
Theorem pump_cumulative_discharge_not_accumulated :
  get_available pump_ds "q_pump_cum" = false /\
  exists row,
    pump_statistics pump_ds pump_model = Ok ([row], false) /\
    pl_cum_discharge row == 0 /\
    ~ pl_cum_discharge row == py_round (1 * (0 - 0) + 1 * (10 - 0) + 1 * (20 - 10)) 3.
Proof.
  split; [reflexivity|]. eexists. split; [vm_compute; reflexivity|].
  split; [reflexivity|]. vm_compute. discriminate.
Qed.

(** ** Elements without a counterpart in the results *)

Lemma py_split_nonempty s : py_split s <> [].
Proof.
  destruct s as [|c s]; cbn; [done|].
  case_bool_decide; [done|]. by destruct (py_split s).
Qed.

Lemma py_max_Ok tokens : tokens <> [] -> exists m, py_max tokens = Ok m.
Proof. destruct tokens; [done|]. cbn. eauto. Qed.

Lemma profile_height_of_Ok pipe : exists h, profile_height_of pipe = Ok h.
Proof.
  unfold profile_height_of.
  destruct (if shape_in (pipe_shape pipe) [1; 2]%Z then pipe_width pipe else None) as [w|].
  - destruct (py_max_Ok (py_split w) (py_split_nonempty w)) as [m ->]. cbn. eauto.
  - destruct (if shape_in (pipe_shape pipe) [5; 6]%Z then pipe_height pipe else None) as [h|].
    + destruct (py_max_Ok (py_split h) (py_split_nonempty h)) as [m ->]. cbn. eauto.
    + eauto.
Qed.

Lemma pipe_stat_unmapped mapping pipe :
  mapping !! pipe_id pipe = None -> pipe_stat mapping pipe = Raise KeyError.
Proof. unfold pipe_stat, dict_get. by intros ->. Qed.

Lemma pipe_stat_mapped mapping pipe idx :
  mapping !! pipe_id pipe = Some idx -> exists row, pipe_stat mapping pipe = Ok row.
Proof.
  unfold pipe_stat, dict_get. intros ->. cbn.
  destruct (profile_height_of_Ok pipe) as [h ->]. cbn. eauto.
Qed.

Lemma pipe_rows_unmapped mapping :
  forall ps log acc pipe,
    pipe ∈ ps -> mapping !! pipe_id pipe = None ->
    exists log',
      pipe_rows mapping ps log acc = (log', Raise KeyError) /\
      exists id, NoResultForPipe id ∈ log'.
Proof.
  induction ps as [|p ps IH]; intros log acc pipe Hin Hnone.
  - by apply elem_of_nil in Hin.
  - cbn. destruct (mapping !! pipe_id p) as [idx|] eqn:Hp.
    + destruct (pipe_stat_mapped _ _ _ Hp) as [row ->].
      apply elem_of_cons in Hin as [->|Hin]; [congruence|]. eauto.
    + rewrite (pipe_stat_unmapped _ _ Hp). eexists. split; [done|].
      exists (pipe_id p). apply elem_of_app. right. apply list_elem_of_here.
Qed.

(** X17.  A pipe without a flowline ends the function with a [KeyError], after the
    warning. *)
Lemma unmapped_pipe_raises fot mdb db pipe :
  pipe ∈ pipes mdb ->
  flowline_mapping "v2_pipe" (flowlines db) !! pipe_id pipe = None ->
  let o := calc_pipe_and_weir_statistics fot mdb db in
  out_exn o = Some KeyError /\ out_db o = db /\
  exists id, NoResultForPipe id ∈ out_log o.
Proof.
  intros Hin Hnone. unfold calc_pipe_and_weir_statistics.
  destruct (pipe_rows_unmapped _ _ [] [] _ Hin Hnone) as (log' & -> & Hlog).
  cbn. done.
Qed.

Lemma weir_stat_unmapped mapping weir :
  mapping !! weir_id weir = None -> weir_stat mapping weir = Raise KeyError.
Proof. unfold weir_stat, dict_get. by intros ->. Qed.

Lemma weir_stat_mapped mapping weir idx :
  mapping !! weir_id weir = Some idx -> exists row, weir_stat mapping weir = Ok row.
Proof. unfold weir_stat, dict_get. intros ->. cbn. eauto. Qed.

Lemma weir_rows_unmapped mapping :
  forall ws weir,
    weir ∈ ws -> mapping !! weir_id weir = None ->
    weir_rows mapping ws = Raise KeyError.
Proof.
  unfold weir_rows. induction ws as [|w ws IH]; intros weir Hin Hnone.
  - by apply elem_of_nil in Hin.
  - change (mapM (weir_stat mapping) (w :: ws))
      with (y ← weir_stat mapping w; k ← mapM (weir_stat mapping) ws; mret (y :: k)).
    destruct (mapping !! weir_id w) as [idx|] eqn:Hw.
    + destruct (weir_stat_mapped _ _ _ Hw) as [row ->].
      apply elem_of_cons in Hin as [->|Hin]; [congruence|].
      by rewrite (IH _ Hin Hnone).
    + by rewrite (weir_stat_unmapped _ _ Hw).
Qed.

(** X18.  A weir without a flowline ends the function with a [KeyError] as well,
    once the pipe rows are committed; nothing is logged for it. *)
Lemma unmapped_weir_raises fot mdb db weir :
  (forall pipe, pipe ∈ pipes mdb ->
     is_Some (flowline_mapping "v2_pipe" (flowlines db) !! pipe_id pipe)) ->
  weir ∈ weirs mdb ->
  flowline_mapping "v2_weir" (flowlines db) !! weir_id weir = None ->
  let o := calc_pipe_and_weir_statistics fot mdb db in
  out_exn o = Some KeyError /\ out_log o = [].
Proof.
  intros Hpipes Hin Hnone. unfold calc_pipe_and_weir_statistics.
  assert (forall ps log acc,
            (forall pipe, pipe ∈ ps ->
               is_Some (flowline_mapping "v2_pipe" (flowlines db) !! pipe_id pipe)) ->
            exists rows,
              pipe_rows (flowline_mapping "v2_pipe" (flowlines db)) ps log acc
              = (log, Ok rows)) as Hrows.
  { induction ps as [|p ps IH]; intros log acc Hall; cbn; [eauto|].
    destruct (Hall p (list_elem_of_here _ _)) as [idx Hp]. rewrite Hp.
    destruct (pipe_stat_mapped _ _ _ Hp) as [row ->].
    apply IH. intros pipe Hpipe. by apply Hall, list_elem_of_further. }
  destruct (Hrows (pipes mdb) [] [] Hpipes) as [rows ->].
  change (flowlines (set_pipe_stats db rows)) with (flowlines db).
  by rewrite (weir_rows_unmapped _ _ _ Hin Hnone).
Qed.

(** C2 fails on the code.  A pipe of the model without a flowline in the
    results is logged and then ends the function with a [KeyError]; a weir
    without one ends it with a [KeyError] and no warning. *)
Theorem missing_flowline_mapping_raises :
  let o := calc_pipe_and_weir_statistics float_of_digits unmapped_pipe_model nodes_only_db in
  let o' := calc_pipe_and_weir_statistics float_of_digits unmapped_weir_model nodes_only_db in
  out_log o = [NoResultForPipe 11] /\ out_exn o = Some KeyError /\
  out_log o' = [] /\ out_exn o' = Some KeyError.
Proof. vm_compute. done. Qed.

(** The manhole loops do log and skip. *)
Lemma manhole_indices_log mapping ms :
  forall acc,
    let '(idx, lvl, log) := foldl (manhole_index_step mapping) acc ms in
    (forall w, w ∈ acc.2 -> w ∈ log) /\
    forall m, m ∈ ms -> mapping !! mh_connection_node_id m = None ->
              ManholeNotInResults (mh_id m) ∈ log.
Proof.
  induction ms as [|m ms IH]; intros [[idx lvl] log]; cbn.
  - split; [done|]. intros m Hin. by apply elem_of_nil in Hin.
  - specialize (IH (manhole_index_step mapping (idx, lvl, log) m)).
    destruct (foldl _ _ ms) as [[idx' lvl'] log'].
    destruct IH as [Hkeep Hnew]. cbn in Hkeep |- *.
    destruct (mapping !! mh_connection_node_id m) eqn:Hm; cbn in Hkeep.
    + split; [done|]. intros m' [->|Hin]%elem_of_cons Hnone; [congruence|eauto].
    + split.
      * intros w Hw. apply Hkeep, elem_of_app. by left.
      * intros m' [->|Hin]%elem_of_cons Hnone; [|eauto].
        apply Hkeep, elem_of_app. right. apply list_elem_of_here.
Qed.

Lemma manhole_rows_cells mapping manhole_idx h_max t h_end :
  forall ms rows,
    manhole_rows mapping manhole_idx h_max t h_end ms = Ok rows ->
    forall row, row ∈ rows ->
    exists manhole sewerage h_max_ri h_end_ri,
      (manhole, sewerage) ∈ ms /\
      mapping !! mh_connection_node_id manhole = Some (ms_id row) /\
      ms_max_waterlevel row = py_round h_max_ri 3 /\
      ms_end_waterlevel row = py_round h_end_ri 3 /\
      ms_max_filling row = Some (manhole_filling h_max_ri manhole) /\
      ms_end_filling row = Some (manhole_filling h_end_ri manhole).
Proof.
  induction ms as [|[m sw] ms IH]; intros rows Hrows row Hin.
  - injection Hrows as <-. by apply elem_of_nil in Hin.
  - cbn in Hrows. destruct (mapping !! mh_connection_node_id m) as [idx|] eqn:Hm.
    + bind_ok Hrows. bind_ok Hrows. injection Hrows as <-.
      apply elem_of_cons in Hin as [->|Hin].
      * unfold manhole_row in E. repeat (let x := fresh in bind_ok E).
        injection E as <-. cbn. eexists m, sw, _, _.
        split_and!; try done. apply list_elem_of_here.
      * edestruct IH as (m' & sw' & a' & b' & ? & ?); [eassumption..|].
        exists m', sw', a', b'. split; [by apply list_elem_of_further|done].
    + destruct (IH _ Hrows _ Hin) as (m' & sw' & a' & b' & ? & ?).
      exists m', sw', a', b'. split; [by apply list_elem_of_further|done].
Qed.

(** A manhole without a node in the results is logged and gets no row. *)
Lemma manhole_without_result_is_skipped ds mdb mapping log rows agg :
  manhole_statistics ds mdb mapping = (log, Ok (rows, agg)) ->
  (forall m, m ∈ manholes mdb -> mapping !! mh_connection_node_id m = None ->
             ManholeNotInResults (mh_id m) ∈ log) /\
  (forall row, row ∈ rows ->
     exists m, mapping !! mh_connection_node_id m = Some (ms_id row)).
Proof.
  unfold manhole_statistics, manhole_indices.
  pose proof (manhole_indices_log mapping (manholes mdb) ([], [], [])) as Hlog.
  destruct (foldl _ _ (manholes mdb)) as [[idx lvl] log'].
  intros [= <- H]. split; [apply Hlog|].
  bind_ok H. bind_ok H. bind_ok H. bind_ok H. injection H as <- <-.
  intros row Hin.
  destruct (manhole_rows_cells _ _ _ _ _ _ _ E2 row Hin) as (m & ? & ? & ? & _ & Hm & _).
  eauto.
Qed.


(** ** Filling percentages *)

Lemma mapM_Ok_elem {A B} (f : A -> result B) (l : list A) (k : list B) :
  mapM f l = Ok k -> forall y, y ∈ k -> exists x, x ∈ l /\ f x = Ok y.
Proof.
  revert k. induction l as [|a l IH]; intros k Hm y Hy.
  - injection Hm as <-. by apply elem_of_nil in Hy.
  - cbn in Hm. bind_ok Hm. bind_ok Hm. injection Hm as <-.
    apply elem_of_cons in Hy as [->|Hy].
    + exists a. split; [apply list_elem_of_here|done].
    + destruct (IH _ E0 _ Hy) as (x & Hx & Hfx).
      exists x. split; [by apply list_elem_of_further|done].
Qed.

Lemma clip_unit x : 0 <= Qmax 0 (Qmin 1 x) <= 1.
Proof.
  split; [apply Q.le_max_l|].
  apply Q.max_lub; [lra|apply Q.le_min_l].
Qed.

Lemma get_filling_bounds a b c d e v :
  get_filling a b c d e = Ok (Some v) -> 0 <= v <= 100.
Proof.
  unfold get_filling. destruct a, b, c, d, e; try discriminate.
  intros H. bind_ok H. bind_ok H. injection H as <-.
  pose proof (clip_unit a) as Ha. pose proof (clip_unit a0) as Hb.
  assert (forall x, 100 * x / 2 == 50 * x) as Hhalf by (intros; field).
  split.
  - apply (py_round_ge _ 3 0). rewrite Hhalf. change (inject_Z 0) with 0. lra.
  - apply (py_round_le _ 3 100). rewrite Hhalf. change (inject_Z 100) with 100. lra.
Qed.

Lemma get_filling_null a b c d e :
  a = None \/ b = None \/ c = None \/ d = None \/ e = None ->
  get_filling a b c d e = Ok None.
Proof.
  unfold get_filling. intros H.
  destruct a, b, c, d, e; try reflexivity;
    destruct H as [H|[H|[H|[H|H]]]]; discriminate.
Qed.

Lemma pipe_derived_bounds fot pipe stats row :
  pipe_derived fot pipe stats = Ok row ->
  percentage_or_null (ps_max_filling row) /\ percentage_or_null (ps_end_filling row).
Proof.
  unfold pipe_derived. intros H. bind_ok H. bind_ok H. injection H as <-. cbn.
  split.
  - destruct a as [v|]; [|done]. by eapply get_filling_bounds.
  - destruct a0 as [v|]; [|done]. by eapply get_filling_bounds.
Qed.

Lemma pipe_stat_fresh mapping pipe row :
  pipe_stat mapping pipe = Ok row ->
  profile_height_of pipe = Ok (profile_height row) /\
  max_hydro_gradient row = None /\
  ps_max_filling row = None /\ ps_end_filling row = None.
Proof.
  unfold pipe_stat. intros H. bind_ok H. bind_ok H. by injection H as <-.
Qed.

Lemma pipe_rows_Ok mapping :
  forall ps log acc log' rows,
    pipe_rows mapping ps log acc = (log', Ok rows) ->
    forall row, row ∈ rows ->
    row ∈ acc \/ exists pipe, pipe ∈ ps /\ pipe_stat mapping pipe = Ok row.
Proof.
  induction ps as [|p ps IH]; intros log acc log' rows H row Hin.
  - injection H as <- <-. by left.
  - cbn in H. destruct (pipe_stat mapping p) as [r|] eqn:Hp; [|by destruct (mapping !! _)].
    destruct (IH _ _ _ _ H row Hin) as [[Hacc|Hnew]%elem_of_app|(q & Hq & Hrow)].
    + by left.
    + apply list_elem_of_singleton in Hnew as ->.
      right. exists p. split; [apply list_elem_of_here|done].
    + right. exists q. split; [by apply list_elem_of_further|done].
Qed.

(** The pipe rows of a call that returns: [get_filling] has clipped their
    filling percentages to [[0, 100]], or they are null. *)
Lemma calc_pipe_stats_bounds fot mdb db :
  out_exn (calc_pipe_and_weir_statistics fot mdb db) = None ->
  forall row, row ∈ pipe_stats (out_db (calc_pipe_and_weir_statistics fot mdb db)) ->
  percentage_or_null (ps_max_filling row) /\ percentage_or_null (ps_end_filling row).
Proof.
  unfold calc_pipe_and_weir_statistics.
  destruct (pipe_rows _ _ _ _) as [log [rows0|]] eqn:Hrows0; [|done].
  destruct (weir_rows _ _) as [wrows|]; [|done].
  destruct (pipes_derived _ _) as [rows1|] eqn:Hrows1; [|done].
  destruct (weirs_derived _) as [wrows1|]; [|done].
  cbn. intros _ row Hin.
  destruct (mapM_Ok_elem _ _ _ Hrows1 row Hin) as (row0 & Hin0 & Hrow).
  destruct (joined_stats _ _) as [stats|].
  - by eapply pipe_derived_bounds.
  - injection Hrow as <-. cbn in Hin0.
    destruct (pipe_rows_Ok _ _ _ _ _ _ Hrows0 row0 Hin0) as [[]%elem_of_nil|(p & _ & Hp)].
    apply pipe_stat_fresh in Hp as (_ & _ & -> & ->). done.
Qed.

Lemma manhole_filling_finite h manhole :
  ~ mh_surface_level manhole == mh_bottom_level manhole ->
  manhole_filling h manhole =
    Finite (py_round (100 * (h - mh_bottom_level manhole) /
                      (mh_surface_level manhole - mh_bottom_level manhole)) 1).
Proof.
  intros Hne. unfold manhole_filling, np_div.
  destruct (Qeq_bool _ 0) eqn:Hz; [|done].
  apply Qeq_bool_iff in Hz. exfalso. apply Hne. lra.
Qed.

(** A level at or above the surface gives a manhole filling of 100 or more:
    nothing clips it. *)
Lemma manhole_filling_above_surface h manhole :
  mh_bottom_level manhole < mh_surface_level manhole ->
  mh_surface_level manhole <= h ->
  exists q, manhole_filling h manhole = Finite q /\ 100 <= q.
Proof.
  intros Hlt Hle. rewrite manhole_filling_finite by lra.
  eexists. split; [reflexivity|].
  apply (py_round_ge _ 1 100). change (inject_Z 100) with 100.
  apply Qle_shift_div_l; lra.
Qed.

(** C3.  The manhole filling is not clipped.  On scenario 1 (bottom level 0,
    surface level 1, maximum water level 1.5)
    [get_manhole_attributes_and_statistics] writes [max_filling = 150.0],
    outside [[0, 100]], where [get_filling], the function of the pipes,
    clips the same levels over the same height to 100. *)
Theorem manhole_filling_not_clipped :
  let o := get_manhole_attributes_and_statistics scenario1_ds scenario1_model scenario1_db in
  out_exn o = None /\
  exists row q,
    manhole_stats (out_db o) = [row] /\
    ms_max_filling row = Some (Finite q) /\
    q == 150 /\ ~ q <= 100 /\
    get_filling (Some 1.5) (Some 1.5) (Some 0) (Some 0) (Some 1) = Ok (Some 100.000).
Proof.
  cbn zeta. split; [vm_compute; reflexivity|].
  eexists _, _. split; [vm_compute; reflexivity|].
  split; [reflexivity|]. split; [reflexivity|]. split.
  - vm_compute. intros Hle. by apply Hle.
  - vm_compute. reflexivity.
Qed.

(** ** Undefined derived values *)

Lemma perc_of_zero_maximum x : perc_of (Some x) (Some 0) = Raise ZeroDivisionError.
Proof. reflexivity. Qed.

Lemma get_filling_zero_height a b c d :
  get_filling (Some a) (Some b) (Some c) (Some d) (Some 0) = Raise ZeroDivisionError.
Proof. reflexivity. Qed.

Lemma hydro_gradient_guard old stats :
  abs_length stats = None \/ max_waterlevel_head stats = None \/
  (exists length, abs_length stats = Some length /\ length <= 0) ->
  hydro_gradient old stats = old.
Proof.
  unfold hydro_gradient. intros [->|[->|(length & -> & Hle)]].
  - done.
  - by destruct (abs_length stats).
  - destruct (max_waterlevel_head stats); [|done].
    apply Qle_bool_iff in Hle. by rewrite Hle.
Qed.

(** Scenario 2 of the specification: crest level 2.0 and maximum water
    levels 2.3 and 2.1 at the two ends give an overfall height of 0.3. *)
Example scenario2_overfall_height :
  forall stats,
    max_waterlevel_start stats = Some 2.3 ->
    max_waterlevel_end stats = Some 2.1 ->
    exists h, overfall_height stats (Some 2) = Ok (Some h) /\ h == 0.3.
Proof.
  intros stats Hs He. unfold overfall_height. rewrite Hs, He. cbn.
  eexists. split; reflexivity.
Qed.

(** C6 fails on the code.  A profile height of zero raises
    [ZeroDivisionError] in [get_filling], and so does a network-wide maximum
    of zero in the weir percentages: the run on [one_way_ds], where no weir
    ever flows backwards, ends with that exception. *)
Theorem undefined_division_raises :
  get_filling (Some 2) (Some 2) (Some 1) (Some 1) (Some 0) = Raise ZeroDivisionError /\
  out_exn (run float_of_digits steady_ds (network_model "0") network_db)
    = Some ZeroDivisionError /\
  out_exn (run float_of_digits one_way_ds (network_model "2") network_db)
    = Some ZeroDivisionError.
Proof. split_and!; vm_compute; reflexivity. Qed.

(** ** Scenario 1 *)

(** C7, amended.  In scenario 1 the row written has
    [duration_water_on_surface = round(10 / 3600, 3) = 0.003] hours,
    [max_waterlevel = 1.5] and [end_waterlevel = 0.8]. *)
Theorem scenario1_manhole_row :
  let o := get_manhole_attributes_and_statistics scenario1_ds scenario1_model scenario1_db in
  out_exn o = None /\
  exists row,
    manhole_stats (out_db o) = [row] /\
    duration_water_on_surface row == py_round (10 / 3600) 3 /\
    duration_water_on_surface row == 0.003 /\
    ms_max_waterlevel row == 1.5 /\
    ms_end_waterlevel row == 0.8.
Proof.
  split; [vm_compute; reflexivity|].
  eexists. split; [vm_compute; reflexivity|]. split_and!; vm_compute; reflexivity.
Qed.

(** C7 as stated fails: the duration written is not [10 / 3600]. *)
Lemma scenario1_duration_counterexample :
  ~ exists row,
      manhole_stats (out_db (get_manhole_attributes_and_statistics
                               scenario1_ds scenario1_model scenario1_db)) = [row] /\
      duration_water_on_surface row == 10 / 3600 /\
      ms_max_waterlevel row == 1.5 /\
      ms_end_waterlevel row == 0.8.
Proof.
  intros (row & Hrow & Hd & _). vm_compute in Hrow. injection Hrow as <-.
  vm_compute in Hd. discriminate Hd.
Qed.


(** ** Provenance *)

Lemma set_stat_source_rows store table field agg param timestep r :
  r ∈ set_stat_source store table field agg param timestep ->
  r ∈ store \/ r = source_row (table, field, agg, param, timestep).
Proof.
  induction store as [|r0 store IH]; cbn.
  - intros ->%list_elem_of_singleton. by right.
  - destruct (same_source table field r0).
    + intros [->|Hin]%elem_of_cons; [by right|]. left. by apply list_elem_of_further.
    + intros [->|Hin]%elem_of_cons; [left; apply list_elem_of_here|].
      destruct (IH Hin) as [?|?]; [left; by apply list_elem_of_further|by right].
Qed.

Lemma same_source_row table field agg param timestep :
  same_source table field (source_row (table, field, agg, param, timestep)) = true.
Proof. unfold same_source. cbn. by rewrite !bool_decide_eq_true_2. Qed.

(** Upsert: after the call, the row found for the table and field is the
    row of the call. *)
Lemma find_source_set_stat_source store table field agg param timestep :
  find_source (set_stat_source store table field agg param timestep) table field
  = Some (source_row (table, field, agg, param, timestep)).
Proof.
  pose proof (same_source_row table field agg param timestep) as Hnew.
  unfold find_source. induction store as [|r store IH]; cbn.
  - rewrite decide_True by exact Hnew. reflexivity.
  - destruct (same_source table field r) eqn:Hr; cbn.
    + rewrite decide_True by exact Hnew. reflexivity.
    + rewrite decide_False by (rewrite Hr; discriminate).
      destruct (list_find _ _) as [[i x]|]; [|discriminate IH].
      cbn in IH |- *. exact IH.
Qed.

Lemma record_sources_rows calls :
  forall store r,
    r ∈ record_sources calls store ->
    r ∈ store \/ exists c, c ∈ calls /\ r = source_row c.
Proof.
  unfold record_sources.
  induction calls as [|c calls IH]; intros store r Hin; cbn in Hin; [by left|].
  destruct (IH _ _ Hin) as [Hr|(c' & Hc' & ->)].
  - destruct c as [[[[table field] agg] param] timestep]. cbn in Hr.
    apply set_stat_source_rows in Hr as [?| ->]; [by left|].
    right. eexists. split; [apply list_elem_of_here|done].
  - right. exists c'. split; [by apply list_elem_of_further|done].
Qed.

Lemma manhole_sources_rule agg avg :
  Forall (fun c => timestep_rule avg (source_row c)) (manhole_sources agg avg).
Proof. destruct agg; repeat constructor; cbn; congruence. Qed.

Lemma flowline_sources_rule a b c avg :
  Forall (fun c => timestep_rule avg (source_row c)) (flowline_sources a b c avg).
Proof. destruct a, b, c; repeat constructor; cbn; congruence. Qed.

Lemma pump_sources_rule agg avg :
  Forall (fun c => timestep_rule avg (source_row c)) (pump_sources agg avg).
Proof. destruct agg; repeat constructor; cbn; congruence. Qed.

Lemma avg_timestep_Ok ds avg :
  avg_timestep ds = Ok avg ->
  exists final,
    last (timestamps ds) = Some final /\
    avg = py_int (final / inject_Z (Z.of_nat (length (timestamps ds)) - 1)).
Proof.
  unfold avg_timestep, np_div, last_timestep_nr.
  destruct (last (timestamps ds)) as [final|]; [|done].
  destruct (Qeq_bool _ 0); [by destruct (Qeq_bool final 0)|].
  intros [= <-]. eauto.
Qed.

Lemma recorded_follow_rule ds old db calls avg :
  sources_follow_rule ds old db ->
  avg_timestep ds = Ok avg ->
  Forall (fun c => timestep_rule avg (source_row c)) calls ->
  forall r, r ∈ record_sources calls (stat_source db) ->
    r ∈ old \/ exists avg, avg_timestep ds = Ok avg /\ timestep_rule avg r.
Proof.
  intros Hold Havg Hcalls r Hin.
  apply record_sources_rows in Hin as [Hr|(c & Hc & ->)]; [by apply Hold|].
  right. exists avg. split; [done|]. by eapply Forall_forall in Hcalls.
Qed.

Lemma manhole_follow_rule ds mdb old db :
  sources_follow_rule ds old db ->
  sources_follow_rule ds old (out_db (get_manhole_attributes_and_statistics ds mdb db)).
Proof.
  intros Hold. unfold get_manhole_attributes_and_statistics.
  destruct (manhole_statistics _ _ _) as [log [[rows agg]|]]; [|done].
  destruct (avg_timestep ds) as [avg|] eqn:Havg; [|done].
  intros r Hin. cbn in Hin.
  eapply (recorded_follow_rule ds old db);
    [exact Hold | exact Havg | apply manhole_sources_rule | exact Hin].
Qed.

Lemma flowline_follow_rule ds old db :
  sources_follow_rule ds old db ->
  sources_follow_rule ds old (out_db (calc_flowline_statistics ds db)).
Proof.
  intros Hold. unfold calc_flowline_statistics.
  destruct (flowline_statistics _ _) as [rows|]; [|done].
  destruct (avg_timestep ds) as [avg|] eqn:Havg; [|done].
  destruct (flow_aggregates ds) as [[a b] c].
  intros r Hin. cbn in Hin.
  eapply (recorded_follow_rule ds old db);
    [exact Hold | exact Havg | apply flowline_sources_rule | exact Hin].
Qed.

Lemma pipe_weir_follow_rule fot ds mdb old db :
  sources_follow_rule ds old db ->
  sources_follow_rule ds old (out_db (calc_pipe_and_weir_statistics fot mdb db)).
Proof.
  intros Hold. unfold calc_pipe_and_weir_statistics.
  destruct (pipe_rows _ _ _ _) as [log [rows0|]]; [|done].
  destruct (weir_rows _ _) as [wrows|]; [|done].
  destruct (pipes_derived _ _) as [rows1|]; [|done].
  destruct (weirs_derived _) as [wrows1|]; done.
Qed.

Lemma pump_follow_rule ds mdb old db :
  sources_follow_rule ds old db ->
  sources_follow_rule ds old (out_db (get_pump_attributes_and_statistics ds mdb db)).
Proof.
  intros Hold. unfold get_pump_attributes_and_statistics.
  destruct (pump_statistics _ _) as [[rows agg]|]; [|done].
  destruct (avg_timestep ds) as [avg|] eqn:Havg; [|done].
  intros r Hin. cbn in Hin.
  eapply (recorded_follow_rule ds old db);
    [exact Hold | exact Havg | apply pump_sources_rule | exact Hin].
Qed.

Lemma and_then_follow_rule ds old o f :
  sources_follow_rule ds old (out_db o) ->
  (forall db, sources_follow_rule ds old db -> sources_follow_rule ds old (out_db (f db))) ->
  sources_follow_rule ds old (out_db (and_then o f)).
Proof.
  intros Ho Hf. unfold and_then. destruct (out_exn o); [done|]. cbn. by apply Hf.
Qed.

(** What the rows record.  Every provenance row a run writes whose
    [from_agg] flag is set has a null time step, and every other row has the
    time step [int(final_timestamp / (step_count - 1))], the quotient
    truncated to an integer.  The flag is the one the row carries: whether
    the field was computed from the aggregate is another matter, see
    [perc_max_discharge_recorded_as_aggregate]. *)
Theorem provenance_timestep fot ds mdb db r :
  r ∈ stat_source (out_db (run fot ds mdb db)) ->
  r ∈ stat_source db \/
  ((from_agg r = true -> src_timestep r = None) /\
   (from_agg r = false ->
    exists final,
      last (timestamps ds) = Some final /\
      src_timestep r =
        Some (py_int (final / inject_Z (Z.of_nat (length (timestamps ds)) - 1))))).
Proof.
  intros Hin.
  assert (sources_follow_rule ds (stat_source db) (out_db (run fot ds mdb db))) as Hrun.
  { unfold run. repeat apply and_then_follow_rule.
    - apply manhole_follow_rule. intros r0 ?. by left.
    - intros. by apply flowline_follow_rule.
    - intros. by apply pipe_weir_follow_rule.
    - intros. by apply pump_follow_rule. }
  destruct (Hrun r Hin) as [?|(avg & Havg & Hagg & Hstep)]; [by left|].
  right. split; [done|]. intros Hf.
  apply avg_timestep_Ok in Havg as (final & Hlast & ->). eauto.
Qed.

(** The first provenance row of the run on [uneven_ds]. *)
Lemma provenance_timestep_witness :
  exists r,
    stat_source (out_db (run float_of_digits uneven_ds (network_model "2") network_db))
      !! 0%nat = Some r /\
    (r ∈ stat_source network_db \/
     ((from_agg r = true -> src_timestep r = None) /\
      (from_agg r = false ->
       exists final,
         last (timestamps uneven_ds) = Some final /\
         src_timestep r =
           Some (py_int (final / inject_Z (Z.of_nat (length (timestamps uneven_ds)) - 1)))))).
Proof.
  eexists. split; [vm_compute; reflexivity|].
  apply (provenance_timestep float_of_digits uneven_ds (network_model "2") network_db).
  apply list_elem_of_lookup_2 with 0%nat. vm_compute; reflexivity.
Defined.

(** On [uneven_ds] (timestamps 0, 5, 11) the step recorded is 5, not
    11 / 2. *)
Lemma provenance_timestep_counterexample :
  ~ (forall r,
       r ∈ stat_source (out_db (run float_of_digits uneven_ds (network_model "2")
                                  network_db)) ->
       (from_agg r = true -> src_timestep r = None) /\
       (from_agg r = false ->
        exists step, src_timestep r = Some step /\ inject_Z step == 11 / (3 - 1))).
Proof.
  intros H. edestruct H as [_ Hstep].
  - apply list_elem_of_lookup_2 with 0%nat. vm_compute; reflexivity.
  - destruct Hstep as (step & Hs & Heq); [reflexivity|].
    injection Hs as <-. vm_compute in Heq. discriminate Heq.
Qed.

(** C8.  A field derived from the time steps is recorded as derived from an
    aggregate.  With [q_pump_cum] in the result file,
    [get_pump_attributes_and_statistics] records
    [pumpline_stats.perc_max_discharge] with the flag set, the parameter
    [q_pump_cum] and a null time step, yet the value written is the maximum
    of [q_pump] over the passes of the time loop: on two result files with
    the same aggregate and another [q_pump] at step 1 the provenance row is
    the same and the value is 50 in one and 150 in the other. *)
Theorem perc_max_discharge_recorded_as_aggregate :
  let calm := get_pump_attributes_and_statistics (pump_aggregate_ds 1) pump_model
                (empty_resdb [] []) in
  let peaked := get_pump_attributes_and_statistics (pump_aggregate_ds 3) pump_model
                  (empty_resdb [] []) in
  let recorded :=
    Some {| src_table := "pumpline_stats"; src_field := "perc_max_discharge";
            from_agg := true; input_param := "q_pump_cum"; src_timestep := None |} in
  out_exn calm = None /\ out_exn peaked = None /\
  (forall nr, values_by_timestep_nr (pump_aggregate_ds 1) "q_pump_cum" nr =
              values_by_timestep_nr (pump_aggregate_ds 3) "q_pump_cum" nr) /\
  find_source (stat_source (out_db calm)) "pumpline_stats" "perc_max_discharge"
    = recorded /\
  find_source (stat_source (out_db peaked)) "pumpline_stats" "perc_max_discharge"
    = recorded /\
  pl_cum_discharge <$> pumpline_stats (out_db calm) = [30.000] /\
  pl_cum_discharge <$> pumpline_stats (out_db peaked) = [30.000] /\
  perc_max_discharge <$> pumpline_stats (out_db calm) = [Finite 50.00] /\
  perc_max_discharge <$> pumpline_stats (out_db peaked) = [Finite 150.00].
Proof.
  cbn zeta. split; [vm_compute; reflexivity|]. split; [vm_compute; reflexivity|].
  split.
  - intros nr. vm_compute. reflexivity.
  - split_and!; vm_compute; reflexivity.
Qed.


(** ** The profile height of a pipe *)











Example py_split_double_space :
  py_split "a  b" = ["a"; ""; "b"]%string /\ py_split "" = [""%string].
Proof. split; reflexivity. Qed.

(** [py_split] cuts at every space and nowhere else. *)
Lemma py_split_concat s : String.concat " " (py_split s) = s.
Proof.
  induction s as [|c s IH]; cbn; [done|].
  pose proof (py_split_nonempty s) as Hne.
  case_bool_decide as Hc.
  - subst c. destruct (py_split s) as [|t ts]; [done|]. rewrite <- IH. reflexivity.
  - destruct (py_split s) as [|t ts]; [done|].
    destruct ts as [|t' ts]; rewrite <- IH; reflexivity.
Qed.

Lemma py_split_no_space s : Forall (fun t => has_space t = false) (py_split s).
Proof.
  induction s as [|c s IH]; cbn; [by constructor|].
  case_bool_decide as Hc; [by constructor|].
  destruct (py_split s) as [|t ts]; [by repeat constructor; cbn; rewrite bool_decide_eq_false_2|].
  inversion IH; subst. constructor; [|done]. cbn. by rewrite bool_decide_eq_false_2.
Qed.




(** * Further properties *)

(** ** The provenance table *)

Lemma same_source_false table field table' field' agg param timestep :
  (table', field') <> (table, field) ->
  same_source table' field' (source_row (table, field, agg, param, timestep)) = false.
Proof.
  intros Hne. unfold same_source. cbn.
  apply andb_false_iff.
  destruct (decide (table = table')) as [->|Ht].
  - right. apply bool_decide_eq_false. intros ->. by apply Hne.
  - left. by apply bool_decide_eq_false.
Qed.

Lemma find_source_cons store table field r :
  find_source (r :: store) table field =
  if same_source table field r then Some r else find_source store table field.
Proof.
  unfold find_source. cbn. destruct (same_source table field r) eqn:Hr.
  - by rewrite decide_True.
  - rewrite decide_False by discriminate.
    by destruct (list_find _ store) as [[i x]|].
Qed.

Theorem set_stat_source_other store table field agg param timestep table' field' :
  (table', field') <> (table, field) ->
  find_source (set_stat_source store table field agg param timestep) table' field'
  = find_source store table' field'.
Proof.
  intros Hne.
  pose proof (same_source_false _ _ _ _ agg param timestep Hne) as Hnew.
  cbn in Hnew.
  induction store as [|r store IH]; cbn [set_stat_source].
  - rewrite find_source_cons. by rewrite Hnew.
  - destruct (same_source table field r) eqn:Hr.
    + rewrite !find_source_cons. rewrite Hnew.
      assert (same_source table' field' r = false) as ->; [|done].
      unfold same_source in *. apply andb_true_iff in Hr as [Ht Hf].
      apply bool_decide_eq_true in Ht, Hf. apply andb_false_iff.
      destruct (decide (src_table r = table')) as [E|E];
        [right|left; by apply bool_decide_eq_false].
      apply bool_decide_eq_false. intros E'. apply Hne. congruence.
    + rewrite !find_source_cons. by rewrite IH.
Qed.

Lemma set_stat_source_found store table field agg param timestep :
  find_source store table field = Some (source_row (table, field, agg, param, timestep)) ->
  set_stat_source store table field agg param timestep = store.
Proof.
  induction store as [|r store IH]; [done|].
  rewrite find_source_cons. cbn [set_stat_source]. destruct (same_source table field r).
  - by intros [= ->].
  - intros H. by rewrite IH.
Qed.

Lemma length_set_stat_source store table field agg param timestep :
  length (set_stat_source store table field agg param timestep) =
  match find_source store table field with
  | Some _ => length store
  | None => S (length store)
  end.
Proof.
  induction store as [|r store IH]; [done|].
  rewrite find_source_cons. cbn [set_stat_source].
  destruct (same_source table field r); [done|].
  cbn [length]. rewrite IH. by destruct (find_source store table field).
Qed.

(** X1.  [set_stat_source] is an upsert on the key [(table, field)]: after
    the call the key finds the row of the call; every other key finds what
    it found before; and the table has one row more exactly when the key was
    not in it. *)
Theorem set_stat_source_upsert store table field agg param timestep :
  find_source (set_stat_source store table field agg param timestep) table field
    = Some (source_row (table, field, agg, param, timestep)) /\
  (forall table' field',
     (table', field') <> (table, field) ->
     find_source (set_stat_source store table field agg param timestep) table' field'
       = find_source store table' field') /\
  length (set_stat_source store table field agg param timestep) =
    match find_source store table field with
    | Some _ => length store
    | None => S (length store)
    end.
Proof.
  split_and!.
  - apply find_source_set_stat_source.
  - intros table' field'. apply set_stat_source_other.
  - apply length_set_stat_source.
Qed.

(** X1 on a table that holds one other row. *)
Lemma set_stat_source_upsert_witness :
  let store := [source_row ("manhole_stats", "end_waterlevel", false, "s1", Some 10%Z)]%string in
  let store' := set_stat_source store "manhole_stats" "max_waterlevel" true "s1_max" None in
  find_source store' "manhole_stats" "max_waterlevel"
    = Some (source_row ("manhole_stats", "max_waterlevel", true, "s1_max", None))%string /\
  find_source store' "manhole_stats" "end_waterlevel"
    = find_source store "manhole_stats" "end_waterlevel" /\
  length store' = 2%nat.
Proof.
  intros store store'.
  destruct (set_stat_source_upsert store "manhole_stats" "max_waterlevel" true "s1_max" None)
    as (Hfind & Hother & Hlen).
  split; [exact Hfind|]. split; [|exact Hlen].
  apply Hother. discriminate.
Defined.

Lemma apply_source_find store c :
  find_source (apply_source store c) (call_key c).1 (call_key c).2 = Some (source_row c).
Proof.
  destruct c as [[[[table field] agg] param] timestep]. cbn.
  apply find_source_set_stat_source.
Qed.

Lemma apply_source_other store c table field :
  (table, field) <> call_key c ->
  find_source (apply_source store c) table field = find_source store table field.
Proof.
  destruct c as [[[[t f] agg] param] timestep]. cbn. apply set_stat_source_other.
Qed.

Lemma record_sources_other calls :
  forall store table field,
    (table, field) ∉ call_key <$> calls ->
    find_source (record_sources calls store) table field = find_source store table field.
Proof.
  unfold record_sources.
  induction calls as [|c calls IH]; intros store table field Hnot; [done|].
  rewrite fmap_cons in Hnot. apply not_elem_of_cons in Hnot as [Hc Hnot].
  change (foldl apply_source store (c :: calls))
    with (foldl apply_source (apply_source store c) calls).
  rewrite IH by done. by apply apply_source_other.
Qed.

Theorem record_sources_find calls :
  NoDup (call_key <$> calls) ->
  forall store c, c ∈ calls ->
    find_source (record_sources calls store) (call_key c).1 (call_key c).2
    = Some (source_row c).
Proof.
  unfold record_sources.
  induction calls as [|c0 calls IH]; intros Hnd store c Hin.
  - by apply elem_of_nil in Hin.
  - rewrite fmap_cons in Hnd. apply NoDup_cons in Hnd as [Hc0 Hnd].
    change (foldl apply_source store (c0 :: calls))
      with (foldl apply_source (apply_source store c0) calls).
    apply elem_of_cons in Hin as [->|Hin]; [|by apply IH].
    pose proof (record_sources_other calls (apply_source store c0)
                  (call_key c0).1 (call_key c0).2) as Ho.
    unfold record_sources in Ho. rewrite Ho by (by destruct (call_key c0)).
    apply apply_source_find.
Qed.

Theorem record_sources_idempotent calls store :
  NoDup (call_key <$> calls) ->
  record_sources calls (record_sources calls store) = record_sources calls store.
Proof.
  intros Hnd.
  pose proof (record_sources_find calls Hnd store) as Hfind.
  set (store' := record_sources calls store) in *. clearbody store'.
  unfold record_sources. clear Hnd.
  induction calls as [|c calls IH]; [done|].
  change (foldl apply_source store' (c :: calls))
    with (foldl apply_source (apply_source store' c) calls).
  assert (apply_source store' c = store') as ->.
  { specialize (Hfind c (list_elem_of_here _ _)).
    destruct c as [[[[table field] agg] param] timestep]. cbn in *.
    by apply set_stat_source_found. }
  apply IH. intros c' Hc'. apply Hfind. by apply list_elem_of_further.
Qed.

Lemma run_sources_keys ds avg :
  call_key <$> run_sources ds avg =
  call_key <$> (manhole_sources false 0 ++ flowline_sources false false false 0
                ++ pump_sources false 0).
Proof.
  unfold run_sources. destruct (flow_aggregates ds) as [[a b] c].
  destruct (get_available ds "s1_max"), (get_available ds "q_pump_cum"), a, b, c;
    reflexivity.
Qed.

Lemma run_sources_NoDup ds avg : NoDup (call_key <$> run_sources ds avg).
Proof.
  rewrite run_sources_keys. apply (bool_decide_unpack _). vm_compute. exact I.
Qed.

(** ** A whole run *)

Lemma all_sources_NoDup a b c d e avg :
  NoDup (call_key <$> (manhole_sources a avg ++ flowline_sources b c d avg
                       ++ pump_sources e avg)).
Proof.
  assert (call_key <$> (manhole_sources a avg ++ flowline_sources b c d avg
                        ++ pump_sources e avg)
          = call_key <$> (manhole_sources false 0 ++ flowline_sources false false false 0
                          ++ pump_sources false 0)) as ->
    by (destruct a, b, c, d, e; reflexivity).
  apply (bool_decide_unpack _). vm_compute. exact I.
Qed.

Lemma record_sources_app calls calls' store :
  record_sources (calls ++ calls') store = record_sources calls' (record_sources calls store).
Proof. unfold record_sources. apply foldl_app. Qed.

Lemma manhole_stage_ok ds mdb db :
  out_exn (get_manhole_attributes_and_statistics ds mdb db) = None ->
  exists log rows agg avg,
    manhole_statistics ds mdb (node_mapping_of (nodes db)) = (log, Ok (rows, agg)) /\
    avg_timestep ds = Ok avg.
Proof.
  unfold get_manhole_attributes_and_statistics.
  destruct (manhole_statistics _ _ _) as [log [[rows agg]|]]; [|done].
  destruct (avg_timestep ds) as [avg|]; [|done]. eauto 10.
Qed.

Lemma manhole_stage_eval ds mdb db log rows agg avg :
  manhole_statistics ds mdb (node_mapping_of (nodes db)) = (log, Ok (rows, agg)) ->
  avg_timestep ds = Ok avg ->
  get_manhole_attributes_and_statistics ds mdb db =
  {| out_db := set_sources (set_manhole_stats db rows)
                 (record_sources (manhole_sources agg avg) (stat_source db));
     out_log := log; out_exn := None |}.
Proof. unfold get_manhole_attributes_and_statistics. by intros -> ->. Qed.

Lemma flowline_stage_ok ds db :
  out_exn (calc_flowline_statistics ds db) = None ->
  exists rows avg,
    flowline_statistics ds (flowlines db) = Ok rows /\ avg_timestep ds = Ok avg.
Proof.
  unfold calc_flowline_statistics.
  destruct (flowline_statistics _ _) as [rows|]; [|done].
  destruct (avg_timestep ds) as [avg|]; [|done]. eauto.
Qed.

Lemma flowline_stage_eval ds db rows avg :
  flowline_statistics ds (flowlines db) = Ok rows ->
  avg_timestep ds = Ok avg ->
  calc_flowline_statistics ds db =
  {| out_db := set_sources (set_flowline_stats db rows)
                 (record_sources
                    (flowline_sources (flow_aggregates ds).1.1 (flow_aggregates ds).1.2
                       (flow_aggregates ds).2 avg)
                    (stat_source db));
     out_log := []; out_exn := None |}.
Proof.
  unfold calc_flowline_statistics. intros -> ->.
  by destruct (flow_aggregates ds) as [[a b] c].
Qed.

Lemma pump_stage_ok ds mdb db :
  out_exn (get_pump_attributes_and_statistics ds mdb db) = None ->
  exists rows agg avg,
    pump_statistics ds mdb = Ok (rows, agg) /\ avg_timestep ds = Ok avg.
Proof.
  unfold get_pump_attributes_and_statistics.
  destruct (pump_statistics _ _) as [[rows agg]|]; [|done].
  destruct (avg_timestep ds) as [avg|]; [|done]. eauto.
Qed.

Lemma pump_stage_eval ds mdb db rows agg avg :
  pump_statistics ds mdb = Ok (rows, agg) ->
  avg_timestep ds = Ok avg ->
  get_pump_attributes_and_statistics ds mdb db =
  {| out_db := set_sources (set_pumpline_stats db rows)
                 (record_sources (pump_sources agg avg) (stat_source db));
     out_log := []; out_exn := None |}.
Proof. unfold get_pump_attributes_and_statistics. by intros -> ->. Qed.

Lemma joined_stats_ext db db' id :
  flowlines db = flowlines db' -> flowline_stats db = flowline_stats db' ->
  joined_stats db id = joined_stats db' id.
Proof. unfold joined_stats. by intros -> ->. Qed.

Lemma mapM_ext {A B} (f g : A -> result B) (l : list A) :
  (forall x, f x = g x) -> mapM f l = mapM g l.
Proof.
  intros Hfg. induction l as [|x l IH]; [done|].
  change (mapM f (x :: l)) with (y ← f x; k ← mapM f l; mret (y :: k)).
  change (mapM g (x :: l)) with (y ← g x; k ← mapM g l; mret (y :: k)).
  by rewrite Hfg, IH.
Qed.

Lemma pipes_derived_ext fot db db' :
  flowlines db = flowlines db' -> flowline_stats db = flowline_stats db' ->
  pipe_stats db = pipe_stats db' ->
  pipes_derived fot db = pipes_derived fot db'.
Proof.
  intros Hf Hs Hp. unfold pipes_derived. rewrite Hp. apply mapM_ext.
  intros pipe. by rewrite (joined_stats_ext db db').
Qed.

Lemma weirs_derived_ext db db' :
  flowlines db = flowlines db' -> flowline_stats db = flowline_stats db' ->
  weir_stats db = weir_stats db' ->
  weirs_derived db = weirs_derived db'.
Proof.
  intros Hf Hs Hw. unfold weirs_derived, weir_flowline_stats. rewrite Hw, Hs.
  apply mapM_ext. intros weir. by rewrite (joined_stats_ext db db').
Qed.

Lemma pipe_weir_stage_ok fot mdb db :
  out_exn (calc_pipe_and_weir_statistics fot mdb db) = None ->
  exists log rows0 wrows P W,
    pipe_rows (flowline_mapping "v2_pipe" (flowlines db)) (pipes mdb) [] []
      = (log, Ok rows0) /\
    weir_rows (flowline_mapping "v2_weir" (flowlines db)) (weirs mdb) = Ok wrows /\
    pipes_derived fot (set_weir_stats (set_pipe_stats db rows0) wrows) = Ok P /\
    weirs_derived (set_pipe_stats (set_weir_stats (set_pipe_stats db rows0) wrows) P)
      = Ok W.
Proof.
  unfold calc_pipe_and_weir_statistics.
  destruct (pipe_rows _ _ _ _) as [log [rows0|]]; [|done].
  change (flowlines (set_pipe_stats db rows0)) with (flowlines db).
  destruct (weir_rows _ _) as [wrows|]; [|done].
  destruct (pipes_derived _ _) as [P|] eqn:HP; [|done].
  destruct (weirs_derived _) as [W|] eqn:HW; [|done].
  intros _. exists log, rows0, wrows, P, W.
  split; [reflexivity|]. split; [reflexivity|]. split; [exact HP|exact HW].
Qed.

Lemma pipe_weir_stage_eval fot mdb db log rows0 wrows P W :
  pipe_rows (flowline_mapping "v2_pipe" (flowlines db)) (pipes mdb) [] []
    = (log, Ok rows0) ->
  weir_rows (flowline_mapping "v2_weir" (flowlines db)) (weirs mdb) = Ok wrows ->
  pipes_derived fot (set_weir_stats (set_pipe_stats db rows0) wrows) = Ok P ->
  weirs_derived (set_pipe_stats (set_weir_stats (set_pipe_stats db rows0) wrows) P)
    = Ok W ->
  calc_pipe_and_weir_statistics fot mdb db =
  {| out_db := set_weir_stats
                 (set_pipe_stats (set_weir_stats (set_pipe_stats db rows0) wrows) P) W;
     out_log := log; out_exn := None |}.
Proof.
  intros H0 Hw HP HW. unfold calc_pipe_and_weir_statistics. rewrite H0.
  change (flowlines (set_pipe_stats db rows0)) with (flowlines db).
  rewrite Hw, HP, HW. reflexivity.
Qed.

Lemma and_then_ok o f :
  out_exn (and_then o f) = None ->
  out_exn o = None /\ out_exn (f (out_db o)) = None.
Proof.
  unfold and_then. destruct (out_exn o) eqn:E; [congruence|]. cbn. done.
Qed.

Lemma and_then_eval db log f :
  and_then {| out_db := db; out_log := log; out_exn := None |} f =
  {| out_db := out_db (f db); out_log := log ++ out_log (f db);
     out_exn := out_exn (f db) |}.
Proof. reflexivity. Qed.

(** A run all of whose stages return, stage by stage. *)
Lemma run_eval fot ds mdb db log1 M agg avg F log3 rows0 wrows P W U aggp :
  manhole_statistics ds mdb (node_mapping_of (nodes db)) = (log1, Ok (M, agg)) ->
  avg_timestep ds = Ok avg ->
  flowline_statistics ds (flowlines db) = Ok F ->
  pipe_rows (flowline_mapping "v2_pipe" (flowlines db)) (pipes mdb) [] []
    = (log3, Ok rows0) ->
  weir_rows (flowline_mapping "v2_weir" (flowlines db)) (weirs mdb) = Ok wrows ->
  pipes_derived fot (network_tables (flowlines db) F rows0 wrows) = Ok P ->
  weirs_derived (network_tables (flowlines db) F P wrows) = Ok W ->
  pump_statistics ds mdb = Ok (U, aggp) ->
  run fot ds mdb db =
  {| out_db :=
       {| nodes := nodes db; flowlines := flowlines db; manhole_stats := M;
          flowline_stats := F; pipe_stats := P; weir_stats := W;
          pumpline_stats := U;
          stat_source :=
            record_sources
              (manhole_sources agg avg ++
               flowline_sources (flow_aggregates ds).1.1 (flow_aggregates ds).1.2
                 (flow_aggregates ds).2 avg ++
               pump_sources aggp avg)
              (stat_source db) |};
     out_log := log1 ++ log3; out_exn := None |}.
Proof.
  intros E1 Eavg E2 E3a E3b E3c E3d E4. unfold run.
  rewrite (manhole_stage_eval _ _ _ _ _ _ _ E1 Eavg), and_then_eval.
  erewrite flowline_stage_eval; [|exact E2|exact Eavg]. cbn [out_db out_log out_exn].
  rewrite and_then_eval.
  erewrite (pipe_weir_stage_eval fot mdb _ log3 rows0 wrows P W);
    [|exact E3a|exact E3b| |].
  2:{ rewrite <- E3c. by apply pipes_derived_ext. }
  2:{ rewrite <- E3d. by apply weirs_derived_ext. }
  cbn [out_db out_log out_exn]. rewrite and_then_eval.
  erewrite pump_stage_eval; [|exact E4|exact Eavg]. cbn [out_db out_log out_exn].
  rewrite !app_nil_r, !record_sources_app. reflexivity.
Qed.

(** A run that completes is one all of whose stages return. *)
Lemma run_ok fot ds mdb db :
  out_exn (run fot ds mdb db) = None ->
  exists log1 M agg avg F log3 rows0 wrows P W U aggp,
    manhole_statistics ds mdb (node_mapping_of (nodes db)) = (log1, Ok (M, agg)) /\
    avg_timestep ds = Ok avg /\
    flowline_statistics ds (flowlines db) = Ok F /\
    pipe_rows (flowline_mapping "v2_pipe" (flowlines db)) (pipes mdb) [] []
      = (log3, Ok rows0) /\
    weir_rows (flowline_mapping "v2_weir" (flowlines db)) (weirs mdb) = Ok wrows /\
    pipes_derived fot (network_tables (flowlines db) F rows0 wrows) = Ok P /\
    weirs_derived (network_tables (flowlines db) F P wrows) = Ok W /\
    pump_statistics ds mdb = Ok (U, aggp).
Proof.
  intros Hok. unfold run in Hok.
  apply and_then_ok in Hok as [Hok H4]. apply and_then_ok in Hok as [Hok H3].
  apply and_then_ok in Hok as [H1 H2].
  apply manhole_stage_ok in H1 as (log1 & M & agg & avg & E1 & Eavg).
  rewrite (manhole_stage_eval _ _ _ _ _ _ _ E1 Eavg) in H2, H3, H4.
  cbn [out_db] in H2. rewrite and_then_eval in H3, H4.
  apply flowline_stage_ok in H2 as (F & avg' & E2 & _).
  change (flowlines (set_sources _ _)) with (flowlines db) in E2.
  pose proof (flowline_stage_eval ds
                (set_sources (set_manhole_stats db M)
                   (record_sources (manhole_sources agg avg) (stat_source db)))
                F avg E2 Eavg) as R2.
  rewrite R2 in H3, H4. cbn [out_db out_log out_exn] in H3, H4. rewrite and_then_eval in H4.
  apply pipe_weir_stage_ok in H3 as (log3 & rows0 & wrows & P & W & E3a & E3b & E3c & E3d).
  rewrite (pipe_weir_stage_eval fot mdb _ log3 rows0 wrows P W E3a E3b E3c E3d) in H4.
  cbn [out_db] in H4.
  apply pump_stage_ok in H4 as (U & aggp & avg'' & E4 & _).
  exists log1, M, agg, avg, F, log3, rows0, wrows, P, W, U, aggp.
  split_and!; try done.
Qed.

(** X2.  A run that completes leaves a result cache on which the same run
    changes nothing: it returns the same tables, the same provenance rows and
    the same warnings again. *)
Theorem run_idempotent fot ds mdb db :
  out_exn (run fot ds mdb db) = None ->
  run fot ds mdb (out_db (run fot ds mdb db)) = run fot ds mdb db.
Proof.
  intros Hok.
  destruct (run_ok _ _ _ _ Hok)
    as (log1 & M & agg & avg & F & log3 & rows0 & wrows & P & W & U & aggp
        & E1 & Eavg & E2 & E3a & E3b & E3c & E3d & E4).
  rewrite (run_eval _ _ _ _ _ _ _ _ _ _ _ _ _ _ _ _ E1 Eavg E2 E3a E3b E3c E3d E4).
  cbn [out_db].
  erewrite run_eval; [|exact E1|exact Eavg|exact E2|exact E3a|exact E3b|exact E3c
                      |exact E3d|exact E4].
  cbn [nodes flowlines stat_source].
  rewrite record_sources_idempotent by apply all_sources_NoDup.
  reflexivity.
Qed.

(** X2 on the network of [steady_ds]. *)
Lemma run_idempotent_witness :
  out_exn (run float_of_digits steady_ds (network_model "2") network_db) = None /\
  run float_of_digits steady_ds (network_model "2")
    (out_db (run float_of_digits steady_ds (network_model "2") network_db))
  = run float_of_digits steady_ds (network_model "2") network_db.
Proof.
  assert (out_exn (run float_of_digits steady_ds (network_model "2") network_db) = None)
    as Hok by (vm_compute; reflexivity).
  split; [exact Hok|]. exact (run_idempotent _ _ _ _ Hok).
Defined.

Lemma manhole_statistics_flag ds mdb mapping log rows agg :
  manhole_statistics ds mdb mapping = (log, Ok (rows, agg)) ->
  agg = get_available ds "s1_max".
Proof.
  unfold manhole_statistics. destruct (manhole_indices _ _) as [[idx lvl] log'].
  intros [= _ H]. bind_ok H. bind_ok H. bind_ok H. bind_ok H. by injection H as _ <-.
Qed.

Lemma pump_statistics_flag ds mdb rows agg :
  pump_statistics ds mdb = Ok (rows, agg) -> agg = get_available ds "q_pump_cum".
Proof.
  unfold pump_statistics. rewrite <- get_agg_cum_flag.
  destruct (get_agg_cum_if_available ds "q_pump_cum") as [q a].
  intros H. bind_ok H. bind_ok H. by injection H as _ <-.
Qed.

(** X3.  After a run that completes, every [(table, field)] the run records
    is answered by the provenance table with the row of the run's own call,
    whatever the table held before. *)
Theorem run_provenance_complete fot ds mdb db :
  out_exn (run fot ds mdb db) = None ->
  exists avg,
    avg_timestep ds = Ok avg /\
    forall c, c ∈ run_sources ds avg ->
      find_source (stat_source (out_db (run fot ds mdb db))) (call_key c).1 (call_key c).2
      = Some (source_row c).
Proof.
  intros Hok.
  destruct (run_ok _ _ _ _ Hok)
    as (log1 & M & agg & avg & F & log3 & rows0 & wrows & P & W & U & aggp
        & E1 & Eavg & E2 & E3a & E3b & E3c & E3d & E4).
  exists avg. split; [exact Eavg|]. intros c Hc.
  rewrite (run_eval _ _ _ _ _ _ _ _ _ _ _ _ _ _ _ _ E1 Eavg E2 E3a E3b E3c E3d E4).
  cbn [out_db stat_source].
  apply manhole_statistics_flag in E1 as ->. apply pump_statistics_flag in E4 as ->.
  assert (manhole_sources (get_available ds "s1_max") avg ++
          flowline_sources (flow_aggregates ds).1.1 (flow_aggregates ds).1.2
            (flow_aggregates ds).2 avg ++
          pump_sources (get_available ds "q_pump_cum") avg = run_sources ds avg) as ->.
  { unfold run_sources. by destruct (flow_aggregates ds) as [[a b] c']. }
  apply record_sources_find; [apply run_sources_NoDup|exact Hc].
Qed.

(** X3 on the network of [steady_ds]. *)
Lemma run_provenance_complete_witness :
  out_exn (run float_of_digits steady_ds (network_model "2") network_db) = None /\
  exists avg,
    avg_timestep steady_ds = Ok avg /\
    forall c, c ∈ run_sources steady_ds avg ->
      find_source
        (stat_source (out_db (run float_of_digits steady_ds (network_model "2") network_db)))
        (call_key c).1 (call_key c).2
      = Some (source_row c).
Proof.
  assert (out_exn (run float_of_digits steady_ds (network_model "2") network_db) = None)
    as Hok by (vm_compute; reflexivity).
  split; [exact Hok|]. exact (run_provenance_complete _ _ _ _ Hok).
Defined.

(** ** Manholes *)

Lemma round_half_away_mono x y : x <= y -> (round_half_away x <= round_half_away y)%Z.
Proof.
  intros Hxy. unfold round_half_away.
  destruct (Qle_bool 0 x) eqn:Hx, (Qle_bool 0 y) eqn:Hy.
  - apply Qfloor_resp_le. lra.
  - apply Qle_bool_iff in Hx.
    assert (~ 0 <= y) as Hn by (rewrite <- Qle_bool_iff; congruence).
    exfalso. apply Hn. lra.
  - assert (x < 0) as Hn.
    { apply Qnot_le_lt. rewrite <- Qle_bool_iff. congruence. }
    apply Qle_bool_iff in Hy.
    assert (0 <= - x + (1 # 2)) as Hx' by lra.
    assert (0 <= y + (1 # 2)) as Hy' by lra.
    apply Qfloor_resp_le in Hx', Hy'. change (Qfloor 0) with 0%Z in Hx', Hy'. lia.
  - assert (- y + (1 # 2) <= - x + (1 # 2)) as H1 by lra.
    apply Qfloor_resp_le in H1. lia.
Qed.

Lemma py_round_mono x y n : x <= y -> py_round x n <= py_round y n.
Proof.
  intros Hxy. unfold py_round, Qdiv. pose proof (pow10_pos n) as Hp.
  apply Qmult_le_compat_r; [|by apply Qlt_le_weak, Qinv_lt_0_compat].
  rewrite <- Zle_Qle. apply round_half_away_mono.
  apply Qmult_le_compat_r; [exact Hxy|by apply Qlt_le_weak].
Qed.

(** The time loop with an invariant that follows the timestamps. *)
Lemma time_loop_bounded {S} (I : Q -> S -> Prop) (body : Z -> Q -> S -> result S) :
  (forall i prev t s s',
     0 <= t - prev -> I prev s -> body i (t - prev) s = Ok s' -> I t s') ->
  forall ts i prev st st',
    Forall (fun dt => 0 <= dt) (timesteps_from prev ts) ->
    I prev st -> time_loop body i prev ts st = Ok st' ->
    I (default prev (last ts)) st'.
Proof.
  intros Hbody. induction ts as [|t ts IH]; intros i prev st st' Hdt HI Hloop.
  - injection Hloop as <-. exact HI.
  - cbn in Hloop. bind_ok Hloop. cbn in Hdt. apply Forall_cons in Hdt as [Hd Hdt].
    assert (default prev (last (t :: ts)) = default t (last ts)) as ->.
    { rewrite last_cons. by destruct (last ts). }
    eapply IH; [exact Hdt| |exact Hloop]. by eapply Hbody.
Qed.

Lemma manhole_body_bounded ds idx lvl agg i prev t st st' :
  0 <= t - prev -> duration_bounded prev st ->
  manhole_body ds idx lvl agg i (t - prev) st = Ok st' ->
  duration_bounded t st'.
Proof.
  intros Hdt HI. destruct st as [h_max tw]. unfold manhole_body.
  intros H. bind_ok H. injection H as <-. intros j x. cbn. unfold add_where.
  intros (x0 & c & -> & Hx0 & Hc)%lookup_zip_with_Some.
  specialize (HI j x0 Hx0). destruct c; lra.
Qed.

Lemma manhole_rows_duration mapping manhole_idx h_max t h_end :
  forall ms rows,
    manhole_rows mapping manhole_idx h_max t h_end ms = Ok rows ->
    forall row, row ∈ rows ->
    exists ri t_ri, t !! ri = Some t_ri /\
      duration_water_on_surface row = py_round (t_ri / 3600) 3.
Proof.
  induction ms as [|[m sw] ms IH]; intros rows Hrows row Hin.
  - injection Hrows as <-. by apply elem_of_nil in Hin.
  - cbn in Hrows. destruct (mapping !! mh_connection_node_id m) as [idx|] eqn:Hm.
    + bind_ok Hrows. bind_ok Hrows. injection Hrows as <-.
      apply elem_of_cons in Hin as [->|Hin]; [|eauto].
      unfold manhole_row in E. repeat (let x := fresh in bind_ok E).
      injection E as <-. cbn. eexists _, _. split; [by apply getitem_Ok|done].
    + eauto.
Qed.

(** X4.  When no time step of the loop is negative (the first timestamp is
    not below zero and the timestamps do not decrease), the duration of water
    on the surface written for a manhole is not negative.  Only the sign is
    stated: the source sums the time steps in single precision. *)
Theorem duration_on_surface_nonnegative ds mdb mapping log rows agg :
  Forall (fun dt => 0 <= dt) (timesteps_from 0 (timestamps ds)) ->
  manhole_statistics ds mdb mapping = (log, Ok (rows, agg)) ->
  forall row, row ∈ rows -> 0 <= duration_water_on_surface row.
Proof.
  intros Hdt. unfold manhole_statistics.
  destruct (manhole_indices _ _) as [[idx lvl] log'].
  intros [= <- H]. bind_ok H. bind_ok H. bind_ok H. bind_ok H. injection H as <- <-.
  intros row Hin.
  destruct (manhole_rows_duration _ _ _ _ _ _ _ E2 row Hin) as (ri & t & Ht & ->).
  assert (duration_bounded (default 0 (last (timestamps ds))) a0) as Hb.
  { revert E0. apply (time_loop_bounded duration_bounded); [|exact Hdt|].
    - intros. by eapply manhole_body_bounded.
    - intros j x. cbn. unfold np_zeros. intros [-> _]%lookup_replicate. lra. }
  destruct (Hb ri t Ht) as [Hlo _].
  assert (forall x, x / 3600 == x * (1 # 3600)) as Hdiv by (intros; field).
  apply (py_round_ge _ 3 0). rewrite Hdiv. change (inject_Z 0) with 0. lra.
Qed.

(** X4 on scenario 1. *)
Lemma duration_on_surface_nonnegative_witness :
  exists row,
    (manhole_statistics scenario1_ds scenario1_model
       (node_mapping_of (nodes scenario1_db))).2 = Ok ([row], false) /\
    0 <= duration_water_on_surface row.
Proof.
  eexists. split; [vm_compute; reflexivity|].
  eapply (duration_on_surface_nonnegative scenario1_ds scenario1_model
            (node_mapping_of (nodes scenario1_db)) []).
  - repeat constructor; cbn; lra.
  - vm_compute; reflexivity.
  - apply list_elem_of_here.
Defined.

Lemma np_where_first_Ok manhole_idx idx ri :
  np_where_first manhole_idx idx = Ok ri -> manhole_idx !! ri = Some idx.
Proof.
  unfold np_where_first.
  destruct (list_find _ _) as [[i x]|] eqn:Hfind; [|done].
  intros [= ->]. apply list_find_Some in Hfind as (Hx & -> & _). exact Hx.
Qed.

Lemma manhole_rows_max mapping manhole_idx h_max t h_end :
  forall ms rows,
    manhole_rows mapping manhole_idx h_max t h_end ms = Ok rows ->
    forall row, row ∈ rows ->
    exists ri h_max_ri,
      manhole_idx !! ri = Some (ms_id row) /\
      h_getitem h_max ri = Ok h_max_ri /\
      ms_max_waterlevel row = py_round h_max_ri 3.
Proof.
  induction ms as [|[m sw] ms IH]; intros rows Hrows row Hin.
  - injection Hrows as <-. by apply elem_of_nil in Hin.
  - cbn in Hrows. destruct (mapping !! mh_connection_node_id m) as [idx|] eqn:Hm.
    + bind_ok Hrows. bind_ok Hrows. injection Hrows as <-.
      apply elem_of_cons in Hin as [->|Hin]; [|eauto].
      unfold manhole_row in E. bind_ok E. bind_ok E. bind_ok E. bind_ok E.
      injection E as <-. cbn. eexists _, _.
      split; [by apply np_where_first_Ok|]. split; [eassumption|done].
    + eauto.
Qed.

Lemma manhole_loop_max ds idx lvl ri n :
  idx !! ri = Some n ->
  forall ts i prev a tw st' x,
    time_loop (manhole_body ds idx lvl false) i prev ts (HArray a, tw) = Ok st' ->
    a !! ri = Some x ->
    exists a' x',
      st'.1 = HArray a' /\ a' !! ri = Some x' /\ x <= x' /\
      forall k, (k < length ts)%nat ->
        exists s, values_by_timestep_nr ds "s1" (i + Z.of_nat k - 1)%Z !! n = Some s /\
                  data s <= x'.
Proof.
  intros Hri. induction ts as [|t ts IH]; intros i prev a tw st' x Hloop Hx.
  - injection Hloop as <-. exists a, x. split_and!; try done; [lra|].
    intros k Hk. cbn in Hk. lia.
  - cbn in Hloop. bind_ok Hloop. unfold manhole_body in E. bind_ok E.
    injection E as <-. cbn in E0.
    destruct (np_take_lookup _ _ _ _ _ E0 Hri) as (s & Hs & Hval).
    assert (np_maximum a (np_asarray a1) !! ri = Some (Qmax x (data s))) as Hx1.
    { unfold np_maximum, np_asarray.
      by rewrite lookup_zip_with, Hx, list_lookup_fmap, Hs. }
    destruct (IH _ _ _ _ _ _ Hloop Hx1) as (a' & x' & Ha' & Hx' & Hle & Hall).
    exists a', x'. split_and!; try done.
    + pose proof (Q.le_max_l x (data s)). lra.
    + intros [|k] Hk.
      * exists s. rewrite Z.add_0_r. split; [done|].
        pose proof (Q.le_max_r x (data s)). lra.
      * destruct (Hall k) as (s' & Hs' & Hle'); [cbn in Hk; lia|].
        exists s'. split; [|done].
        by replace (i + Z.of_nat (S k) - 1)%Z with (i + 1 + Z.of_nat k - 1)%Z by lia.
Qed.

(** X5.  Without the aggregate [s1_max], the maximum water level written for
    a manhole is at least -9999, the start value, and at least every sample
    the loop read at the manhole's node, rounded alike.  The loop reads the
    step numbers [-1 .. n - 2]. *)
Theorem max_waterlevel_covers_samples ds mdb mapping log rows agg :
  get_available ds "s1_max" = false ->
  manhole_statistics ds mdb mapping = (log, Ok (rows, agg)) ->
  forall row, row ∈ rows ->
    -9999 <= ms_max_waterlevel row /\
    forall k, (k < length (timestamps ds))%nat ->
      exists s,
        values_by_timestep_nr ds "s1" (Z.of_nat k - 1)%Z !! ms_id row = Some s /\
        py_round (data s) 3 <= ms_max_waterlevel row.
Proof.
  intros Hav. unfold manhole_statistics.
  destruct (manhole_indices _ _) as [[idx lvl] log'].
  rewrite Hav. intros [= <- H]. cbn in H. bind_ok H. bind_ok H. bind_ok H.
  injection H as <- <-. intros row Hin.
  destruct (manhole_rows_max _ _ _ _ _ _ _ E1 row Hin) as (ri & h & Hri & Hh & ->).
  assert (np_full (length idx) (-9999) !! ri = Some (-9999)) as H0.
  { unfold np_full. apply lookup_replicate_2. by eapply lookup_lt_Some. }
  destruct (manhole_loop_max ds idx lvl ri (ms_id row) Hri _ _ _ _ _ _ _ E H0)
    as (a' & x' & Ha' & Hx' & Hle & Hall).
  rewrite Ha' in Hh. cbn in Hh. apply getitem_Ok in Hh. simplify_eq. split.
  - apply (py_round_ge h 3 (-9999)). exact Hle.
  - intros k Hk. destruct (Hall k Hk) as (s & Hs & Hle').
    exists s. split; [by rewrite Z.add_0_l in Hs|]. by apply py_round_mono.
Qed.

(** X5 on scenario 1. *)
Lemma max_waterlevel_covers_samples_witness :
  exists row,
    (manhole_statistics scenario1_ds scenario1_model
       (node_mapping_of (nodes scenario1_db))).2 = Ok ([row], false) /\
    -9999 <= ms_max_waterlevel row /\
    forall k, (k < length (timestamps scenario1_ds))%nat ->
      exists s,
        values_by_timestep_nr scenario1_ds "s1" (Z.of_nat k - 1)%Z !! ms_id row = Some s /\
        py_round (data s) 3 <= ms_max_waterlevel row.
Proof.
  eexists. split; [vm_compute; reflexivity|].
  eapply (max_waterlevel_covers_samples scenario1_ds scenario1_model
            (node_mapping_of (nodes scenario1_db)) []).
  - reflexivity.
  - vm_compute; reflexivity.
  - apply list_elem_of_here.
Defined.

Lemma manhole_indices_fold mapping ms :
  forall idx lvl log,
    (foldl (manhole_index_step mapping) (idx, lvl, log) ms).2 =
    log ++ (manhole_warning <$>
              filter (fun m => mapping !! mh_connection_node_id m = None) ms).
Proof.
  induction ms as [|m ms IH]; intros idx lvl log.
  - cbn. by rewrite app_nil_r.
  - change (foldl (manhole_index_step mapping) (idx, lvl, log) (m :: ms))
      with (foldl (manhole_index_step mapping)
              (manhole_index_step mapping (idx, lvl, log) m) ms).
    rewrite filter_cons. unfold manhole_index_step at 2.
    destruct (mapping !! mh_connection_node_id m) as [i|] eqn:Hm.
    + rewrite IH. by rewrite decide_False by done.
    + rewrite IH. rewrite decide_True by done. by rewrite fmap_cons, <- app_assoc.
Qed.

Lemma manhole_rows_ids mapping manhole_idx h_max t h_end :
  forall ms rows,
    manhole_rows mapping manhole_idx h_max t h_end ms = Ok rows ->
    ms_id <$> rows = omap (fun p => mapping !! mh_connection_node_id p.1) ms.
Proof.
  induction ms as [|[m sw] ms IH]; intros rows Hrows.
  - by injection Hrows as <-.
  - cbn in Hrows |- *. destruct (mapping !! mh_connection_node_id m) as [idx|] eqn:Hm.
    + bind_ok Hrows. bind_ok Hrows. injection Hrows as <-.
      rewrite fmap_cons, (IH _ E0). f_equal.
      unfold manhole_row in E. repeat (let x := fresh in bind_ok E).
      by injection E as <-.
    + by apply IH.
Qed.

(** X6.  The first manhole loop logs one warning for each manhole whose
    connection node is not in the results, in query order, and nothing else,
    also when the function raises later.  When it returns, the rows are, in
    query order, those of the manholes with pipes whose node is in the
    results, each with the node's id. *)
Theorem manhole_warnings_and_rows ds mdb mapping :
  (manhole_statistics ds mdb mapping).1 =
    manhole_warning <$>
      filter (fun m => mapping !! mh_connection_node_id m = None) (manholes mdb) /\
  forall rows agg,
    (manhole_statistics ds mdb mapping).2 = Ok (rows, agg) ->
    ms_id <$> rows =
      omap (fun p => mapping !! mh_connection_node_id p.1) (manholes_with_pipes mdb).
Proof.
  unfold manhole_statistics, manhole_indices.
  pose proof (manhole_indices_fold mapping (manholes mdb) [] [] []) as Hlog.
  destruct (foldl _ _ (manholes mdb)) as [[idx lvl] log']. cbn in Hlog |- *.
  split; [exact Hlog|]. intros rows agg H.
  bind_ok H. bind_ok H. bind_ok H. bind_ok H. injection H as <- _.
  by eapply manhole_rows_ids.
Qed.

(** X6 on a model with one manhole in the results and one without. *)
Lemma manhole_warnings_and_rows_witness :
  (manhole_statistics scenario1_ds stray_model (node_mapping_of (nodes scenario1_db))).1
    = [ManholeNotInResults 2] /\
  exists rows,
    (manhole_statistics scenario1_ds stray_model (node_mapping_of (nodes scenario1_db))).2
      = Ok (rows, false) /\
    ms_id <$> rows = [0%nat].
Proof.
  destruct (manhole_warnings_and_rows scenario1_ds stray_model
              (node_mapping_of (nodes scenario1_db))) as [Hlog Hrows].
  split.
  - rewrite Hlog. vm_compute. reflexivity.
  - eexists. split; [vm_compute; reflexivity|].
    rewrite (Hrows _ false) by (vm_compute; reflexivity). vm_compute. reflexivity.
Defined.

(** ** Flowlines *)

Lemma flowline_rows_lookup st qend vend hs he :
  forall fls i rows k row,
    flowline_rows st qend vend hs he i fls = Ok rows ->
    rows !! k = Some row ->
    exists flowline,
      fls !! k = Some flowline /\
      flowline_row st qend vend hs he (i + k) flowline = Ok row.
Proof.
  induction fls as [|fl fls IH]; intros i rows k row Hrows Hk.
  - injection Hrows as <-. done.
  - cbn in Hrows. bind_ok Hrows. bind_ok Hrows. injection Hrows as <-.
    destruct k as [|k]; cbn in Hk.
    + injection Hk as <-. exists fl. by rewrite Nat.add_0_r.
    + destruct (IH _ _ _ _ E0 Hk) as (fl' & Hfl' & Hrow).
      exists fl'. split; [done|]. by replace (i + S k)%nat with (S i + k)%nat by lia.
Qed.

Lemma flowline_rows_length st qend vend hs he :
  forall fls i rows,
    flowline_rows st qend vend hs he i fls = Ok rows -> length rows = length fls.
Proof.
  induction fls as [|fl fls IH]; intros i rows Hrows.
  - by injection Hrows as <-.
  - cbn in Hrows. bind_ok Hrows. bind_ok Hrows. injection Hrows as <-.
    cbn. f_equal. eauto.
Qed.

Lemma flowline_row_fields st qend vend hs he i flowline row :
  flowline_row st qend vend hs he i flowline = Ok row ->
  fs_id row = fl_id flowline /\
  (exists c, qcum st !! i = Some c /\ cum_discharge row = Some (py_round c 3)) /\
  (exists c, qmax st !! i = Some c /\ max_discharge row = Some (py_round c 8)) /\
  (exists c, vmax st !! i = Some c /\ max_velocity row = Some (py_round c 8)) /\
  (exists c, dh_max st !! i = Some c /\ max_waterlevel_head row = Some (py_round c 4)).
Proof.
  unfold flowline_row. intros E. repeat (let x := fresh in bind_ok E).
  injection E as <-. cbn. split_and!; [done|..]; eexists; (split; [by apply getitem_Ok|done]).
Qed.

(** X7.  [calc_flowline_statistics] writes one row for each flowline, in
    the order of the flowlines, with the flowline's id. *)
Theorem flowline_rows_follow_flowlines ds fls rows :
  flowline_statistics ds fls = Ok rows ->
  fs_id <$> rows = fl_id <$> fls.
Proof.
  intros H. apply flowline_statistics_Ok in H as (st & qend & vend & hs & he & _ & Hrows).
  apply list_eq. intros k. rewrite !list_lookup_fmap.
  destruct (rows !! k) as [row|] eqn:Hk; cbn.
  - destruct (flowline_rows_lookup _ _ _ _ _ _ _ _ _ _ Hrows Hk) as (fl & -> & Hrow).
    apply flowline_row_fields in Hrow as (-> & _). done.
  - apply lookup_ge_None in Hk.
    rewrite (flowline_rows_length _ _ _ _ _ _ _ _ Hrows) in Hk.
    apply lookup_ge_None in Hk. by rewrite Hk.
Qed.

(** X7 on the network of [steady_ds]. *)
Lemma flowline_rows_follow_flowlines_witness :
  exists rows,
    flowline_statistics steady_ds (flowlines network_db) = Ok rows /\
    fs_id <$> rows = fl_id <$> flowlines network_db.
Proof.
  eexists. split; [vm_compute; reflexivity|].
  apply (flowline_rows_follow_flowlines steady_ds (flowlines network_db)). vm_compute; reflexivity.
Defined.

Lemma flowline_row_ends st qend vend hs he i flowline row :
  flowline_row st qend vend hs he i flowline = Ok row ->
  (exists c, qend !! i = Some c /\ end_discharge row = Some (py_round c 8)) /\
  (exists c, vend !! i = Some c /\ end_velocity row = Some (py_round c 8)) /\
  (exists c, hs !! i = Some c /\ end_waterlevel_start row = Some (py_round c 3)) /\
  (exists c, he !! i = Some c /\ end_waterlevel_end row = Some (py_round c 3)) /\
  abs_length row = Some (py_round (fl_abs_length flowline) 3).
Proof.
  unfold flowline_row. intros E. repeat (let x := fresh in bind_ok E).
  injection E as <-. cbn.
  split_and!; [..|done]; eexists; (split; [by apply getitem_Ok|done]).
Qed.

(** X8.  The row at position [k] belongs to the flowline at position [k]:
    it has that flowline's id and rounded length; its end discharge is cell
    [k] of the last array of [q], and its end water levels are the cells of
    the last array of [s1] at the flowline's start and end node index, each
    where that cell is unmasked. *)
Theorem flowline_row_by_position ds fls rows k row :
  flowline_statistics ds fls = Ok rows ->
  rows !! k = Some row ->
  exists flowline q h_start h_end,
    fls !! k = Some flowline /\
    fs_id row = fl_id flowline /\
    abs_length row = Some (py_round (fl_abs_length flowline) 3) /\
    values_by_timestep_nr ds "q" (last_timestep_nr ds) !! k = Some q /\
    (mask q = false -> end_discharge row = Some (py_round (data q) 8)) /\
    values_by_timestep_nr ds "s1" (last_timestep_nr ds) !! start_node_idx flowline
      = Some h_start /\
    (mask h_start = false ->
     end_waterlevel_start row = Some (py_round (data h_start) 3)) /\
    values_by_timestep_nr ds "s1" (last_timestep_nr ds) !! end_node_idx flowline
      = Some h_end /\
    (mask h_end = false ->
     end_waterlevel_end row = Some (py_round (data h_end) 3)).
Proof.
  unfold flowline_statistics. intros H Hk. bind_ok H. bind_ok H. bind_ok H.
  destruct (flowline_rows_lookup _ _ _ _ _ _ _ _ _ _ H Hk) as (fl & Hfl & Hrow).
  cbn in Hrow.
  pose proof (flowline_row_fields _ _ _ _ _ _ _ _ Hrow) as (Hid & _).
  apply flowline_row_ends in Hrow
    as ((q & Hq & Hqe) & _ & (hs & Hhs & Hse) & (he & Hhe & Hee) & Hlen).
  unfold data_cells in Hq, Hhs, Hhe. rewrite list_lookup_fmap in Hq, Hhs, Hhe.
  destruct (values_by_timestep_nr ds "q" _ !! k) as [sq|] eqn:Esq; [|done].
  destruct (a0 !! k) as [ss|] eqn:Ess; [|done].
  destruct (a1 !! k) as [se|] eqn:Ese; [|done].
  injection Hq as <-. injection Hhs as <-. injection Hhe as <-.
  destruct (np_take_lookup _ (start_node_idx <$> fls) _ k (start_node_idx fl) E0)
    as (y & Hy & Hys); [by rewrite list_lookup_fmap, Hfl|].
  destruct (np_take_lookup _ (end_node_idx <$> fls) _ k (end_node_idx fl) E1)
    as (z & Hz & Hze); [by rewrite list_lookup_fmap, Hfl|].
  rewrite Ess in Hy. injection Hy as <-. rewrite Ese in Hz. injection Hz as <-.
  exists fl, sq, ss, se. split_and!; done.
Qed.

(** X8 on the weir flowline of [sloped_ds], whose cells are unmasked. *)
Lemma flowline_row_by_position_witness :
  exists rows row,
    flowline_statistics sloped_ds (flowlines network_db) = Ok rows /\
    rows !! 1%nat = Some row /\
    exists q h_start h_end,
      fs_id row = fl_id weir_flowline /\
      abs_length row = Some (py_round (fl_abs_length weir_flowline) 3) /\
      values_by_timestep_nr sloped_ds "q" (last_timestep_nr sloped_ds) !! 1%nat = Some q /\
      mask q = false /\
      end_discharge row = Some (py_round (data q) 8) /\
      values_by_timestep_nr sloped_ds "s1" (last_timestep_nr sloped_ds)
        !! start_node_idx weir_flowline = Some h_start /\
      mask h_start = false /\
      end_waterlevel_start row = Some (py_round (data h_start) 3) /\
      values_by_timestep_nr sloped_ds "s1" (last_timestep_nr sloped_ds)
        !! end_node_idx weir_flowline = Some h_end /\
      mask h_end = false /\
      end_waterlevel_end row = Some (py_round (data h_end) 3).
Proof.
  eexists _, _.
  assert (forall rows row,
            flowline_statistics sloped_ds (flowlines network_db) = Ok rows ->
            rows !! 1%nat = Some row ->
            flowline_statistics sloped_ds (flowlines network_db) = Ok rows /\
            rows !! 1%nat = Some row /\
            exists q h_start h_end,
              fs_id row = fl_id weir_flowline /\
              abs_length row = Some (py_round (fl_abs_length weir_flowline) 3) /\
              values_by_timestep_nr sloped_ds "q" (last_timestep_nr sloped_ds) !! 1%nat
                = Some q /\
              mask q = false /\
              end_discharge row = Some (py_round (data q) 8) /\
              values_by_timestep_nr sloped_ds "s1" (last_timestep_nr sloped_ds)
                !! start_node_idx weir_flowline = Some h_start /\
              mask h_start = false /\
              end_waterlevel_start row = Some (py_round (data h_start) 3) /\
              values_by_timestep_nr sloped_ds "s1" (last_timestep_nr sloped_ds)
                !! end_node_idx weir_flowline = Some h_end /\
              mask h_end = false /\
              end_waterlevel_end row = Some (py_round (data h_end) 3)) as H.
  { intros rows row Hrows Hrow. split; [done|]. split; [done|].
    destruct (flowline_row_by_position sloped_ds _ rows 1 row Hrows Hrow)
      as (fl & q & hs & he & Hfl & Hid & Hlen & Hq & Hqe & Hs & Hse & He & Hee).
    injection Hfl as <-.
    assert (mask q = false) as Mq
      by (vm_compute in Hq; injection Hq as <-; reflexivity).
    assert (mask hs = false) as Ms
      by (vm_compute in Hs; injection Hs as <-; reflexivity).
    assert (mask he = false) as Me
      by (vm_compute in He; injection He as <-; reflexivity).
    exists q, hs, he. split_and!; auto. }
  apply H; [vm_compute; reflexivity|reflexivity].
Defined.




(** The time loop with an invariant of the state alone. *)
Lemma time_loop_preserves {S} (P : S -> Prop) (body : Z -> Q -> S -> result S) :
  (forall i dt s s', P s -> body i dt s = Ok s' -> P s') ->
  forall ts i prev st st',
    P st -> time_loop body i prev ts st = Ok st' -> P st'.
Proof.
  intros Hbody. induction ts as [|t ts IH]; intros i prev st st' HP Hloop.
  - injection Hloop as <-. exact HP.
  - cbn in Hloop. bind_ok Hloop. eauto.
Qed.

(** X10.  With the aggregate [q_cum] in the result file, the time loop
    leaves the accumulator alone: the cumulative discharge written is the
    cell of the last aggregate array, rounded to 3 decimals, where that
    cell is unmasked. *)
Theorem cum_discharge_from_aggregate ds fls rows k row :
  get_available ds "q_cum" = true ->
  flowline_statistics ds fls = Ok rows ->
  rows !! k = Some row ->
  exists s,
    values_by_timestep_nr ds "q_cum"
      (Z.of_nat (length (agg_var_timestamps ds "q_cum")) - 1)%Z !! k = Some s /\
    (mask s = false -> cum_discharge row = Some (py_round (data s) 3)).
Proof.
  intros Hav H Hk.
  apply flowline_statistics_Ok in H as (st & qend & vend & hs & he & Hst & Hrows).
  destruct (flowline_rows_lookup _ _ _ _ _ _ _ _ _ _ Hrows Hk) as (fl & _ & Hrow).
  apply flowline_row_fields in Hrow as (_ & (c & Hc & Hcum) & _).
  cbn in Hc. rewrite flow_after_loop, Hav in Hst.
  assert (qcum st = (get_agg_cum_if_available ds "q_cum").1) as Hq.
  { revert Hst. apply (time_loop_preserves
      (fun s => qcum s = (get_agg_cum_if_available ds "q_cum").1)); [|done].
    intros i dt s s' Hs (? & ? & _ & _ & -> & _)%flow_body_Ok. exact Hs. }
  rewrite Hq in Hc. unfold get_agg_cum_if_available in Hc. rewrite Hav in Hc.
  cbn in Hc. unfold data_cells in Hc. rewrite list_lookup_fmap in Hc.
  destruct (values_by_timestep_nr ds "q_cum" _ !! k) as [s|]; [|done].
  injection Hc as <-. eauto.
Qed.

(** X10 on the weir of [aggregate_ds], whose aggregate cell is unmasked. *)
Lemma cum_discharge_from_aggregate_witness :
  exists rows row s,
    flowline_statistics aggregate_ds (flowlines network_db) = Ok rows /\
    rows !! 1%nat = Some row /\
    values_by_timestep_nr aggregate_ds "q_cum"
      (Z.of_nat (length (agg_var_timestamps aggregate_ds "q_cum")) - 1)%Z !! 1%nat
      = Some s /\
    mask s = false /\
    cum_discharge row = Some (py_round (data s) 3).
Proof.
  eexists _, _.
  assert (forall rows row,
            flowline_statistics aggregate_ds (flowlines network_db) = Ok rows ->
            rows !! 1%nat = Some row ->
            exists s,
              flowline_statistics aggregate_ds (flowlines network_db) = Ok rows /\
              rows !! 1%nat = Some row /\
              values_by_timestep_nr aggregate_ds "q_cum"
                (Z.of_nat (length (agg_var_timestamps aggregate_ds "q_cum")) - 1)%Z
                !! 1%nat = Some s /\
              mask s = false /\
              cum_discharge row = Some (py_round (data s) 3)) as H.
  { intros rows row Hrows Hrow.
    destruct (cum_discharge_from_aggregate aggregate_ds _ rows 1 row eq_refl Hrows Hrow)
      as (s & Hs & Hcum).
    assert (mask s = false) as Ms
      by (vm_compute in Hs; injection Hs as <-; reflexivity).
    exists s. split_and!; auto. }
  apply H; [vm_compute; reflexivity|reflexivity].
Defined.

Lemma max_abs_nonnegative a q :
  Forall (fun x => 0 <= x) a -> Forall (fun x => 0 <= x) (max_abs a q).
Proof.
  intros Ha. apply Forall_lookup. intros j x. unfold max_abs, np_maximum.
  intros (x0 & y & -> & Hx0 & _)%lookup_zip_with_Some.
  pose proof (Forall_lookup_1 _ _ _ _ Ha Hx0) as H0. cbn in H0.
  pose proof (Q.le_max_l x0 y). lra.
Qed.

Lemma flow_body_maxima ds s e aq ap an i dt st st' :
  maxima_nonnegative st ->
  flow_body ds s e aq ap an i dt st = Ok st' ->
  maxima_nonnegative st'.
Proof.
  intros (Hq & Hv & Hd). unfold flow_body. intros H. bind_ok H. bind_ok H.
  injection H as <-. unfold maxima_nonnegative. cbn. split_and!.
  - by apply max_abs_nonnegative.
  - by apply max_abs_nonnegative.
  - apply Forall_lookup. intros j x. unfold np_copyto.
    intros (d & [m w] & -> & Hd0 & Hsw)%lookup_zip_with_Some.
    pose proof (Forall_lookup_1 _ _ _ _ Hd Hd0) as H0. cbn in H0. cbn.
    destruct w; [|done].
    apply lookup_zip_with_Some in Hsw as (m' & w' & [= <- _] & Hm & _).
    unfold np_maximum in Hm.
    apply lookup_zip_with_Some in Hm as (d' & y & -> & Hd' & _).
    rewrite Hd0 in Hd'. injection Hd' as <-.
    pose proof (Q.le_max_l d y). lra.
Qed.

Lemma py_round_nonnegative x n : 0 <= x -> 0 <= py_round x n.
Proof.
  intros Hx. rewrite <- (py_round_zero 0 n) by reflexivity. by apply py_round_mono.
Qed.

Lemma flow_after_maxima ds fls k st :
  flow_after ds fls k = Ok st -> maxima_nonnegative st.
Proof.
  rewrite flow_after_loop. apply (time_loop_preserves maxima_nonnegative).
  - intros i dt s s'. apply flow_body_maxima.
  - unfold maxima_nonnegative, flow_init, np_zeros. cbn.
    split_and!; apply Forall_replicate; lra.
Qed.

Lemma flowline_row_head st qend vend hs he i flowline row :
  maxima_nonnegative st ->
  flowline_row st qend vend hs he i flowline = Ok row ->
  exists dh, max_waterlevel_head row = Some dh /\ 0 <= dh.
Proof.
  intros (_ & _ & Fd) Hrow.
  apply flowline_row_fields in Hrow as (_ & _ & _ & _ & (dh & Hdh & ->)).
  eexists. split; [done|]. apply py_round_nonnegative.
  exact (Forall_lookup_1 _ _ _ _ Fd Hdh).
Qed.

(** X11.  The maximum head difference of a flowline row is never negative,
    and neither is its maximum discharge, nor its maximum velocity, when the
    cell of the flowline is unmasked in every array of [q], or of [u1], that
    the loop reads: they are running maxima of absolute values, started at
    0. *)
Theorem flowline_maxima_nonnegative ds fls rows k row :
  flowline_statistics ds fls = Ok rows ->
  rows !! k = Some row ->
  (exists dh, max_waterlevel_head row = Some dh /\ 0 <= dh) /\
  (unmasked_reads ds "q" k -> exists q, max_discharge row = Some q /\ 0 <= q) /\
  (unmasked_reads ds "u1" k -> exists v, max_velocity row = Some v /\ 0 <= v).
Proof.
  intros H Hk.
  apply flowline_statistics_Ok in H as (st & qend & vend & hs & he & Hst & Hrows).
  destruct (flowline_rows_lookup _ _ _ _ _ _ _ _ _ _ Hrows Hk) as (fl & _ & Hrow).
  apply flowline_row_fields in Hrow
    as (_ & _ & (q & Hq & ->) & (v & Hv & ->) & (dh & Hdh & ->)).
  apply flow_after_maxima in Hst as (Fq & Fv & Fd).
  split_and!; [|intros _..]; (eexists; split; [done|]); apply py_round_nonnegative.
  - exact (Forall_lookup_1 _ _ _ _ Fd Hdh).
  - exact (Forall_lookup_1 _ _ _ _ Fq Hq).
  - exact (Forall_lookup_1 _ _ _ _ Fv Hv).
Qed.

(** X11 on the weir of [steady_ds], whose cells are unmasked. *)
Lemma flowline_maxima_nonnegative_witness :
  exists rows row,
    flowline_statistics steady_ds (flowlines network_db) = Ok rows /\
    rows !! 1%nat = Some row /\
    unmasked_reads steady_ds "q" 1 /\ unmasked_reads steady_ds "u1" 1 /\
    exists q v dh,
      max_discharge row = Some q /\ max_velocity row = Some v /\
      max_waterlevel_head row = Some dh /\
      0 <= q /\ 0 <= v /\ 0 <= dh.
Proof.
  assert (forall name, name = "q"%string \/ name = "u1"%string ->
            unmasked_reads steady_ds name 1) as Hun.
  { intros name Hname i s Hi. change (0 <= i < 3)%Z in Hi.
    assert (i = 0 \/ i = 1 \/ i = 2)%Z as [-> | [-> | ->]] by lia;
      destruct Hname as [->| ->]; vm_compute; intros [= <-]; reflexivity. }
  eexists _, _.
  assert (forall rows row,
            flowline_statistics steady_ds (flowlines network_db) = Ok rows ->
            rows !! 1%nat = Some row ->
            flowline_statistics steady_ds (flowlines network_db) = Ok rows /\
            rows !! 1%nat = Some row /\
            unmasked_reads steady_ds "q" 1 /\ unmasked_reads steady_ds "u1" 1 /\
            exists q v dh,
              max_discharge row = Some q /\ max_velocity row = Some v /\
              max_waterlevel_head row = Some dh /\
              0 <= q /\ 0 <= v /\ 0 <= dh) as H.
  { intros rows row Hrows Hrow.
    destruct (flowline_maxima_nonnegative steady_ds _ rows 1 row Hrows Hrow)
      as ((dh & Hdh & Hd0) & Hq & Hv).
    destruct (Hq (Hun _ (or_introl eq_refl))) as (q & Hq' & Hq0).
    destruct (Hv (Hun _ (or_intror eq_refl))) as (v & Hv' & Hv0).
    split_and!; auto. exists q, v, dh. split_and!; done. }
  apply H; [vm_compute; reflexivity|reflexivity].
Defined.




(** ** Weirs and pipes *)

Lemma sql_max_fold column :
  forall m0 m,
    foldl sql_max_step m0 column = Some m ->
    (forall a, m0 = Some a -> a <= m) /\
    (forall x, Some x ∈ column -> x <= m).
Proof.
  induction column as [|c column IH]; intros m0 m H.
  - cbn in H. subst m0. split.
    + intros a [= ->]. apply Qle_refl.
    + intros x []%elem_of_nil.
  - change (foldl sql_max_step m0 (c :: column))
      with (foldl sql_max_step (sql_max_step m0 c) column) in H.
    destruct (IH _ _ H) as [H0 Hcol]. split.
    + intros a ->. destruct c as [b|]; cbn in H0.
      * pose proof (H0 _ eq_refl). pose proof (Q.le_max_l a b). lra.
      * by apply H0.
    + intros x [[= <-]|Hin]%elem_of_cons; [|by apply Hcol].
      destruct m0 as [a|]; cbn in H0.
      * pose proof (H0 _ eq_refl). pose proof (Q.le_max_r a x). lra.
      * by apply H0.
Qed.

Lemma sql_max_upper column m x :
  sql_max column = Some m -> Some x ∈ column -> x <= m.
Proof. intros H. by apply (sql_max_fold column None m). Qed.

Lemma joined_stats_Some db id stats :
  joined_stats db id = Some stats ->
  stats ∈ flowline_stats db /\ fs_id stats = id.
Proof.
  unfold joined_stats. destruct (existsb _ _); [|done].
  intros [Hin Heq]%find_some. split; [by apply list_elem_of_In|].
  by apply Nat.eqb_eq.
Qed.

Lemma perc_of_share x m p :
  (forall c, x = Some c -> Qabs c <= m) ->
  perc_of x (Some m) = Ok p -> share_or_null p.
Proof.
  intros Hle. unfold perc_of, need, py_div. destruct x as [c|]; [|done]. cbn.
  destruct (Qeq_bool m 0) eqn:Hm; [done|]. cbn. intros [= <-]. cbn.
  apply Qeq_bool_neq in Hm.
  specialize (Hle c eq_refl). apply Qabs_Qle_condition in Hle as [Hlo Hhi].
  assert (0 < m) as Hpos.
  { destruct (Qlt_le_dec 0 m) as [|Hneg]; [done|].
    exfalso. apply Hm. lra. }
  split.
  - apply (py_round_ge _ 2 (-100)). change (inject_Z (-100)) with (-100).
    apply Qle_shift_div_l; [done|]. lra.
  - apply (py_round_le _ 2 100). change (inject_Z 100) with 100.
    apply Qle_shift_div_r; [done|]. lra.
Qed.

Lemma weir_derived_share db weir stats row mp mn :
  weir ∈ weir_stats db ->
  joined_stats db (ws_id weir) = Some stats ->
  weir_derived
    (sql_max ((fun fs => Qabs <$> cum_discharge fs) <$> weir_flowline_stats db))
    mp mn weir stats = Ok row ->
  share_or_null (perc_volume row).
Proof.
  intros Hweir [Hin Hid]%joined_stats_Some. unfold weir_derived. intros H.
  bind_ok H. bind_ok H. bind_ok H. bind_ok H. injection H as <-. cbn.
  destruct (sql_max _) as [m|] eqn:Hmax.
  - eapply perc_of_share; [|exact E]. intros c Hc.
    apply (sql_max_upper _ _ _ Hmax).
    apply list_elem_of_fmap. exists stats. split; [by rewrite Hc|].
    unfold weir_flowline_stats. apply list_elem_of_filter. split; [|done].
    apply existsb_exists. exists weir. split; [by apply list_elem_of_In|].
    apply Nat.eqb_eq. done.
  - unfold perc_of, need in E. by destruct (cum_discharge stats).
Qed.

(** X13.  When [calc_pipe_and_weir_statistics] returns, the share
    [perc_volume] of every weir row is null or lies in [[-100, 100]]: the
    divisor is the largest absolute cumulative discharge over the weirs. *)
Theorem weir_volume_share_bounds fot mdb db :
  out_exn (calc_pipe_and_weir_statistics fot mdb db) = None ->
  forall row, row ∈ weir_stats (out_db (calc_pipe_and_weir_statistics fot mdb db)) ->
  share_or_null (perc_volume row).
Proof.
  unfold calc_pipe_and_weir_statistics.
  destruct (pipe_rows _ _ _ _) as [log [rows0|]]; [|done].
  destruct (weir_rows _ _) as [wrows|] eqn:Hw; [|done].
  destruct (pipes_derived _ _) as [rows1|]; [|done].
  destruct (weirs_derived _) as [wrows1|] eqn:Hw1; [|done].
  cbn. intros _ row Hin. unfold weirs_derived in Hw1.
  destruct (mapM_Ok_elem _ _ _ Hw1 row Hin) as (weir & Hweir & Hrow).
  destruct (joined_stats _ _) as [stats|] eqn:Hj.
  - by eapply weir_derived_share.
  - injection Hrow as <-. cbn in Hweir.
    destruct (mapM_Ok_elem _ _ _ Hw weir Hweir) as (w & _ & Hstat).
    unfold weir_stat in Hstat. bind_ok Hstat. by injection Hstat as <-.
Qed.

(** X13 on the weir of [steady_ds]. *)
Lemma weir_volume_share_bounds_witness :
  exists row,
    weir_stats (out_db (calc_pipe_and_weir_statistics float_of_digits
                          (network_model "2") steady_flow_db)) !! 0%nat = Some row /\
    perc_volume row = Some 100.00 /\
    share_or_null (perc_volume row).
Proof.
  eexists. split; [vm_compute; reflexivity|]. split; [reflexivity|].
  apply (weir_volume_share_bounds float_of_digits (network_model "2") steady_flow_db).
  - vm_compute; reflexivity.
  - apply list_elem_of_lookup_2 with 0%nat. vm_compute; reflexivity.
Defined.

Lemma py_round_integer x n z : x == inject_Z z -> py_round x n == inject_Z z.
Proof.
  intros Hx. apply Qle_antisym.
  - apply py_round_le. rewrite Hx. apply Qle_refl.
  - apply py_round_ge. rewrite Hx. apply Qle_refl.
Qed.

(** X14.  For a positive profile height [get_filling] saturates: it is 100
    when the water level is at or above the crown at both ends, and 0 when
    it is at or below the invert at both ends. *)
Theorem get_filling_saturates start_level end_level start_invert end_invert height :
  0 < height ->
  (start_invert + height <= start_level -> end_invert + height <= end_level ->
   exists v, get_filling (Some start_level) (Some end_level) (Some start_invert)
               (Some end_invert) (Some height) = Ok (Some v) /\ v == 100) /\
  (start_level <= start_invert -> end_level <= end_invert ->
   exists v, get_filling (Some start_level) (Some end_level) (Some start_invert)
               (Some end_invert) (Some height) = Ok (Some v) /\ v == 0).
Proof.
  intros Hpos.
  assert (Qeq_bool height 0 = false) as Hz.
  { destruct (Qeq_bool height 0) eqn:E; [|done]. apply Qeq_bool_iff in E. lra. }
  assert (forall x, 100 * x / 2 == 50 * x) as Hhalf by (intros; field).
  unfold get_filling, py_div. rewrite Hz. cbn. split.
  - intros Hs He. eexists. split; [reflexivity|].
    apply (py_round_integer _ 3 100). rewrite Hhalf.
    assert (1 <= (start_level - start_invert) / height) as H1
      by (apply Qle_shift_div_l; [done|lra]).
    assert (1 <= (end_level - end_invert) / height) as H2
      by (apply Qle_shift_div_l; [done|lra]).
    rewrite (Q.min_l _ _ H1), (Q.min_l _ _ H2).
    rewrite (Q.max_r 0 1) by lra. reflexivity.
  - intros Hs He. eexists. split; [reflexivity|].
    apply (py_round_integer _ 3 0). rewrite Hhalf.
    assert ((start_level - start_invert) / height <= 0) as H1
      by (apply Qle_shift_div_r; [done|lra]).
    assert ((end_level - end_invert) / height <= 0) as H2
      by (apply Qle_shift_div_r; [done|lra]).
    rewrite (Q.min_r 1 ((start_level - start_invert) / height)) by lra.
    rewrite (Q.min_r 1 ((end_level - end_invert) / height)) by lra.
    rewrite (Q.max_l _ _ H1), (Q.max_l _ _ H2). reflexivity.
Qed.

(** X14 on a pipe of height 2 with invert level 1. *)
Lemma get_filling_saturates_witness :
  (exists v, get_filling (Some 4) (Some 3.5) (Some 1) (Some 1) (Some 2) = Ok (Some v) /\
             v == 100) /\
  (exists v, get_filling (Some 0.5) (Some 1) (Some 1) (Some 1) (Some 2) = Ok (Some v) /\
             v == 0).
Proof.
  split.
  - apply (proj1 (get_filling_saturates 4 3.5 1 1 2 ltac:(lra))); lra.
  - apply (proj2 (get_filling_saturates 0.5 1 1 1 2 ltac:(lra))); lra.
Defined.

Lemma hydro_gradient_nonnegative stats head :
  max_waterlevel_head stats = Some head -> 0 <= head ->
  nonnegative_or_null (hydro_gradient None stats).
Proof.
  intros Hh Hpos. unfold hydro_gradient. rewrite Hh.
  destruct (abs_length stats) as [l|]; [|done].
  destruct (Qle_bool l 0) eqn:Hl; [done|]. cbn.
  assert (0 < l) as Hlpos.
  { apply Qnot_le_lt. rewrite <- Qle_bool_iff. congruence. }
  apply py_round_nonnegative.
  assert (0 <= head / l) by (apply Qle_shift_div_l; [done|lra]). lra.
Qed.

(** X15.  After a run that completes, the hydraulic gradient of every pipe
    row is null or not negative: it is a percentage of a head difference
    that is not negative over a length that is positive. *)
Theorem hydraulic_gradient_nonnegative fot ds mdb db :
  out_exn (run fot ds mdb db) = None ->
  forall row, row ∈ pipe_stats (out_db (run fot ds mdb db)) ->
    nonnegative_or_null (max_hydro_gradient row).
Proof.
  intros Hok.
  destruct (run_ok _ _ _ _ Hok)
    as (log1 & M & agg & avg & F & log3 & rows0 & wrows & P & W & U & aggp
        & E1 & Eavg & E2 & E3a & E3b & E3c & E3d & E4).
  rewrite (run_eval _ _ _ _ _ _ _ _ _ _ _ _ _ _ _ _ E1 Eavg E2 E3a E3b E3c E3d E4).
  cbn [out_db pipe_stats]. intros row Hin. unfold pipes_derived in E3c.
  destruct (mapM_Ok_elem _ _ _ E3c row Hin) as (pipe & Hpipe & Hrow).
  cbn [pipe_stats network_tables] in Hpipe.
  destruct (pipe_rows_Ok _ _ _ _ _ _ E3a pipe Hpipe) as [[]%elem_of_nil|(p & _ & Hp)].
  apply pipe_stat_fresh in Hp as (_ & Hfresh & _).
  destruct (joined_stats _ _) as [stats|] eqn:Hj.
  - unfold pipe_derived in Hrow. bind_ok Hrow. bind_ok Hrow. injection Hrow as <-.
    cbn [max_hydro_gradient]. rewrite Hfresh.
    apply joined_stats_Some in Hj as [Hstats _]. cbn [flowline_stats network_tables] in Hstats.
    apply flowline_statistics_Ok in E2 as (st & qend & vend & hs & he & Hst & Hrows).
    apply list_elem_of_lookup in Hstats as [k Hk].
    destruct (flowline_rows_lookup _ _ _ _ _ _ _ _ _ _ Hrows Hk) as (fl & _ & Hfl).
    destruct (flowline_row_head _ _ _ _ _ _ _ _ (flow_after_maxima _ _ _ _ Hst) Hfl)
      as (dh & Hdh & Hpos).
    by eapply hydro_gradient_nonnegative.
  - injection Hrow as <-. by rewrite Hfresh.
Qed.

(** X15 on the pipe of [sloped_ds]: a head of 0.5 over 50 m. *)
Lemma hydraulic_gradient_nonnegative_witness :
  exists row,
    pipe_stats (out_db (run float_of_digits sloped_ds (network_model "2") network_db))
      !! 0%nat = Some row /\
    max_hydro_gradient row = Some 1.000 /\
    nonnegative_or_null (max_hydro_gradient row).
Proof.
  eexists. split; [vm_compute; reflexivity|]. split; [reflexivity|].
  apply (hydraulic_gradient_nonnegative float_of_digits sloped_ds (network_model "2")
           network_db).
  - vm_compute; reflexivity.
  - apply list_elem_of_lookup_2 with 0%nat. vm_compute; reflexivity.
Defined.

(** ** A time axis of fewer than two timestamps *)

Lemma avg_timestep_short ds :
  (length (timestamps ds) <= 1)%nat -> exists e, avg_timestep ds = Raise e.
Proof.
  unfold avg_timestep, last_timestep_nr, np_div.
  destruct (timestamps ds) as [|t [|t' ts]]; cbn [length last]; [eauto| |lia].
  intros _. change (Qeq_bool (inject_Z (Z.of_nat 1 - 1)) 0) with true. cbn.
  destruct (Qeq_bool t 0); eauto.
Qed.

(** X16.  A result file with fewer than two timestamps never gets through
    a run: the average time step [timestamps[-1] / (len(timestamps) - 1)]
    cannot be taken, the run ends with an exception in the manhole function,
    no provenance row is written, and no table but the manhole statistics
    is touched. *)
Theorem short_time_axis_aborts fot ds mdb db :
  (length (timestamps ds) <= 1)%nat ->
  let o := run fot ds mdb db in
  out_exn o <> None /\
  stat_source (out_db o) = stat_source db /\
  flowline_stats (out_db o) = flowline_stats db /\
  pipe_stats (out_db o) = pipe_stats db /\
  weir_stats (out_db o) = weir_stats db /\
  pumpline_stats (out_db o) = pumpline_stats db.
Proof.
  intros Hlen. destruct (avg_timestep_short ds Hlen) as [e He].
  unfold run, get_manhole_attributes_and_statistics.
  destruct (manhole_statistics _ _ _) as [log [[rows agg]|e']].
  - rewrite He. cbn. done.
  - cbn. done.
Qed.

(** X16 on a result file with the one timestamp 10: [int(inf)]. *)
Lemma short_time_axis_aborts_witness :
  let o := run float_of_digits single_step_ds (network_model "2") network_db in
  (length (timestamps single_step_ds) <= 1)%nat /\
  out_exn o = Some OverflowError /\
  out_exn o <> None /\
  stat_source (out_db o) = stat_source network_db /\
  flowline_stats (out_db o) = flowline_stats network_db /\
  pipe_stats (out_db o) = pipe_stats network_db /\
  weir_stats (out_db o) = weir_stats network_db /\
  pumpline_stats (out_db o) = pumpline_stats network_db.
Proof.
  intros o.
  assert (length (timestamps single_step_ds) <= 1)%nat as Hlen by (cbn; lia).
  split; [exact Hlen|]. split; [vm_compute; reflexivity|].
  exact (short_time_axis_aborts float_of_digits single_step_ds (network_model "2")
           network_db Hlen).
Defined.

(** ** Missing flowlines and the pump accumulator, on concrete inputs *)

(** X17 on a model pipe the result cache has no flowline for. *)
Lemma unmapped_pipe_raises_witness :
  let o := calc_pipe_and_weir_statistics float_of_digits unmapped_pipe_model nodes_only_db in
  out_exn o = Some KeyError /\ out_db o = nodes_only_db /\
  exists id, NoResultForPipe id ∈ out_log o.
Proof.
  apply (unmapped_pipe_raises float_of_digits unmapped_pipe_model nodes_only_db
           (network_pipe "2")).
  - apply list_elem_of_here.
  - vm_compute; reflexivity.
Defined.

(** X18 on a model weir the result cache has no flowline for. *)
Lemma unmapped_weir_raises_witness :
  let o := calc_pipe_and_weir_statistics float_of_digits unmapped_weir_model nodes_only_db in
  out_exn o = Some KeyError /\ out_log o = [].
Proof.
  apply (unmapped_weir_raises float_of_digits unmapped_weir_model nodes_only_db network_weir).
  - intros pipe Hin. by apply elem_of_nil in Hin.
  - apply list_elem_of_here.
  - vm_compute; reflexivity.
Defined.

(** X19 on the pump of [pump_ds]. *)
Lemma pump_cumulative_discharge_zero_witness :
  exists row,
    pump_statistics pump_ds pump_model = Ok ([row], false) /\
    pl_cum_discharge row == 0.
Proof.
  eexists. split; [vm_compute; reflexivity|].
  eapply (pump_cumulative_discharge_zero pump_ds pump_model).
  - reflexivity.
  - vm_compute; reflexivity.
  - apply list_elem_of_here.
Defined.

(** ** The views *)

Lemma filter_all {A} (P : A -> Prop) `{!forall x, Decision (P x)} (l : list A) :
  (forall x, x ∈ l -> P x) -> filter P l = l.
Proof.
  induction l as [|a l IH]; intros Hall; [done|].
  rewrite filter_cons_True by apply Hall, list_elem_of_here.
  f_equal. apply IH. intros x Hx. by apply Hall, list_elem_of_further.
Qed.

Lemma filter_none {A} (P : A -> Prop) `{!forall x, Decision (P x)} (l : list A) :
  (forall x, x ∈ l -> ~ P x) -> filter P l = [].
Proof.
  induction l as [|a l IH]; intros Hall; [done|].
  rewrite filter_cons_False by apply Hall, list_elem_of_here.
  apply IH. intros x Hx. by apply Hall, list_elem_of_further.
Qed.

Lemma register_view_rows table name cat :
  views_geometry_columns (register_view table name cat) =
  filter (fun r => reg_view_name r <> name) (views_geometry_columns cat)
  ++ [registration_of table name].
Proof.
  unfold register_view, insert_registration, delete_registration,
    create_view_if_not_exists. cbn.
  by destruct (bool_decide (name ∈ cat_views cat)).
Qed.

Lemma register_view_names table name cat :
  cat_views (register_view table name cat) =
  if bool_decide (name ∈ cat_views cat) then cat_views cat else cat_views cat ++ [name].
Proof.
  unfold register_view, insert_registration, delete_registration,
    create_view_if_not_exists. cbn.
  by destruct (bool_decide (name ∈ cat_views cat)).
Qed.

Lemma register_views_rows table names :
  NoDup names ->
  forall cat,
    views_geometry_columns (foldl (fun c n => register_view table n c) cat names) =
    registered table names cat.
Proof.
  unfold registered.
  induction 1 as [|n ns Hn Hns IH]; intros cat.
  - cbn. rewrite app_nil_r. symmetry. apply filter_all. intros r _. apply not_elem_of_nil.
  - change (foldl (fun c n => register_view table n c) cat (n :: ns))
      with (foldl (fun c n => register_view table n c) (register_view table n cat) ns).
    rewrite IH, register_view_rows, filter_app, fmap_cons.
    rewrite list_filter_filter.
    rewrite (filter_singleton_True (fun r => reg_view_name r ∉ ns) (registration_of table n) [] Hn).
    rewrite <- app_assoc. f_equal.
    apply list_filter_iff. intros r. rewrite not_elem_of_cons. tauto.
Qed.

Lemma create_line_views_fold cat :
  create_line_views cat = foldl (fun c n => register_view "flowlines" n c) cat line_view_names.
Proof. reflexivity. Qed.

Lemma create_node_views_fold cat :
  create_node_views cat = foldl (fun c n => register_view "nodes" n c) cat node_view_names.
Proof. reflexivity. Qed.

Lemma register_views_names_in table names :
  forall cat name,
    name ∈ names \/ name ∈ cat_views cat ->
    name ∈ cat_views (foldl (fun c n => register_view table n c) cat names).
Proof.
  induction names as [|n ns IH]; intros cat name [Hin|Hin].
  - by apply elem_of_nil in Hin.
  - done.
  - change (foldl (fun c n => register_view table n c) cat (n :: ns))
      with (foldl (fun c n => register_view table n c) (register_view table n cat) ns).
    apply IH. apply elem_of_cons in Hin as [->|Hin]; [right|by left].
    rewrite register_view_names. destruct (bool_decide (n ∈ cat_views cat)) eqn:E.
    + by apply bool_decide_eq_true in E.
    + apply elem_of_app. right. apply list_elem_of_here.
  - change (foldl (fun c n => register_view table n c) cat (n :: ns))
      with (foldl (fun c n => register_view table n c) (register_view table n cat) ns).
    apply IH. right. rewrite register_view_names.
    destruct (bool_decide (n ∈ cat_views cat)); [done|]. apply elem_of_app. by left.
Qed.

Lemma register_views_names_fixed table names :
  forall cat,
    (forall n, n ∈ names -> n ∈ cat_views cat) ->
    cat_views (foldl (fun c n => register_view table n c) cat names) = cat_views cat.
Proof.
  induction names as [|n ns IH]; intros cat Hall; [done|].
  change (foldl (fun c n => register_view table n c) cat (n :: ns))
    with (foldl (fun c n => register_view table n c) (register_view table n cat) ns).
  assert (cat_views (register_view table n cat) = cat_views cat) as Hn.
  { rewrite register_view_names, bool_decide_eq_true_2; [done|].
    apply Hall, list_elem_of_here. }
  rewrite IH, Hn; [done|]. intros n' Hn'. rewrite Hn. by apply Hall, list_elem_of_further.
Qed.

Lemma catalogue_eq (c c' : catalogue) :
  cat_views c = cat_views c' ->
  views_geometry_columns c = views_geometry_columns c' -> c = c'.
Proof. destruct c, c'. cbn. by intros -> ->. Qed.

Lemma register_views_idempotent table names cat :
  NoDup names ->
  foldl (fun c n => register_view table n c)
    (foldl (fun c n => register_view table n c) cat names) names
  = foldl (fun c n => register_view table n c) cat names.
Proof.
  intros Hnd. apply catalogue_eq.
  - apply register_views_names_fixed. intros n Hn.
    apply register_views_names_in. by left.
  - rewrite !register_views_rows by done. unfold registered.
    rewrite register_views_rows by done. unfold registered.
    rewrite filter_app, list_filter_filter.
    rewrite (filter_none _ (registration_of table <$> names)), app_nil_r.
    + f_equal. apply list_filter_iff. tauto.
    + intros r (n & -> & Hn)%list_elem_of_fmap. cbn. tauto.
Qed.

(** X20.  [create_node_views], [create_line_views] and [create_pump_views]
    leave exactly one registration for each of their views, after the rows
    of all other views, which they keep as they are and in their order,
    whatever was registered before; doing it again changes nothing. *)
Theorem result_views_registered_once cat :
  (views_geometry_columns (create_node_views cat) = registered "nodes" node_view_names cat /\
   create_node_views (create_node_views cat) = create_node_views cat) /\
  (views_geometry_columns (create_line_views cat)
     = registered "flowlines" line_view_names cat /\
   create_line_views (create_line_views cat) = create_line_views cat) /\
  (views_geometry_columns (create_pump_views cat)
     = registered "pumplines" ["pump_stats_view"] cat /\
   create_pump_views (create_pump_views cat) = create_pump_views cat).
Proof.
  assert (NoDup node_view_names) as Hn by (apply (bool_decide_unpack _); vm_compute; exact I).
  assert (NoDup line_view_names) as Hl by (apply (bool_decide_unpack _); vm_compute; exact I).
  assert (NoDup ["pump_stats_view"%string]) as Hp
    by (apply (bool_decide_unpack _); vm_compute; exact I).
  split_and!.
  - rewrite create_node_views_fold. by apply register_views_rows.
  - rewrite !create_node_views_fold. by apply register_views_idempotent.
  - rewrite create_line_views_fold. by apply register_views_rows.
  - rewrite !create_line_views_fold. by apply register_views_idempotent.
  - by apply (register_views_rows "pumplines" ["pump_stats_view"%string]).
  - by apply (register_views_idempotent "pumplines" ["pump_stats_view"%string]).
Qed.

(** Registering a view changes the answer of [has_res_views] only for
    [pump_stats_view]. *)
Lemma has_res_views_register table name cat :
  has_res_views (register_view table name cat) =
  if bool_decide (name = "pump_stats_view"%string) then true else has_res_views cat.
Proof.
  unfold has_res_views. rewrite register_view_rows, filter_app, list_filter_filter.
  case_bool_decide as Hname.
  - subst name.
    rewrite (filter_singleton_True (fun r => reg_view_name r = "pump_stats_view"%string)
               (registration_of table "pump_stats_view") [] eq_refl), length_app. cbn.
    destruct (length _ + 1)%nat eqn:E; [lia|done].
  - rewrite (filter_singleton_False (fun r => reg_view_name r = "pump_stats_view"%string)
               (registration_of table name) []) by (cbn; congruence).
    rewrite app_nil_r.
    do 3 f_equal. apply list_filter_iff. intros r. split; [tauto|].
    intros Hr. split; [done|congruence].
Qed.

Lemma has_res_views_node cat : has_res_views (create_node_views cat) = has_res_views cat.
Proof. unfold create_node_views. by rewrite !has_res_views_register. Qed.

Lemma has_res_views_line cat : has_res_views (create_line_views cat) = has_res_views cat.
Proof. unfold create_line_views. by rewrite !has_res_views_register. Qed.

Lemma has_res_views_pump cat : has_res_views (create_pump_views cat) = true.
Proof. unfold create_pump_views. by rewrite has_res_views_register. Qed.

Lemma stage_has_res_views f views c :
  (forall cat, has_res_views (views cat) = has_res_views cat) ->
  has_res_views (c_cat (stage f views c)) = has_res_views (c_cat c).
Proof.
  intros Hv. unfold stage. destruct (c_exn c); [done|]. cbn.
  by destruct (out_exn (f (c_db c))).
Qed.

(** X21.  [has_res_views] looks for the view that is registered last:
    after the calculation it holds exactly when it held before or all four
    statistics functions got through. *)
Theorem result_views_mark_completed_run fot ds mdb db cat :
  let c := calculate fot ds mdb db cat in
  has_res_views (c_cat c) = has_res_views cat || bool_decide (c_exn c = None).
Proof.
  unfold calculate.
  set (c3 := stage (calc_pipe_and_weir_statistics fot mdb) create_line_views _).
  assert (has_res_views (c_cat c3) = has_res_views cat) as H3.
  { unfold c3. rewrite stage_has_res_views by apply has_res_views_line.
    rewrite stage_has_res_views by done.
    rewrite stage_has_res_views by apply has_res_views_node. done. }
  clearbody c3. cbn zeta. unfold stage. destruct (c_exn c3) as [e|] eqn:E3.
  - rewrite E3, H3. cbn. by rewrite orb_false_r.
  - cbn. destruct (out_exn _) as [e|]; cbn.
    + by rewrite H3, orb_false_r.
    + by rewrite has_res_views_pump, orb_true_r.
Qed.

(** The calculation with the views left out is [run] of the first part. *)
Lemma stage_and_then f views c o :
  c_db c = out_db o /\ c_log c = out_log o /\ c_exn c = out_exn o ->
  c_db (stage f views c) = out_db (and_then o f) /\
  c_log (stage f views c) = out_log (and_then o f) /\
  c_exn (stage f views c) = out_exn (and_then o f).
Proof.
  intros (Hdb & Hlog & Hexn). unfold stage, and_then. rewrite Hexn.
  destruct (out_exn o) eqn:E; [split_and!; congruence|]. cbn. by rewrite Hdb, Hlog.
Qed.

Lemma calculate_run fot ds mdb db cat :
  c_db (calculate fot ds mdb db cat) = out_db (run fot ds mdb db) /\
  c_log (calculate fot ds mdb db cat) = out_log (run fot ds mdb db) /\
  c_exn (calculate fot ds mdb db cat) = out_exn (run fot ds mdb db).
Proof.
  unfold calculate, run. cbn zeta.
  do 3 apply stage_and_then. unfold stage. cbn. done.
Qed.

Lemma has_mod_views_app m names :
  has_mod_views {| mod_names := names;
                   geometry_columns :=
                     geometry_columns m ++ ["v2_pumpstation_point_view";
                                            "v2_1d_lateral_view";
                                            "v2_1d_boundary_conditions_view"] |} = true.
Proof.
  unfold has_mod_views. cbn [geometry_columns]. rewrite filter_app, length_app.
  cbn [length filter]. rewrite !filter_cons, filter_nil.
  repeat case_decide; try congruence; cbn [length]; by rewrite Nat.add_succ_r.
Qed.

(** X23.  [add_modeldb_views] registers its three views in
    [geometry_columns], after which [has_mod_views] holds; a second call
    would fail on the first [CREATE VIEW], which the guard in [run]
    prevents. *)
Theorem model_views_added_once m m' :
  add_modeldb_views m = Some m' ->
  geometry_columns m' =
    geometry_columns m ++ ["v2_pumpstation_point_view"; "v2_1d_lateral_view";
                           "v2_1d_boundary_conditions_view"] /\
  has_mod_views m' = true /\
  add_modeldb_views m' = None.
Proof.
  unfold add_modeldb_views, add_model_view.
  case_bool_decide as H1; [done|]. cbn.
  case_bool_decide as H2; [done|]. cbn.
  case_bool_decide as H3; [done|]. intros [= <-]. cbn [geometry_columns mod_names].
  rewrite <- !app_assoc. cbn [app]. split; [done|]. split.
  - apply has_mod_views_app.
  - rewrite bool_decide_eq_true_2; [done|].
    rewrite !elem_of_app, !elem_of_cons. tauto.
Qed.

(** X23 on a model database without the views. *)
Lemma model_views_added_once_witness :
  exists m',
    add_modeldb_views fresh_model_catalogue = Some m' /\
    geometry_columns m' =
      ["v2_connection_nodes"; "v2_pumpstation_point_view"; "v2_1d_lateral_view";
       "v2_1d_boundary_conditions_view"] /\
    has_mod_views m' = true /\
    add_modeldb_views m' = None.
Proof.
  eexists. split; [reflexivity|].
  exact (model_views_added_once fresh_model_catalogue _ eq_refl).
Defined.
